(** * HyperSmart: the Bybit mirror engine ([bybit_sync.py])

    A shallow embedding of [BybitSyncManager] and proofs about its
    classification, de-duplication, close handling, order-id mapping and
    forced-liquidation memo.

    Modelling conventions
    - Python [float] values (sizes, prices, times in seconds) are rationals
      [Q]; comparisons are the exact ones.  Where the code divides,
      subtracts, adds or multiplies floats before a comparison with a
      threshold, the operation is the one of binary64: the operands are
      brought to the nearest double and the exact result is rounded to the
      nearest double ([Py.float], [Py.fdiv], [Py.fsub], [Py.fadd],
      [Py.fmul]).  Infinities and NaN are not modelled.
    - Python [set]s and [dict]s are stdpp [gset]s and [gmap]s.
    - Every collaborator that lives outside the module (the Bybit client,
      the notifier, the database, the TWAP manager, the reverse handler, the
      position calculator, the symbol filter, the clock) is reached through
      one typed request [Call A]; the answer comes from an arbitrary oracle
      over an abstract world, and every request is appended to a trace.
      An answer may be an exception.
    - Log lines and notification texts are not modelled; a notification is
      the request that sends it. *)

From Stdlib Require Import QArith Qabs Qminmax Qround Lqa ZArith String Ascii List.
From stdpp Require Import gmap strings list.

Local Open Scope Q_scope.

(** ** Python-level helpers *)

Module Py.

(** [a < b] on floats. *)
Definition Qlt_bool (a b : Q) : bool := negb (Qle_bool b a).

(** [a != b] on floats. *)
Definition Qneq_bool (a b : Q) : bool := negb (Qeq_bool a b).

(** [2 ** e] *)
Definition pow2 (e : Z) : Q := Qpower 2 e.

(** The [e] with [2 ** e <= a < 2 ** (e + 1)], for a positive [a]. *)
Definition ilog2 (a : Q) : Z :=
  let e0 := (Z.log2 (Qnum a) - Z.log2 (Zpos (Qden a)))%Z in
  if Qle_bool (pow2 e0) a then e0 else (e0 - 1)%Z.

(** The integer nearest to [x]; of two that are equally near, the even
    one. *)
Definition round_half_even (x : Q) : Z :=
  let f := Qfloor x in
  let r := x - inject_Z f in
  if Qlt_bool r (1#2) then f
  else if Qlt_bool (1#2) r then (f + 1)%Z
  else if Z.even f then f else (f + 1)%Z.

(** [float(x)]: the binary64 number nearest to [x] (53 bits, subnormal
    numbers down to [2 ** -1074], ties to even).  A value too large for a
    double is rounded to 53 bits all the same. *)
Definition float (q : Q) : Q :=
  if Qeq_bool q 0 then 0
  else
    let a := Qabs q in
    let e := Z.max (ilog2 a - 52) (-1074) in
    let m := round_half_even (a / pow2 e) in
    Qred ((if Qle_bool 0 q then 1 else -1) * inject_Z m * pow2 e).

(** [a / b], [a - b], [a + b] and [a * b] on floats. *)
Definition fdiv (a b : Q) : Q := float (float a / float b).

Definition fsub (a b : Q) : Q := float (float a - float b).

Definition fadd (a b : Q) : Q := float (float a + float b).

Definition fmul (a b : Q) : Q := float (float a * float b).

(** [s.startswith(p)] *)
Definition startswith (s p : string) : bool := String.prefix p s.

(** [sub in s] *)
Fixpoint contains (sub s : string) : bool :=
  String.prefix sub s ||
  match s with
  | EmptyString => false
  | String _ s' => contains sub s'
  end.

(** [s.endswith(p)] *)
Fixpoint endswith (s p : string) : bool :=
  String.eqb s p ||
  match s with
  | EmptyString => false
  | String _ s' => endswith s' p
  end.

Definition lower_ascii (c : ascii) : ascii :=
  let n := nat_of_ascii c in
  if (Nat.leb 65 n && Nat.leb n 90)%bool then ascii_of_nat (n + 32) else c.

(** [s.lower()], on ASCII letters. *)
Fixpoint lower (s : string) : string :=
  match s with
  | EmptyString => EmptyString
  | String c s' => String (lower_ascii c) (lower s')
  end.

Definition upper_ascii (c : ascii) : ascii :=
  let n := nat_of_ascii c in
  if (Nat.leb 97 n && Nat.leb n 122)%bool then ascii_of_nat (n - 32) else c.

(** [s.upper()], on ASCII letters. *)
Fixpoint upper (s : string) : string :=
  match s with
  | EmptyString => EmptyString
  | String c s' => String (upper_ascii c) (upper s')
  end.

(** [s.replace(old, '')]: [skip] counts the characters of a match that
    are still to be dropped. *)
Fixpoint remove_from (old : string) (skip : nat) (s : string) : string :=
  match s with
  | EmptyString => EmptyString
  | String c s' =>
      match skip with
      | S k => remove_from old k s'
      | O =>
          if (negb (String.eqb old EmptyString) && String.prefix old s)%bool
          then remove_from old (String.length old - 1) s'
          else String c (remove_from old 0 s')
      end
  end.

Definition remove_all (old s : string) : string := remove_from old 0 s.

(** Truth value of a string that may be [None]. *)
Definition truthy_str (o : option string) : bool :=
  match o with
  | Some s => negb (String.eqb s EmptyString)
  | None => false
  end.

(** Truth value of an integer that may be [None]. *)
Definition truthy_int (o : option Z) : bool :=
  match o with
  | Some z => negb (Z.eqb z 0)
  | None => false
  end.

(** [a or b] on optional strings. *)
Definition or_str (a b : option string) : option string :=
  if truthy_str a then a else b.

End Py.

(** ** Text helpers, on ASCII strings *)

Module PyStr.

(** Is every character of [s] an ASCII character?  The functions of this
    module follow Python on such strings. *)
Fixpoint is_ascii (s : string) : bool :=
  match s with
  | EmptyString => true
  | String c s' => Nat.ltb (nat_of_ascii c) 128 && is_ascii s'
  end.

(** [c.isspace()] *)
Definition isspace (c : ascii) : bool :=
  let n := nat_of_ascii c in
  (Nat.leb 9 n && Nat.leb n 13) || (Nat.leb 28 n && Nat.leb n 32).

(** [s.lstrip()] *)
Fixpoint lstrip (s : string) : string :=
  match s with
  | EmptyString => EmptyString
  | String c s' => if isspace c then lstrip s' else s
  end.

(** [s.rstrip()] *)
Fixpoint rstrip (s : string) : string :=
  match s with
  | EmptyString => EmptyString
  | String c s' =>
      match rstrip s' with
      | EmptyString => if isspace c then EmptyString else String c EmptyString
      | r => String c r
      end
  end.

(** [s.strip()] *)
Definition strip (s : string) : string := rstrip (lstrip s).

(** [s.split(sep)] for a separator of one character: never empty. *)
Fixpoint split_on (sep : ascii) (s : string) : list string :=
  match s with
  | EmptyString => [EmptyString]
  | String c s' =>
      if Ascii.eqb c sep then EmptyString :: split_on sep s'
      else
        match split_on sep s' with
        | [] => [String c EmptyString]
        | w :: ws => String c w :: ws
        end
  end.

Definition digit_of (c : ascii) : option Z :=
  let n := nat_of_ascii c in
  if (Nat.leb 48 n && Nat.leb n 57)%bool then Some (Z.of_nat (n - 48)) else None.

(** The digits of a decimal literal, where one underscore may stand between
    two digits; [after_digit] tells whether the character before was a
    digit. *)
Fixpoint int_digits (acc : Z) (after_digit : bool) (s : string) : option Z :=
  match s with
  | EmptyString => if after_digit then Some acc else None
  | String c s' =>
      if Ascii.eqb c "_" then
        if after_digit then int_digits acc false s' else None
      else
        match digit_of c with
        | Some d => int_digits (10 * acc + d)%Z true s'
        | None => None
        end
  end.

(** [int(s)]: [None] is [ValueError].  The interpreter's limit on the
    number of digits is left out. *)
Definition int_of_string (s : string) : option Z :=
  match strip s with
  | String "+" r => int_digits 0 false r
  | String "-" r => option_map Z.opp (int_digits 0 false r)
  | r => int_digits 0 false r
  end.

End PyStr.

(** ** Data model *)

(** One row of the fills table, as [sync_fill_record] reads it.  The
    required keys ([coin], [side], [size], [price]) are present and
    numeric; for the optional keys the default of [record.get] is already
    applied.  [r_timestamp] is the parsed time stamp in seconds, [None]
    when the column is empty or does not parse. *)
Record FillRecord := {
  r_id : option Z;
  r_hash : option string;
  r_tx_hash : option string;
  r_timestamp : option Q;
  r_coin : string;
  r_side : string;
  r_size : Q;
  r_price : Q;
  r_direction : string;
  r_closed_pnl : Q;
  r_start_position : Q;
  r_oid : option Z
}.

(** One row of the orders table, as [sync_order_record] reads it.  [o_id]
    is [None] for a row without the key ['id']; an id that is there is an
    integer. *)
Record OrderRecord := {
  o_id : option Z;
  o_timestamp : option Q;
  o_coin : string;
  o_action : string;
  o_side : string;
  o_size : Q;
  o_price : Q;
  o_order_id : option Z
}.

(** A position as the venue reports it. *)
Record Position := {
  p_symbol : string;
  p_side : string;
  p_size : Q
}.

(** An open order as the venue reports it. *)
Record VenueOrder := {
  oo_symbol : string;
  oo_side : string;
  oo_price : Q;
  oo_orderId : option string
}.

Record OrderInfo := { oi_orderStatus : string }.

Record Execution := {
  ex_orderLinkId : string;
  ex_execQty : Q;
  ex_execPrice : Q
}.

Record ExecResponse := {
  er_retCode : Z;
  er_retMsg : string;
  er_list : list Execution
}.

(** [close_position(position, is_half=False)] or
    [close_position(position, custom_qty=q)]. *)
Inductive CloseHow :=
| CloseAll
| CloseQty (custom_qty : Q).

(** What [close_position] hands back: the call sites unpack either three
    or four values. *)
Inductive CloseReply :=
| Close3 (success : bool) (closed_size : Q) (pnl : option Q)
| Close4 (success : bool) (closed_size : Q) (pnl : option Q)
         (error_code : option string).

(** The status column of the event store. *)
Inductive Status := StProcessed | StFiltered | StUnsupported | StDuplicate | StFailed.

Inductive MemoType := Follow | Forced.

(** An entry of [_forced_liquidations]: ['time'], ['type'] and the numeric
    fields of the dictionary under their keys. *)
Record Memo := {
  m_time : Q;
  m_type : MemoType;
  m_fields : list (string * Q)
}.

(** [send_notification]: the title and the [notification_type]. *)
Inductive Notice :=
| NoticeReduceAsFullClose   (* reduce executed as full close *)
| NoticeFullCloseOk
| NoticeReduceOk
| NoticeCloseFailed (full : bool)
| NoticeForceCloseAll
| NoticeForceCloseFailed
| NoticeForceCloseException
| NoticeAccidentalClose
| NoticeReduceAllOk
| NoticeReduceAllFailed.

Inductive NotificationType := NtSuccess | NtError | NtClose.

(** The signal object of the reverse handler is opaque to this module. *)
Record ReverseSignal := { reverse_type : string }.

(** The running totals of a TWAP parent, used for the progress text. *)
Record TwapOrder := {
  followed_count : Z;
  slice_count : Z;
  followed_size : Q
}.

(** The trade handlers [sync_fill_record] hands a fill to. *)
Inductive Handler :=
| HReverse | HOpen | HForceCloseAll | HClose | HReduce.

(** ** Requests to the collaborators *)

Inductive Call : Type -> Type :=
(* symbol_filter *)
| IsSymbolAllowed (coin : string) : Call bool
| FilterEnabled : Call bool
(* self.bybit *)
| SupportSymbol (symbol : string) : Call bool
| PairMinQty (coin : string) : Call (option Q)
| SetMaxLeverage (symbol : string) (use_exchange_max : bool) : Call Z
| ClampOrderQuantity (symbol : string) (price copy_size : Q) : Call Q
| QueryPositions (use_cache : option bool) : Call (list Position)
| OpenMarketOrder (symbol side : string) (qty : Q) : Call (bool * option string)
| OpenOrder (symbol side : string) (qty price : Q) : Call (bool * option string)
| ClosePosition (position : Position) (how : CloseHow) : Call CloseReply
| QueryOpenOrders : Call (list VenueOrder)
| ContainOrder (orders : list VenueOrder) (symbol side : string) (price : Q) : Call bool
| QueryOrder (order_id : string) (is_link_id : bool) : Call (option OrderInfo)
| CancelOrder (symbol order_id : string) : Call bool
| ClientGetExecutions (symbol : string) (start_time end_time : Z) : Call ExecResponse
| GetExecutions (symbol : string) (limit : Z) : Call (list Execution)
(* clock *)
| Now : Call Q
| TimeTime : Call Q
| Sleep (secs : Q) : Call unit
(* self.position_calculator *)
| CalculateCopySize (size price : Q) (symbol : string) : Call Q
(* self.reverse_handler *)
| DetectReverseSignal (symbol direction new_side : string) (new_size new_price : Q)
    : Call (option ReverseSignal)
| HandleReverseSignal (signal : ReverseSignal) : Call bool
(* self.twap_manager *)
| IsTwapFill (record : FillRecord) : Call bool
| AddSlice (record : FillRecord) : Call unit
| GetOrder (oid : Z) : Call (option TwapOrder)
| MarkSliceFollowed (oid fill_id : Z) (bybit_order_id : string) (follow_size : Q) : Call unit
(* self.db *)
| UpdateFillStatus (record_id : Z) (st : Status) : Call unit
| UpdateOrderStatus (record_id : Z) (st : Status) : Call unit
(* self.feishu_notifier *)
| SendTradeFailure (symbol side : string) (leverage : Z) (is_new_position : bool) : Call unit
| SendTradeSuccess (symbol side : string) (size price : Q) (order_id : string)
    (leverage : Z) (is_new_position is_twap : bool) : Call unit
| SendNotification (title : Notice) (ntype : NotificationType) (symbol side : string) : Call unit
(* callbacks *)
| PositionOpenedCallback (symbol side : string) (qty price : Q) : Call unit
| PositionClosedCallback (symbol side : string) : Call unit
(* enhanced_retry: classify the outcome of attempt number [attempt] and,
   when it is to be retried, sleep the backoff *)
| RetryDecision (attempt : nat) (raised : bool) : Call bool.

(** What the outside observes, newest first: the requests, and the hand-over
    of a fill to a trade handler. *)
Inductive Event :=
| EvCall {A : Type} (c : Call A)
| EvDispatch (h : Handler) (record : FillRecord).

(** ** The manager's own state *)

Record Engine := {
  synced_fills : gset Z;
  synced_orders : gset Z;
  synced_tx_hashes : gset string;
  notified_order_ids : gset string;
  order_id_mapping : gmap Z string;
  closed_symbols : gset string;
  forced_liquidations : gmap string Memo
}.

Definition new_engine : Engine :=
  {| synced_fills := ∅; synced_orders := ∅; synced_tx_hashes := ∅;
     notified_order_ids := ∅; order_id_mapping := ∅; closed_symbols := ∅;
     forced_liquidations := ∅ |}.

(** What the constructor fixes: which optional collaborators exist, the
    [SyncConfig], the imported constants, and the two helpers of [utils]. *)
Record Config := {
  cfg_db : bool;
  cfg_feishu_notifier : bool;
  cfg_position_opened_callback : bool;
  cfg_position_closed_callback : bool;
  min_position_size : Q;
  leverage_config : gmap string Z;
  MAX_LEVERAGE : Z;
  ENABLE_ORDER_TIME_FILTER : bool;
  ORDER_MAX_AGE_HOURS : Q;
  ensure_full_symbol : string -> string;
  ensure_short_symbol : string -> string;
  poll_budget : nat
}.

(** The all-zeros hash that marks a synthetic fill. *)
Definition ZERO_HASH : string :=
  "0x0000000000000000000000000000000000000000000000000000000000000000".

(** ** The state-and-exception monad of the manager *)

(** A Python call either returns or raises. *)
Inductive Res (A : Type) :=
| Ret (a : A)
| Raise.
Arguments Ret {A} a.
Arguments Raise {A}.

(** The manager's state, the state of everything outside, and the trace. *)
Record Sys (W : Type) := {
  eng : Engine;
  world : W;
  trace : list Event
}.
Arguments eng {W} s.
Arguments world {W} s.
Arguments trace {W} s.

Definition M (W A : Type) : Type := Sys W -> Res A * Sys W.

Definition ret {W A} (a : A) : M W A := fun s => (Ret a, s).

Definition raise {W A} : M W A := fun s => (Raise, s).

Definition bind {W A B} (m : M W A) (k : A -> M W B) : M W B :=
  fun s =>
    match m s with
    | (Ret a, s') => k a s'
    | (Raise, s') => (Raise, s')
    end.

(** [try: m  except Exception: h] *)
Definition try_except {W A} (m h : M W A) : M W A :=
  fun s =>
    match m s with
    | (Ret a, s') => (Ret a, s')
    | (Raise, s') => h s'
    end.

(** Runs [m] and reports whether it raised, for the places where the
    [except] clause depends on how far the [try] block got. *)
Definition attempt {W A} (m : M W A) : M W (option A) :=
  fun s =>
    match m s with
    | (Ret a, s') => (Ret (Some a), s')
    | (Raise, s') => (Ret None, s')
    end.

Definition gets {W A} (f : Engine -> A) : M W A := fun s => (Ret (f (eng s)), s).

Definition modify {W} (f : Engine -> Engine) : M W unit :=
  fun s => (Ret tt, {| eng := f (eng s); world := world s; trace := trace s |}).

Definition emit {W} (e : Event) : M W unit :=
  fun s => (Ret tt, {| eng := eng s; world := world s; trace := e :: trace s |}).

Declare Scope py_scope.
Delimit Scope py_scope with py.
Notation "x <- m ;; k" := (bind m (fun x => k))
  (at level 100, m at next level, right associativity) : py_scope.
Notation "m ;; k" := (bind m (fun _ => k))
  (at level 100, right associativity) : py_scope.

(** ** Updates of the manager's collections *)

Definition add_synced_fill (id : Z) (e : Engine) : Engine :=
  {| synced_fills := {[id]} ∪ synced_fills e;
     synced_orders := synced_orders e;
     synced_tx_hashes := synced_tx_hashes e;
     notified_order_ids := notified_order_ids e;
     order_id_mapping := order_id_mapping e;
     closed_symbols := closed_symbols e;
     forced_liquidations := forced_liquidations e |}.

Definition add_synced_order (id : Z) (e : Engine) : Engine :=
  {| synced_fills := synced_fills e;
     synced_orders := {[id]} ∪ synced_orders e;
     synced_tx_hashes := synced_tx_hashes e;
     notified_order_ids := notified_order_ids e;
     order_id_mapping := order_id_mapping e;
     closed_symbols := closed_symbols e;
     forced_liquidations := forced_liquidations e |}.

Definition add_synced_tx_hash (h : string) (e : Engine) : Engine :=
  {| synced_fills := synced_fills e;
     synced_orders := synced_orders e;
     synced_tx_hashes := {[h]} ∪ synced_tx_hashes e;
     notified_order_ids := notified_order_ids e;
     order_id_mapping := order_id_mapping e;
     closed_symbols := closed_symbols e;
     forced_liquidations := forced_liquidations e |}.

Definition add_notified_order_id (o : string) (e : Engine) : Engine :=
  {| synced_fills := synced_fills e;
     synced_orders := synced_orders e;
     synced_tx_hashes := synced_tx_hashes e;
     notified_order_ids := {[o]} ∪ notified_order_ids e;
     order_id_mapping := order_id_mapping e;
     closed_symbols := closed_symbols e;
     forced_liquidations := forced_liquidations e |}.

Definition set_order_id_mapping (f : gmap Z string -> gmap Z string) (e : Engine) : Engine :=
  {| synced_fills := synced_fills e;
     synced_orders := synced_orders e;
     synced_tx_hashes := synced_tx_hashes e;
     notified_order_ids := notified_order_ids e;
     order_id_mapping := f (order_id_mapping e);
     closed_symbols := closed_symbols e;
     forced_liquidations := forced_liquidations e |}.

Definition set_closed_symbols (f : gset string -> gset string) (e : Engine) : Engine :=
  {| synced_fills := synced_fills e;
     synced_orders := synced_orders e;
     synced_tx_hashes := synced_tx_hashes e;
     notified_order_ids := notified_order_ids e;
     order_id_mapping := order_id_mapping e;
     closed_symbols := f (closed_symbols e);
     forced_liquidations := forced_liquidations e |}.

Definition set_forced_liquidations (f : gmap string Memo -> gmap string Memo) (e : Engine) : Engine :=
  {| synced_fills := synced_fills e;
     synced_orders := synced_orders e;
     synced_tx_hashes := synced_tx_hashes e;
     notified_order_ids := notified_order_ids e;
     order_id_mapping := order_id_mapping e;
     closed_symbols := closed_symbols e;
     forced_liquidations := f (forced_liquidations e) |}.

(** ** The manager *)

Section Manager.

Context {W : Type}.

(** The collaborators: any answer, any change of the world. *)
Variable oracle : forall A : Type, Call A -> W -> Res A * W.

Variable cfg : Config.

Local Open Scope py_scope.
Local Open Scope bool_scope.

(** A request: the oracle answers, the request is recorded. *)
Definition ext {A} (c : Call A) : M W A :=
  fun s =>
    let (r, w') := oracle A c (world s) in
    (r, {| eng := eng s; world := w'; trace := EvCall c :: trace s |}).

Definition when (b : bool) (m : M W unit) : M W unit :=
  if b then m else ret tt.

(** Modelled from the spec: the decorators [critical_retry] and [api_retry]
    of [enhanced_retry], which is not part of the sources.  The wrapped call
    runs; whether its outcome is retried is the classifier's decision; after
    [max_retries] retries the last outcome stands. *)
Fixpoint with_retry {A} (max_retries attempt_no : nat) (call : M W A) : M W A :=
  fun s =>
    let (r, s1) := call s in
    match max_retries with
    | O => (r, s1)
    | S k =>
        let raised := match r with Raise => true | Ret _ => false end in
        match ext (RetryDecision attempt_no raised) s1 with
        | (Ret true, s2) => with_retry k (S attempt_no) call s2
        | (Ret false, s2) => (r, s2)
        | (Raise, s2) => (Raise, s2)
        end
    end.

Definition critical_retry {A} (max_retries : nat) (call : M W A) : M W A :=
  with_retry max_retries 0 call.

Definition api_retry {A} (max_retries : nat) (call : M W A) : M W A :=
  with_retry max_retries 0 call.

(** [_get_leverage_for_symbol] *)
Definition _get_leverage_for_symbol (symbol : string) : Z :=
  let coin := Py.upper (ensure_short_symbol cfg symbol) in
  match leverage_config cfg !! coin with
  | Some lev => lev
  | None => MAX_LEVERAGE cfg
  end.

(** The bookkeeping shared by the skip branches of [_check_symbol_support]
    and [_validate_order_freshness]. *)
Definition mark_skipped (record_id : option Z) (is_fill : bool) (st : Status) : M W unit :=
  match record_id with
  | None => ret tt
  | Some id =>
      if is_fill then
        modify (add_synced_fill id) ;;
        when (cfg_db cfg) (ext (UpdateFillStatus id st))
      else
        modify (add_synced_order id) ;;
        when (cfg_db cfg) (ext (UpdateOrderStatus id st))
  end.

(** [_check_symbol_support] *)
Definition _check_symbol_support (coin : string) (record_id : option Z) (is_fill : bool)
  : M W bool :=
  allowed <- ext (IsSymbolAllowed coin) ;;
  if negb allowed then
    mark_skipped record_id is_fill StFiltered ;; ret false
  else
    enabled <- ext FilterEnabled ;;
    if negb enabled then
      let symbol_full := ensure_full_symbol cfg coin in
      supported <- ext (SupportSymbol symbol_full) ;;
      if negb supported then
        mark_skipped record_id is_fill StUnsupported ;; ret false
      else ret true
    else ret true.

(** [_parse_timestamp] *)
Definition _parse_timestamp (timestamp : option Q) : M W Q :=
  match timestamp with
  | Some t => ret t
  | None => ext Now
  end.

(** [_is_order_fresh] *)
Definition _is_order_fresh (order_timestamp : Q) : M W bool :=
  if negb (ENABLE_ORDER_TIME_FILTER cfg) then ret true
  else
    current_time <- ext Now ;;
    let age_hours := (current_time - order_timestamp) / 3600 in
    if Py.Qlt_bool (ORDER_MAX_AGE_HOURS cfg) age_hours then ret false else ret true.

(** [_validate_order_freshness] *)
Definition _validate_order_freshness (record_id : option Z) (timestamp : option Q)
    (is_fill : bool) : M W (bool * Q) :=
  order_timestamp <- _parse_timestamp timestamp ;;
  fresh <- _is_order_fresh order_timestamp ;;
  if negb fresh then
    mark_skipped record_id is_fill StFiltered ;; ret (false, order_timestamp)
  else ret (true, order_timestamp).

(** [_get_min_order_qty] *)
Definition _get_min_order_qty (coin : string) : M W Q :=
  try_except
    (pair_info <- ext (PairMinQty coin) ;;
     match pair_info with
     | Some min_qty => ret min_qty
     | None => ret 0
     end)
    (ret 0).

(** The [while] loop of [_wait_for_order_execution]: one poll a second
    until the time is up; [budget] bounds the number of polls. *)
Fixpoint wait_loop (budget : nat) (order_link_id : string) (start_time timeout : Q)
  : M W unit :=
  match budget with
  | O => ret tt
  | S n =>
      t <- ext TimeTime ;;
      if Py.Qlt_bool (t - start_time) timeout then
        go_on <- try_except
          (order <- ext (QueryOrder order_link_id true) ;;
           match order with
           | None => ret false
           | Some o =>
               let status := oi_orderStatus o in
               if String.eqb status "Filled" then ret false
               else if String.eqb status "Cancelled" || String.eqb status "Rejected"
               then ret false
               else ext (Sleep 1) ;; ret true
           end)
          (ret false) ;;
        if go_on then wait_loop n order_link_id start_time timeout else ret tt
      else ret tt
  end.

(** [_wait_for_order_execution] *)
Definition _wait_for_order_execution (order_link_id : string) : M W unit :=
  start_time <- ext TimeTime ;;
  wait_loop (poll_budget cfg) order_link_id start_time 30.

(** The record is marked as handled with a status, as the handlers do when
    the record has a true id. *)
Definition mark_fill (record_id : option Z) (st : Status) : M W unit :=
  match record_id with
  | Some id =>
      if Z.eqb id 0 then ret tt
      else
        modify (add_synced_fill id) ;;
        when (cfg_db cfg) (ext (UpdateFillStatus id st))
  | None => ret tt
  end.

(** The volume-weighted fill of [order_id] among the executions the venue
    lists; the requested quantity and the reference price when there is
    none. *)
Definition fill_from_executions (order_id : string) (qty price : Q)
    (executions : list Execution) : Q * Q :=
  let matched :=
    List.filter (fun e => String.eqb (ex_orderLinkId e) order_id) executions in
  let total_qty := fold_left (fun acc e => Py.fadd acc (ex_execQty e)) matched 0 in
  let total_value :=
    fold_left (fun acc e => Py.fadd acc (Py.fmul (ex_execQty e) (ex_execPrice e)))
      matched 0 in
  let found := negb (Nat.eqb (List.length matched) 0) in
  if found && Py.Qlt_bool 0 total_qty then (total_qty, Py.fdiv total_value total_qty)
  else (qty, price).

(** The [try] block around [get_executions] in [_handle_open_position]. *)
Definition query_real_fill (symbol order_id : string) (qty price : Q) : M W (Q * Q) :=
  try_except
    (t <- ext TimeTime ;;
     let current_time := Qfloor (t * 1000) in
     let start_time := (current_time - 30000)%Z in
     response <- ext (ClientGetExecutions symbol start_time current_time) ;;
     if Z.eqb (er_retCode response) 0
     then ret (fill_from_executions order_id qty price (er_list response))
     else ret (qty, price))
    (ret (qty, price)).

(** The [except Exception] clause of [_handle_open_position].
    [is_new_position] is [None] while the local variable is not yet bound:
    building the notification then fails inside its own [try]. *)
Definition open_on_exception (symbol side : string) (record_id : option Z)
    (is_new_position : option bool) : M W bool :=
  mark_fill record_id StFailed ;;
  when (cfg_feishu_notifier cfg)
    (try_except
       (let leverage := _get_leverage_for_symbol symbol in
        match is_new_position with
        | Some b => ext (SendTradeFailure symbol side leverage b)
        | None => raise
        end)
       (ret tt)) ;;
  ret false.

(** First part of the [try] block: sizing, leverage, quantity.  [inl b] is
    an early [return b]; [inr (leverage, qty)] goes on. *)
Definition open_prepare (symbol side : string) (size price : Q) (record_id : option Z)
  : M W (bool + Z * Q) :=
  copy_size <- ext (CalculateCopySize size price symbol) ;;
  if Qle_bool copy_size 0 then
    when (cfg_feishu_notifier cfg)
      (let leverage := _get_leverage_for_symbol symbol in
       ext (SendTradeFailure symbol side leverage true)) ;;
    mark_fill record_id StFiltered ;;
    ret (inl false)
  else
    leverage <- ext (SetMaxLeverage symbol true) ;;
    qty <- ext (ClampOrderQuantity symbol price copy_size) ;;
    if Py.Qlt_bool qty (min_position_size cfg) then
      mark_fill record_id StFiltered ;;
      ret (inl false)
    else ret (inr (leverage, qty)).

(** Is there no position yet on this symbol and side?  ([is_new_position]) *)
Definition open_is_new_position (symbol side : string) : M W bool :=
  try_except
    (existing_positions <- ext (QueryPositions None) ;;
     ret (negb (existsb
                  (fun pos => String.eqb (p_symbol pos) symbol
                              && String.eqb (p_side pos) side
                              && Py.Qlt_bool 0 (p_size pos))
                  existing_positions)))
    (ret true).

(** What follows a submitted market order. *)
Definition open_after_submit (symbol side : string) (price : Q) (record_id : option Z)
    (is_twap : bool) (twap_oid : option Z) (twap_order : option TwapOrder)
    (leverage : Z) (qty : Q) (is_new_position : bool) (order_id : string) : M W bool :=
  _wait_for_order_execution order_id ;;
  actual <- query_real_fill symbol order_id qty price ;;
  let actual_filled_qty := fst actual in
  let actual_filled_price := snd actual in
  match record_id with
  | Some id => when (negb (Z.eqb id 0)) (modify (add_synced_fill id))
  | None => ret tt
  end ;;
  when (cfg_position_opened_callback cfg)
    (try_except
       (ext (PositionOpenedCallback symbol side actual_filled_qty actual_filled_price))
       (ret tt)) ;;
  when (cfg_feishu_notifier cfg)
    (try_except
       (notified <- gets (fun e => bool_decide (order_id ∈ notified_order_ids e)) ;;
        if notified then ret tt
        else
          ext (SendTradeSuccess symbol side actual_filled_qty actual_filled_price
                 order_id leverage is_new_position is_twap) ;;
          modify (add_notified_order_id order_id))
       (ret tt)) ;;
  match twap_oid, record_id with
  | Some oid, Some id =>
      when (is_twap && negb (Z.eqb oid 0) && negb (Z.eqb id 0))
        (try_except
           (ext (MarkSliceFollowed oid id order_id actual_filled_qty))
           (ret tt))
  | _, _ => ret tt
  end ;;
  ret true.

(** Second part of the [try] block: the market order and what follows. *)
Definition open_submit (symbol side : string) (size price : Q) (record_id : option Z)
    (is_twap : bool) (twap_oid : option Z) (twap_order : option TwapOrder)
    (leverage : Z) (qty : Q) (is_new_position : bool) : M W bool :=
  placed <- ext (OpenMarketOrder symbol side qty) ;;
  let success := fst placed in
  let order_id := snd placed in
  if success && Py.truthy_str order_id then
    open_after_submit symbol side price record_id is_twap twap_oid twap_order
      leverage qty is_new_position (default EmptyString order_id)
  else
    mark_fill record_id StFailed ;;
    when (cfg_feishu_notifier cfg)
      (try_except
         (ext (SendTradeFailure symbol side leverage is_new_position))
         (ret tt)) ;;
    ret false.

(** [_handle_open_position], without its decorator. *)
Definition _handle_open_position_body (symbol side : string) (size price : Q)
    (record : FillRecord) (is_twap : bool) (twap_oid : option Z)
    (twap_order : option TwapOrder) : M W bool :=
  let record_id := r_id record in
  already <- gets (fun e =>
    match record_id with
    | Some id => negb (Z.eqb id 0) && bool_decide (id ∈ synced_fills e)
    | None => false
    end) ;;
  if already then ret true
  else
    prepared <- attempt (open_prepare symbol side size price record_id) ;;
    match prepared with
    | None => open_on_exception symbol side record_id None
    | Some (inl result) => ret result
    | Some (inr (leverage, qty)) =>
        is_new_position <- open_is_new_position symbol side ;;
        submitted <- attempt
          (open_submit symbol side size price record_id is_twap twap_oid twap_order
             leverage qty is_new_position) ;;
        match submitted with
        | None => open_on_exception symbol side record_id (Some is_new_position)
        | Some result => ret result
        end
    end.

(** [_handle_open_position], decorated with [critical_retry(max_retries=5)]. *)
Definition _handle_open_position (symbol side : string) (size price : Q)
    (record : FillRecord) (is_twap : bool) (twap_oid : option Z)
    (twap_order : option TwapOrder) : M W bool :=
  critical_retry 5
    (_handle_open_position_body symbol side size price record is_twap twap_oid twap_order).


(** [success, closed_size, pnl, error_code = ...]: unpacking into four
    names fails on a triple. *)
Definition unpack4 (reply : CloseReply) : M W (bool * Q * option Q * option string) :=
  match reply with
  | Close4 success closed_size pnl error_code => ret (success, closed_size, pnl, error_code)
  | Close3 _ _ _ => raise
  end.

(** [success, closed_size, pnl = ...]: unpacking into three names fails on
    a quadruple. *)
Definition unpack3 (reply : CloseReply) : M W (bool * Q * option Q) :=
  match reply with
  | Close3 success closed_size pnl => ret (success, closed_size, pnl)
  | Close4 _ _ _ _ => raise
  end.

(** The positions of the coin that are open:
    [pos_symbol.startswith(coin) and pos_symbol.endswith('USDT')] and
    [size > 0]. *)
Definition coin_positions_of (coin : string) (positions : list Position) : list Position :=
  List.filter
    (fun position =>
       Py.startswith (p_symbol position) coin
       && Py.endswith (p_symbol position) "USDT"
       && Py.Qlt_bool 0 (p_size position))
    positions.

(** The key of [_forced_liquidations]: [f"{symbol}_{side}"]. *)
Definition pos_key_of (symbol side : string) : string :=
  (symbol ++ "_" ++ side)%string.

(** Is the fill a full close for [_handle_close_position]? *)
Definition is_full_close_hl (size start_position : Q) : bool :=
  if Py.Qneq_bool (Py.float start_position) 0
  then Qle_bool (Py.float 0.99) (Qabs (Py.fdiv size start_position))
  else false.

(** The quantity a partial close asks for, and whether the minimum lot
    turned it into a close of the whole position
    ([close_size], [was_forced_full_close]). *)
Definition partial_close_size (size pos_size min_qty : Q) : Q * bool :=
  let close_size := Qmin size pos_size in
  if Py.Qlt_bool 0 min_qty && Py.Qlt_bool close_size min_qty then
    let close_size' := Qmin min_qty pos_size in
    (close_size', Qle_bool pos_size close_size')
  else (close_size, false).

(** The size the venue reports for the symbol and side after error 110017:
    the first matching entry, 0 when there is none. *)
Fixpoint target_pos_size_of (pos_symbol pos_side : string) (current_positions : list Position)
  : Q :=
  match current_positions with
  | [] => 0
  | pos :: rest =>
      if String.eqb (p_symbol pos) pos_symbol && String.eqb (p_side pos) pos_side
      then p_size pos
      else target_pos_size_of pos_symbol pos_side rest
  end.

(** After a failed close: is the failure notification still due?
    ([should_send_failure_notification]) *)
Definition verify_position_is_zero (pos_symbol pos_side : string)
    (error_code : option string) : M W bool :=
  match error_code with
  | Some code =>
      if String.eqb code "110017" then
        ext (Sleep 5) ;;
        current_positions <- ext (QueryPositions (Some false)) ;;
        match current_positions with
        | [] => ret true
        | _ :: _ =>
            let target_pos_size := target_pos_size_of pos_symbol pos_side current_positions in
            if Qeq_bool target_pos_size 0 then ret false else ret true
        end
      else ret true
  | None => ret true
  end.

(** The success branch of the loop body of [_handle_close_position], after
    [success_count += 1]. *)
Definition close_on_success (coin : string) (size : Q) (position : Position)
    (full_close_hl was_forced_full_close : bool) (min_qty closed_size : Q) : M W unit :=
  let pos_symbol := p_symbol position in
  let pos_side := p_side position in
  let actual_full_close := full_close_hl || was_forced_full_close in
  try_except (ext (GetExecutions pos_symbol 10) ;; ret tt) (ret tt) ;;
  when was_forced_full_close
    (now <- ext Now ;;
     modify (set_forced_liquidations
               (insert (pos_key_of pos_symbol pos_side)
                  {| m_time := now; m_type := Forced;
                     m_fields := [("original_close_size"%string, size);
                                  ("min_qty"%string, min_qty);
                                  ("actual_size"%string, closed_size)] |}))) ;;
  when (cfg_feishu_notifier cfg)
    (ext (SendNotification
            (if was_forced_full_close then NoticeReduceAsFullClose
             else if full_close_hl then NoticeFullCloseOk else NoticeReduceOk)
            NtSuccess pos_symbol pos_side)) ;;
  when actual_full_close
    (when (negb was_forced_full_close)
       (now <- ext Now ;;
        modify (set_forced_liquidations
                  (insert (pos_key_of pos_symbol pos_side)
                     {| m_time := now; m_type := Follow;
                        m_fields := [("size"%string, closed_size)] |}))) ;;
     when (cfg_position_closed_callback cfg)
       (try_except (ext (PositionClosedCallback pos_symbol pos_side)) (ret tt))).

(** The close request of one round of the loop of [_handle_close_position]:
    [was_forced_full_close], [min_qty] and what [close_position] returned. *)
Definition close_request (coin : string) (size : Q) (full_close_hl : bool)
    (position : Position) : M W (bool * Q * (bool * Q * option Q * option string)) :=
  let pos_size := p_size position in
  if full_close_hl then
    reply <- ext (ClosePosition position CloseAll) ;;
    r <- unpack4 reply ;;
    ret (false, 0, r)
  else
    min_qty <- _get_min_order_qty coin ;;
    let cs := partial_close_size size pos_size min_qty in
    reply <- ext (ClosePosition position (CloseQty (fst cs))) ;;
    r <- unpack4 reply ;;
    ret (snd cs, min_qty, r).

(** One round of the [for position in coin_positions] loop of
    [_handle_close_position]; the result is the new [success_count]. *)
Definition close_one (coin : string) (size : Q) (full_close_hl : bool)
    (success_count : nat) (position : Position) : M W nat :=
  let pos_symbol := p_symbol position in
  let pos_side := p_side position in
  let pos_size := p_size position in
  requested <- attempt (close_request coin size full_close_hl position) ;;
  match requested with
  | None => ret success_count
  | Some (was_forced_full_close, min_qty, (success, closed_size, pnl, error_code)) =>
      if success && Py.Qlt_bool 0 closed_size then
        attempt (close_on_success coin size position full_close_hl
                   was_forced_full_close min_qty closed_size) ;;
        ret (S success_count)
      else
        verified <- attempt (verify_position_is_zero pos_symbol pos_side error_code) ;;
        match verified with
        | None => ret success_count
        | Some should_send_failure_notification =>
            attempt
              (when (should_send_failure_notification && cfg_feishu_notifier cfg)
                 (ext (SendNotification (NoticeCloseFailed full_close_hl) NtError
                         pos_symbol pos_side))) ;;
            ret (if should_send_failure_notification then success_count
                 else S success_count)
        end
  end.

(** A [for] loop that threads a counter. *)
Fixpoint for_each {A} (body : nat -> A -> M W nat) (count : nat) (items : list A) : M W nat :=
  match items with
  | [] => ret count
  | x :: rest => count' <- body count x ;; for_each body count' rest
  end.

(** [_handle_close_position], without its decorator; the result is
    [success_count] (0 when the handler returns early). *)
Definition _handle_close_position_body (symbol side : string) (size price : Q)
    (record : FillRecord) : M W nat :=
  let start_position := r_start_position record in
  let full_close_hl := is_full_close_hl size start_position in
  try_except
    (let coin := Py.remove_all "USDT" symbol in
     positions <- ext (QueryPositions None) ;;
     match positions with
     | [] => ret O
     | _ :: _ =>
         match coin_positions_of coin positions with
         | [] => ret O
         | coin_positions => for_each (close_one coin size full_close_hl) O coin_positions
         end
     end)
    (when (cfg_feishu_notifier cfg)
       (ext (SendNotification (NoticeCloseFailed full_close_hl) NtError symbol EmptyString)) ;;
     ret O).

(** [_handle_close_position], decorated with [critical_retry(max_retries=5)]. *)
Definition _handle_close_position (symbol side : string) (size price : Q)
    (record : FillRecord) : M W nat :=
  critical_retry 5 (_handle_close_position_body symbol side size price record).

(** One round of the loop of [_handle_force_close_all]. *)
Definition force_close_one (success_count : nat) (position : Position) : M W nat :=
  let pos_symbol := p_symbol position in
  let pos_side := p_side position in
  requested <- attempt
    (reply <- ext (ClosePosition position CloseAll) ;; unpack4 reply) ;;
  match requested with
  | None => ret success_count
  | Some (success, closed_size, pnl, error_code) =>
      if success && Py.Qlt_bool 0 closed_size then
        attempt (when (cfg_feishu_notifier cfg)
                   (ext (SendNotification NoticeForceCloseAll NtClose pos_symbol pos_side))) ;;
        ret (S success_count)
      else
        attempt (when (cfg_feishu_notifier cfg)
                   (ext (SendNotification NoticeForceCloseFailed NtError pos_symbol pos_side))) ;;
        ret success_count
  end.

(** [_handle_force_close_all] *)
Definition _handle_force_close_all (symbol coin : string) (record : FillRecord) : M W unit :=
  closed <- gets (fun e => bool_decide (coin ∈ closed_symbols e)) ;;
  if closed then ret tt
  else
    try_except
      (positions <- ext (QueryPositions None) ;;
       match positions with
       | [] => modify (set_closed_symbols (union {[coin]}))
       | _ :: _ =>
           match coin_positions_of coin positions with
           | [] => modify (set_closed_symbols (union {[coin]}))
           | coin_positions =>
               success_count <- for_each force_close_one O coin_positions ;;
               when (Nat.eqb success_count (List.length coin_positions))
                 (modify (set_closed_symbols (union {[coin]})))
           end
       end)
      (when (cfg_feishu_notifier cfg)
         (ext (SendNotification NoticeForceCloseException NtError symbol EmptyString))).

(** One round of the loop of [_handle_reduce_position]. *)
Definition reduce_one (min_qty : Q) (success_count : nat) (position : Position) : M W nat :=
  let pos_symbol := p_symbol position in
  let pos_side := p_side position in
  let pos_size := p_size position in
  let is_accidental_full_close := Py.Qlt_bool 0 min_qty && Qle_bool pos_size min_qty in
  requested <- attempt
    (reply <- ext (ClosePosition position CloseAll) ;; unpack3 reply) ;;
  match requested with
  | None => ret success_count
  | Some (success, closed_size, pnl) =>
      if success && Py.Qlt_bool 0 closed_size then
        attempt
          (when is_accidental_full_close
             (now <- ext Now ;;
              modify (set_forced_liquidations
                        (insert (pos_key_of pos_symbol pos_side)
                           {| m_time := now; m_type := Forced;
                              m_fields := [("original_size"%string, pos_size);
                                           ("min_qty"%string, min_qty);
                                           ("actual_size"%string, closed_size)] |}))) ;;
           when (cfg_feishu_notifier cfg)
             (ext (SendNotification
                     (if is_accidental_full_close then NoticeAccidentalClose
                      else NoticeReduceAllOk)
                     NtSuccess pos_symbol pos_side))) ;;
        ret (S success_count)
      else ret success_count
  end.

(** [_handle_reduce_position] *)
Definition _handle_reduce_position (symbol coin : string) (record : FillRecord) : M W unit :=
  closed <- gets (fun e => bool_decide (coin ∈ closed_symbols e)) ;;
  if closed then ret tt
  else
    try_except
      (positions <- ext (QueryPositions None) ;;
       match positions with
       | [] => ret tt
       | _ :: _ =>
           match coin_positions_of coin positions with
           | [] => ret tt
           | coin_positions =>
               min_qty <- _get_min_order_qty coin ;;
               success_count <- for_each (reduce_one min_qty) O coin_positions ;;
               if Nat.ltb 0 success_count
               then modify (set_closed_symbols (union {[coin]}))
               else when (cfg_feishu_notifier cfg)
                      (ext (SendNotification NoticeReduceAllFailed NtError symbol EmptyString))
           end
       end)
      (when (cfg_feishu_notifier cfg)
         (ext (SendNotification NoticeReduceAllFailed NtError symbol EmptyString))).


(** [_handle_place_order], without its decorator. *)
Definition _handle_place_order_body (symbol side : string) (size price : Q)
    (record : OrderRecord) : M W unit :=
  let mark_filtered :=
    match o_id record with
    | Some id =>
        when (negb (Z.eqb id 0) && cfg_db cfg) (ext (UpdateOrderStatus id StFiltered))
    | None => ret tt
    end in
  try_except
    (copy_size <- ext (CalculateCopySize size price symbol) ;;
     if Qle_bool copy_size 0 then
       when (cfg_feishu_notifier cfg)
         (let leverage := _get_leverage_for_symbol symbol in
          ext (SendTradeFailure symbol side leverage true)) ;;
       mark_filtered
     else if Py.Qlt_bool copy_size (min_position_size cfg) then mark_filtered
     else
       orders <- ext QueryOpenOrders ;;
       exists_already <-
         match orders with
         | [] => ret false
         | _ :: _ => ext (ContainOrder orders symbol side price)
         end ;;
       if exists_already then ret tt
       else
         leverage <- ext (SetMaxLeverage symbol true) ;;
         qty <- ext (ClampOrderQuantity symbol price copy_size) ;;
         placed <- ext (OpenOrder symbol side qty price) ;;
         let success := fst placed in
         let bybit_order_id := snd placed in
         if success && Py.truthy_str bybit_order_id then
           match o_order_id record with
           | Some hl_order_id =>
               when (negb (Z.eqb hl_order_id 0))
                 (modify (set_order_id_mapping
                            (insert hl_order_id (default EmptyString bybit_order_id))))
           | None => ret tt
           end
         else ret tt)
    (ret tt).

(** [_handle_place_order], decorated with [api_retry(max_retries=3)]. *)
Definition _handle_place_order (symbol side : string) (size price : Q)
    (record : OrderRecord) : M W unit :=
  api_retry 3 (_handle_place_order_body symbol side size price record).

(** The scan of the open orders in [_handle_cancel_order]: the first order
    with the symbol, the side and a price less than 0.01 away gives its
    [orderId]. *)
Fixpoint match_open_order (symbol side : string) (price : Q) (open_orders : list VenueOrder)
  : option string :=
  match open_orders with
  | [] => None
  | order :: rest =>
      if String.eqb (oo_symbol order) symbol
         && String.eqb (oo_side order) side
         && Py.Qlt_bool (Qabs (Py.fsub (oo_price order) price)) (Py.float 0.01)
      then oo_orderId order
      else match_open_order symbol side price rest
  end.

(** The destination order id [_handle_cancel_order] settles on. *)
Definition resolve_bybit_order_id (symbol : string) (hl_order_id : Z) (record : OrderRecord)
  : M W (option string) :=
  mapped <- gets (fun e => order_id_mapping e !! hl_order_id) ;;
  if Py.truthy_str mapped then ret mapped
  else
    let price := o_price record in
    let side := o_side record in
    if Py.Qlt_bool 0 price then
      open_orders <- ext QueryOpenOrders ;;
      ret (match_open_order symbol side price open_orders)
    else ret mapped.

(** [_handle_cancel_order], without its decorator. *)
Definition _handle_cancel_order_body (symbol : string) (hl_order_id : option Z)
    (record : OrderRecord) : M W unit :=
  match hl_order_id with
  | None => ret tt
  | Some hl =>
      if Z.eqb hl 0 then ret tt
      else
        try_except
          (resolved <- resolve_bybit_order_id symbol hl record ;;
           if negb (Py.truthy_str resolved) then ret tt
           else
             let bybit_order_id := default EmptyString resolved in
             order <- ext (QueryOrder bybit_order_id false) ;;
             match order with
             | None => modify (set_order_id_mapping (delete hl))
             | Some _ =>
                 success <- ext (CancelOrder symbol bybit_order_id) ;;
                 when success (modify (set_order_id_mapping (delete hl)))
             end)
          (ret tt)
  end.

(** [_handle_cancel_order], decorated with [api_retry(max_retries=3)]. *)
Definition _handle_cancel_order (symbol : string) (hl_order_id : option Z)
    (record : OrderRecord) : M W unit :=
  api_retry 3 (_handle_cancel_order_body symbol hl_order_id record).

(** [_convert_side_to_bybit_format] *)
Definition _convert_side_to_bybit_format (side direction : string) : string :=
  if Py.contains "Long" direction || Py.contains "long" direction then "Buy"
  else if Py.contains "Short" direction || Py.contains "short" direction then "Sell"
  else if String.eqb side "BUY" then "Buy"
  else if String.eqb side "SELL" then "Sell"
  else match side with
       | EmptyString => "Buy"
       | String c rest => String (Py.upper_ascii c) (Py.lower rest)
       end.

(** [sync_order_record]: [record['id']] is read before the [try] block, so
    a row without an id raises there. *)
Definition sync_order_record (record : OrderRecord) : M W unit :=
  match o_id record with
  | None => raise
  | Some record_id =>
      synced <- gets (fun e => bool_decide (record_id ∈ synced_orders e)) ;;
      if synced then ret tt
      else
        try_except
          (let coin := o_coin record in
           let action := o_action record in
           let side := o_side record in
           let size := o_size record in
           let price := o_price record in
           let order_id := o_order_id record in
           supported <- _check_symbol_support coin (Some record_id) false ;;
           if negb supported then ret tt
           else
             fresh <- _validate_order_freshness (Some record_id) (o_timestamp record) false ;;
             if negb (fst fresh) then ret tt
             else
               let symbol := ensure_full_symbol cfg coin in
               if String.eqb action "placed" then
                 let direction :=
                   (if String.eqb side "BUY" then "Open Long" else "Open Short")%string in
                 let bybit_side := _convert_side_to_bybit_format side direction in
                 _handle_place_order symbol bybit_side size price record ;;
                 modify (add_synced_order record_id) ;;
                 when (cfg_db cfg) (ext (UpdateOrderStatus record_id StProcessed))
               else if String.eqb action "canceled" then
                 _handle_cancel_order symbol order_id record ;;
                 modify (add_synced_order record_id) ;;
                 when (cfg_db cfg) (ext (UpdateOrderStatus record_id StProcessed))
               else ret tt)
          (when (cfg_db cfg) (ext (UpdateOrderStatus record_id StFailed)))
  end.

(** [get_forced_liquidation] *)
Definition get_forced_liquidation (symbol side : string) : M W (option Memo) :=
  let pos_key := pos_key_of symbol side in
  found <- gets (fun e => forced_liquidations e !! pos_key) ;;
  match found with
  | Some record =>
      now <- ext Now ;;
      let time_diff := now - m_time record in
      if Py.Qlt_bool time_diff 300 then ret (Some record)
      else modify (set_forced_liquidations (delete pos_key)) ;; ret None
  | None => ret None
  end.

(** [clear_forced_liquidation] *)
Definition clear_forced_liquidation (symbol side : string) : M W unit :=
  modify (set_forced_liquidations (delete (pos_key_of symbol side))).


(** ** [sync_fill_record] *)

(** [if coin in self._closed_symbols: self._closed_symbols.remove(coin)] *)
Definition clear_closed_symbol (coin : string) : M W unit :=
  modify (set_closed_symbols (fun closed => closed ∖ {[coin]})).

(** [if record_id is not None: self._synced_fills.add(record_id)] *)
Definition mark_synced_fill (record_id : option Z) : M W unit :=
  match record_id with
  | Some id => modify (add_synced_fill id)
  | None => ret tt
  end.

(** [self.twap_manager.get_order(twap_oid) if twap_oid else None] *)
Definition twap_order_of (twap_oid : option Z) : M W (option TwapOrder) :=
  match twap_oid with
  | Some oid => if Z.eqb oid 0 then ret None else ext (GetOrder oid)
  | None => ret None
  end.

(** The branch that hands a detected reverse signal to the reverse
    handler; the function returns after it. *)
Definition run_reverse_signal (record : FillRecord) (signal : ReverseSignal) : M W unit :=
  let record_id := r_id record in
  let coin := r_coin record in
  emit (EvDispatch HReverse record) ;;
  success <- ext (HandleReverseSignal signal) ;;
  (if success then clear_closed_symbol coin
   else
     match record_id with
     | Some id => when (cfg_db cfg) (ext (UpdateFillStatus id StFailed))
     | None => ret tt
     end) ;;
  mark_synced_fill record_id.

(** The side a [direction] with [">"] flips to. *)
Definition reverse_new_side (direction : string) : option string :=
  if Py.contains "Long > Short" direction || Py.contains "long > short" (Py.lower direction)
  then Some "Sell"%string
  else if Py.contains "Short > Long" direction
          || Py.contains "short > long" (Py.lower direction)
  then Some "Buy"%string
  else None.

(** The test for a complete close in [sync_fill_record]. *)
Definition is_complete_close (size start_position : Q) : bool :=
  if Py.Qneq_bool (Py.float start_position) 0
  then Qle_bool (Py.float 0.995) (Qabs (Py.fdiv size (Qabs start_position)))
  else false.

(** The call of the decorated open handler from [sync_fill_record]. *)
Definition call_open_position (record : FillRecord) (symbol bybit_side : string)
    (is_twap : bool) (twap_oid : option Z) : M W bool :=
  twap_order <- twap_order_of twap_oid ;;
  emit (EvDispatch HOpen record) ;;
  _handle_open_position symbol bybit_side (r_size record) (r_price record) record
    is_twap twap_oid twap_order.

(** The ['Open' in direction] branch; [true] when the function returns from
    inside the branch. *)
Definition sync_fill_open (record : FillRecord) (symbol : string)
    (is_twap : bool) (twap_oid : option Z) : M W bool :=
  let coin := r_coin record in
  let side := r_side record in
  let direction := r_direction record in
  reverse_signal <-
    ext (DetectReverseSignal symbol direction side (r_size record) (r_price record)) ;;
  match reverse_signal with
  | Some signal => run_reverse_signal record signal ;; ret true
  | None =>
      let bybit_side := _convert_side_to_bybit_format side direction in
      success <- call_open_position record symbol bybit_side is_twap twap_oid ;;
      when success (clear_closed_symbol coin) ;;
      ret false
  end.

(** From the complete-close test to the end of the [if] chain; [true] when
    the function returns from inside. *)
Definition sync_fill_close_or_open (record : FillRecord) (symbol : string)
    (is_twap : bool) (twap_oid : option Z) : M W bool :=
  let coin := r_coin record in
  let side := r_side record in
  let size := r_size record in
  let price := r_price record in
  let direction := r_direction record in
  if is_complete_close size (r_start_position record) then
    emit (EvDispatch HForceCloseAll record) ;;
    _handle_force_close_all symbol coin record ;;
    ret false
  else if Py.Qneq_bool (r_closed_pnl record) 0 then
    emit (EvDispatch HClose record) ;;
    _handle_close_position symbol side size price record ;;
    ret false
  else if Py.contains "Close" direction || Py.contains "close" (Py.lower direction) then
    emit (EvDispatch HReduce record) ;;
    _handle_reduce_position symbol coin record ;;
    ret false
  else if Py.contains "Open" direction then
    sync_fill_open record symbol is_twap twap_oid
  else ret false.

(** From the reverse-signal test on; [true] when the function returns from
    inside. *)
Definition sync_fill_dispatch (record : FillRecord) (symbol : string)
    (is_twap : bool) (twap_oid : option Z) : M W bool :=
  let coin := r_coin record in
  let direction := r_direction record in
  if Py.contains ">" direction then
    match reverse_new_side direction with
    | Some new_side =>
        reverse_signal <-
          ext (DetectReverseSignal symbol direction new_side (r_size record) (r_price record)) ;;
        match reverse_signal with
        | Some signal => run_reverse_signal record signal ;; ret true
        | None =>
            success <- call_open_position record symbol new_side is_twap twap_oid ;;
            when success (clear_closed_symbol coin) ;;
            mark_synced_fill (r_id record) ;;
            ret true
        end
    | None => sync_fill_close_or_open record symbol is_twap twap_oid
    end
  else sync_fill_close_or_open record symbol is_twap twap_oid.

(** The closing bookkeeping of [sync_fill_record]. *)
Definition sync_fill_finish (record : FillRecord) : M W unit :=
  match r_id record with
  | Some id =>
      modify (add_synced_fill id) ;;
      when (cfg_db cfg) (ext (UpdateFillStatus id StProcessed))
  | None =>
      let tx_hash := Py.or_str (r_hash record) (r_tx_hash record) in
      if Py.truthy_str tx_hash
      then modify (add_synced_tx_hash (default EmptyString tx_hash))
      else ret tt
  end.

(** From the symbol check to the end of the [try] block.  [AddSlice]
    stands for [add_slice] together with the conversion of its time stamp
    argument. *)
Definition sync_fill_checked (record : FillRecord) : M W unit :=
  let record_id := r_id record in
  let coin := r_coin record in
  supported <- _check_symbol_support coin record_id true ;;
  if negb supported then ret tt
  else
    fresh <- _validate_order_freshness record_id (r_timestamp record) true ;;
    if negb (fst fresh) then ret tt
    else
      let symbol := ensure_full_symbol cfg coin in
      is_twap <- ext (IsTwapFill record) ;;
      let twap_oid := if is_twap then r_oid record else None in
      when is_twap (ext (AddSlice record)) ;;
      returned <- sync_fill_dispatch record symbol is_twap twap_oid ;;
      if returned then ret tt else sync_fill_finish record.

(** Is the [tx_hash] one that takes part in de-duplication? *)
Definition dedupe_hash (tx_hash : option string) : bool :=
  Py.truthy_str tx_hash && negb (String.eqb (default EmptyString tx_hash) ZERO_HASH).

(** The branch of a [tx_hash] seen before. *)
Definition skip_duplicate (record : FillRecord) : M W unit :=
  match r_id record with
  | Some id =>
      modify (add_synced_fill id) ;;
      when (cfg_db cfg) (ext (UpdateFillStatus id StDuplicate))
  | None => ret tt
  end.

(** The [try] block of [sync_fill_record]. *)
Definition sync_fill_try (record : FillRecord) : M W unit :=
  let tx_hash := r_tx_hash record in
  if dedupe_hash tx_hash then
    let h := default EmptyString tx_hash in
    seen <- gets (fun e => bool_decide (h ∈ synced_tx_hashes e)) ;;
    if seen then skip_duplicate record
    else modify (add_synced_tx_hash h) ;; sync_fill_checked record
  else sync_fill_checked record.

(** The test at the head of [sync_fill_record]: is the record known? *)
Definition fill_already_synced (record : FillRecord) (e : Engine) : bool :=
  match r_id record with
  | None =>
      let tx_hash := Py.or_str (r_hash record) (r_tx_hash record) in
      Py.truthy_str tx_hash
      && bool_decide (default EmptyString tx_hash ∈ synced_tx_hashes e)
  | Some id => bool_decide (id ∈ synced_fills e)
  end.

(** [sync_fill_record] *)
Definition sync_fill_record (record : FillRecord) : M W unit :=
  synced <- gets (fill_already_synced record) ;;
  if synced then ret tt
  else
    try_except
      (sync_fill_try record)
      (match r_id record with
       | Some id => when (cfg_db cfg) (ext (UpdateFillStatus id StFailed))
       | None => ret tt
       end).

(** The worker feeds the fills to [sync_fill_record] one after the other;
    a fill whose processing raises does not stop the next one. *)
Fixpoint sync_fill_records (records : list FillRecord) : M W unit :=
  match records with
  | [] => ret tt
  | record :: rest => attempt (sync_fill_record record) ;; sync_fill_records rest
  end.

End Manager.

(** ** The leverage table *)

(** One entry of [CUSTOM_LEVERAGE_CONFIG], as the loop of
    [_load_leverage_config] reads it: [Ret None] for an entry without a
    colon, which is passed over; [Raise] where unpacking [pair.split(':')]
    into two names or [int(...)] fails.  The entry is a string of ASCII
    characters ([PyStr.is_ascii]): Python's [strip], [upper] and [int] know
    more white space, letters and digits than those of ASCII. *)
Definition parse_leverage_pair (pair : string) : Res (option (string * Z)) :=
  let pair := PyStr.strip pair in
  if Py.contains ":" pair then
    match PyStr.split_on ":" pair with
    | [coin; leverage] =>
        match PyStr.int_of_string (PyStr.strip leverage) with
        | Some lev => Ret (Some (Py.upper (PyStr.strip coin), lev))
        | None => Raise
        end
    | _ => Raise
    end
  else Ret None.

(** The [for] loop of [_load_leverage_config] inside its [try]: at the
    first entry that raises the [except] clause takes over and the map is
    returned as it stands. *)
Fixpoint load_pairs (pairs : list string) (leverage_map : gmap string Z) : gmap string Z :=
  match pairs with
  | [] => leverage_map
  | entry :: rest =>
      match parse_leverage_pair entry with
      | Ret (Some (coin, lev)) => load_pairs rest (<[coin := lev]> leverage_map)
      | Ret None => load_pairs rest leverage_map
      | Raise => leverage_map
      end
  end.

(** [_load_leverage_config] *)
Definition _load_leverage_config (CUSTOM_LEVERAGE_CONFIG : option string) : gmap string Z :=
  if Py.truthy_str CUSTOM_LEVERAGE_CONFIG then
    load_pairs (PyStr.split_on "," (default EmptyString CUSTOM_LEVERAGE_CONFIG)) ∅
  else ∅.

(** ** Comparing expected and actual positions *)

(** A row of the expected positions, as [check_position_sync] reads it. *)
Record DbPosition := {
  d_coin : string;
  d_side : string;
  d_size : Q
}.

(** An entry of the list [check_position_sync] returns: ['action'] is
    ['open'] (with ['size'], reason ['missing_position']) or ['adjust']
    (with ['expected_size'] and ['actual_size'], reason
    ['size_mismatch']). *)
Inductive SyncAction :=
| ActionOpen (symbol side : string) (size : Q)
| ActionAdjust (symbol side : string) (expected_size actual_size : Q).

Section Reconcile.

Variable cfg : Config.

(** One round of the first loop of [check_position_sync]: a position of
    positive size is stored under its key, in the place of an earlier one
    with the same key. *)
Definition add_bybit_pos (bybit_pos_dict : gmap string Position) (pos : Position)
  : gmap string Position :=
  if Py.Qlt_bool 0 (p_size pos)
  then <[pos_key_of (p_symbol pos) (p_side pos) := pos]> bybit_pos_dict
  else bybit_pos_dict.

(** The first loop of [check_position_sync]. *)
Definition bybit_pos_dict_of (bybit_positions : list Position) : gmap string Position :=
  fold_left add_bybit_pos bybit_positions ∅.

(** One round of the second loop: what it appends to [sync_actions]. *)
Definition check_one (bybit_pos_dict : gmap string Position) (db_pos : DbPosition)
  : list SyncAction :=
  let symbol := ensure_full_symbol cfg (d_coin db_pos) in
  let side := d_side db_pos in
  let expected_size := d_size db_pos in
  match bybit_pos_dict !! pos_key_of symbol side with
  | None =>
      if Py.Qlt_bool 0 expected_size then [ActionOpen symbol side expected_size] else []
  | Some bybit_pos =>
      let actual_size := p_size bybit_pos in
      let size_diff := Qabs (Py.fsub expected_size actual_size) in
      if Py.Qlt_bool (Py.float (min_position_size cfg)) size_diff
      then [ActionAdjust symbol side expected_size actual_size]
      else []
  end.

(** [check_position_sync] *)
Definition check_position_sync (db_positions : list DbPosition)
    (bybit_positions : list Position) : list SyncAction :=
  let bybit_pos_dict := bybit_pos_dict_of bybit_positions in
  fold_left
    (fun sync_actions db_pos => sync_actions ++ check_one bybit_pos_dict db_pos)
    db_positions [].

End Reconcile.

(** ** A scripted venue for running the manager on concrete inputs *)

Module Demo.

(** What the scripted collaborators answer. *)
Record World := {
  w_positions : list Position;       (* [query_positions()] *)
  w_positions_live : list Position;  (* [query_positions(use_cache=...)] *)
  w_close : CloseReply;              (* [close_position] *)
  w_min_qty : option Q;              (* [_pairs[coin]['min_qty']] *)
  w_now : Q;                         (* the clock *)
  w_open_orders : list VenueOrder;   (* [query_open_orders()] *)
  w_exchange_leverage : Z;           (* [set_max_leverage] *)
  w_reverse : option ReverseSignal;  (* [detect_reverse_signal] *)
  w_order_live : bool                (* does [query_order] find the order? *)
}.

Definition venue (A : Type) (c : Call A) (w : World) : Res A * World :=
  match c in Call T return Res T * World with
  | IsSymbolAllowed _ => (Ret true, w)
  | FilterEnabled => (Ret true, w)
  | SupportSymbol _ => (Ret true, w)
  | PairMinQty _ => (Ret (w_min_qty w), w)
  | SetMaxLeverage _ _ => (Ret (w_exchange_leverage w), w)
  | ClampOrderQuantity _ _ copy_size => (Ret copy_size, w)
  | QueryPositions None => (Ret (w_positions w), w)
  | QueryPositions (Some _) => (Ret (w_positions_live w), w)
  | OpenMarketOrder _ _ _ => (Ret (true, Some "mkt-1"%string), w)
  | OpenOrder _ _ _ _ => (Ret (true, Some "ex_A"%string), w)
  | ClosePosition _ _ => (Ret (w_close w), w)
  | QueryOpenOrders => (Ret (w_open_orders w), w)
  | ContainOrder _ _ _ _ => (Ret false, w)
  | QueryOrder _ _ =>
      (Ret (if w_order_live w then Some {| oi_orderStatus := "Filled" |} else None), w)
  | CancelOrder _ _ => (Ret true, w)
  | ClientGetExecutions _ _ _ =>
      (Ret {| er_retCode := 0; er_retMsg := EmptyString; er_list := [] |}, w)
  | GetExecutions _ _ => (Ret [], w)
  | Now => (Ret (w_now w), w)
  | TimeTime => (Ret (w_now w), w)
  | Sleep _ => (Ret tt, w)
  | CalculateCopySize size _ _ => (Ret (size * 0.1), w)
  | DetectReverseSignal _ _ _ _ _ => (Ret (w_reverse w), w)
  | HandleReverseSignal _ => (Ret true, w)
  | IsTwapFill _ => (Ret false, w)
  | AddSlice _ => (Ret tt, w)
  | GetOrder _ => (Ret None, w)
  | MarkSliceFollowed _ _ _ _ => (Ret tt, w)
  | UpdateFillStatus _ _ => (Ret tt, w)
  | UpdateOrderStatus _ _ => (Ret tt, w)
  | SendTradeFailure _ _ _ _ => (Ret tt, w)
  | SendTradeSuccess _ _ _ _ _ _ _ _ => (Ret tt, w)
  | SendNotification _ _ _ _ => (Ret tt, w)
  | PositionOpenedCallback _ _ _ _ => (Ret tt, w)
  | PositionClosedCallback _ _ => (Ret tt, w)
  | RetryDecision _ _ => (Ret false, w)
  end.

Definition quiet : World :=
  {| w_positions := []; w_positions_live := [];
     w_close := Close4 true 1 None None; w_min_qty := None; w_now := 1000;
     w_open_orders := []; w_exchange_leverage := 100; w_reverse := None;
     w_order_live := true |}.

(** [BTC] to [BTCUSDT] and back. *)
Definition full_symbol (coin : string) : string :=
  if Py.endswith coin "USDT" then coin else (coin ++ "USDT")%string.

Definition short_symbol (symbol : string) : string := Py.remove_all "USDT" symbol.

Definition config : Config :=
  {| cfg_db := true; cfg_feishu_notifier := true;
     cfg_position_opened_callback := false; cfg_position_closed_callback := false;
     min_position_size := 0.001;
     leverage_config := {[ "BTC"%string := 50%Z ]};
     MAX_LEVERAGE := 20;
     ENABLE_ORDER_TIME_FILTER := false;
     ORDER_MAX_AGE_HOURS := 24;
     ensure_full_symbol := full_symbol;
     ensure_short_symbol := short_symbol;
     poll_budget := 31 |}.

Definition start (w : World) : Sys World :=
  {| eng := new_engine; world := w; trace := [] |}.

Definition fill (id : Z) (tx_hash coin side direction : string)
    (size price closed_pnl start_position : Q) : FillRecord :=
  {| r_id := Some id; r_hash := None; r_tx_hash := Some tx_hash;
     r_timestamp := Some 990; r_coin := coin; r_side := side; r_size := size;
     r_price := price; r_direction := direction; r_closed_pnl := closed_pnl;
     r_start_position := start_position; r_oid := None |}.

(** S3 of the specification: a flip from short to long that also closes
    the whole source position. *)
Definition flip_fill : FillRecord :=
  fill 7 "0xaaa1" "ETH" "Buy" "Short > Long" 0.5 3000 100 (-0.5).

Definition flip_world : World :=
  {| w_positions := [ {| p_symbol := "ETHUSDT"; p_side := "Sell"; p_size := 1 |} ];
     w_positions_live := [];
     w_close := Close4 true 1 None None; w_min_qty := None; w_now := 1000;
     w_open_orders := []; w_exchange_leverage := 100;
     w_reverse := Some {| reverse_type := "short_to_long" |};
     w_order_live := true |}.

(** S2 of the specification: a close of the whole source position. *)
Definition close_fill : FillRecord :=
  fill 8 "0xaaa2" "BTC" "Sell" "Close Long" 3 50000 10000 3.

(** A memo written at time 1000, read at 1299 and at 1301. *)
Definition memo0 : Memo :=
  {| m_time := 1000; m_type := Forced;
     m_fields := [("original_close_size"%string, 0.05); ("min_qty"%string, 0.1);
                  ("actual_size"%string, 0.1)] |}.

Definition at_time (now : Q) : World :=
  {| w_positions := []; w_positions_live := [];
     w_close := Close4 true 1 None None; w_min_qty := None; w_now := now;
     w_open_orders := []; w_exchange_leverage := 100; w_reverse := None;
     w_order_live := true |}.

Definition memo_state (now : Q) : Sys World :=
  {| eng := set_forced_liquidations (insert (pos_key_of "SOLUSDT" "Buy") memo0) new_engine;
     world := at_time now; trace := [] |}.

(** S5 of the specification: two fills with one hash. *)
Definition dup_first : FillRecord :=
  fill 1 "0xabc" "BTC" "Buy" "Open Long" 1 50000 0 0.

Definition dup_second : FillRecord :=
  fill 2 "0xabc" "BTC" "Buy" "Open Long" 1 50000 0 0.

(** S4 of the specification: a reduce by 0.05 against a position of 0.5
    with a minimum lot of 0.1. *)
Definition small_reduce_fill : FillRecord :=
  fill 9 "0xaaa3" "SOL" "Sell" "Close Long" 0.05 150 5 10.

Definition sol_position : Position :=
  {| p_symbol := "SOLUSDT"; p_side := "Buy"; p_size := 0.5 |}.

Definition small_reduce_world : World :=
  {| w_positions := [sol_position]; w_positions_live := [];
     w_close := Close4 true 0.1 None None; w_min_qty := Some 0.1; w_now := 1000;
     w_open_orders := []; w_exchange_leverage := 100; w_reverse := None;
     w_order_live := true |}.

(** A position no larger than the minimum lot. *)
Definition dust_position : Position :=
  {| p_symbol := "SOLUSDT"; p_side := "Buy"; p_size := 0.08 |}.

Definition dust_world : World :=
  {| w_positions := [dust_position]; w_positions_live := [];
     w_close := Close4 true 0.08 None None; w_min_qty := Some 0.1; w_now := 1000;
     w_open_orders := []; w_exchange_leverage := 100; w_reverse := None;
     w_order_live := true |}.

(** The venue rejects the close with "position is zero" (110017); the
    requery then lists no position at all, ... *)
Definition zero_reject_world (live : list Position) : World :=
  {| w_positions := [sol_position]; w_positions_live := live;
     w_close := Close4 false 0 None (Some "110017"%string);
     w_min_qty := Some 0.01; w_now := 1000;
     w_open_orders := []; w_exchange_leverage := 100; w_reverse := None;
     w_order_live := true |}.

(** ... or lists the position with size 0. *)
Definition sol_flat : Position :=
  {| p_symbol := "SOLUSDT"; p_side := "Buy"; p_size := 0 |}.

(** S6 of the specification: an order placed under source id 42, then
    cancelled. *)
Definition placed_order : OrderRecord :=
  {| o_id := Some 11%Z; o_timestamp := Some 990; o_coin := "BTC"; o_action := "placed";
     o_side := "BUY"; o_size := 1; o_price := 40000; o_order_id := Some 42%Z |}.

Definition canceled_order : OrderRecord :=
  {| o_id := Some 12%Z; o_timestamp := Some 995; o_coin := "BTC"; o_action := "canceled";
     o_side := "BUY"; o_size := 1; o_price := 40000; o_order_id := Some 42%Z |}.

End Demo.

(** ** More scripted collaborators *)

Module Cases.

(** Every close is answered with four values, and the clock stands still. *)
Definition steady (A : Type) (c : Call A) (w : Demo.World) : Res A * Demo.World :=
  match c in Call T return Res T * Demo.World with
  | ClosePosition _ _ => (Ret (Close4 true 1 None None), w)
  | Now => (Ret 1000, w)
  | c' => Demo.venue _ c' w
  end.

(** The notifier is down. *)
Definition mute (A : Type) (c : Call A) (w : Demo.World) : Res A * Demo.World :=
  match c in Call T return Res T * Demo.World with
  | SendNotification _ _ _ _ => (Raise, w)
  | c' => steady _ c' w
  end.

(** Nothing answers. *)
Definition broken (A : Type) (c : Call A) (w : Demo.World) : Res A * Demo.World :=
  (Raise, w).

(** [Demo.config] with the time filter on. *)
Definition strict_config : Config :=
  {| cfg_db := true; cfg_feishu_notifier := true;
     cfg_position_opened_callback := false; cfg_position_closed_callback := false;
     min_position_size := 0.001;
     leverage_config := {[ "BTC"%string := 50%Z ]};
     MAX_LEVERAGE := 20;
     ENABLE_ORDER_TIME_FILTER := true;
     ORDER_MAX_AGE_HOURS := 24;
     ensure_full_symbol := Demo.full_symbol;
     ensure_short_symbol := Demo.short_symbol;
     poll_budget := 31 |}.

(** [Demo.config] with the leverage table loaded from a text. *)
Definition config_of (text : string) : Config :=
  {| cfg_db := true; cfg_feishu_notifier := true;
     cfg_position_opened_callback := false; cfg_position_closed_callback := false;
     min_position_size := 0.001;
     leverage_config := _load_leverage_config (Some text);
     MAX_LEVERAGE := 20;
     ENABLE_ORDER_TIME_FILTER := false;
     ORDER_MAX_AGE_HOURS := 24;
     ensure_full_symbol := Demo.full_symbol;
     ensure_short_symbol := Demo.short_symbol;
     poll_budget := 31 |}.

(** Positions of ETH, of a coin whose name starts with ETH, and of BTC. *)
Definition eth_long : Position :=
  {| p_symbol := "ETHUSDT"; p_side := "Buy"; p_size := 1 |}.

Definition ethfi_short : Position :=
  {| p_symbol := "ETHFIUSDT"; p_side := "Sell"; p_size := 2 |}.

Definition btc_long : Position :=
  {| p_symbol := "BTCUSDT"; p_side := "Buy"; p_size := 1 |}.

Definition mixed_world : Demo.World :=
  {| Demo.w_positions := [eth_long; ethfi_short; btc_long];
     Demo.w_positions_live := [];
     Demo.w_close := Close4 true 1 None None; Demo.w_min_qty := None; Demo.w_now := 1000;
     Demo.w_open_orders := []; Demo.w_exchange_leverage := 100; Demo.w_reverse := None;
     Demo.w_order_live := true |}.

(** A resting order as the venue lists it, at the price of
    [Demo.canceled_order]. *)
Definition resting : VenueOrder :=
  {| oo_symbol := "BTCUSDT"; oo_side := "Buy"; oo_price := 40000;
     oo_orderId := Some "ex_A"%string |}.

Definition resting_world : Demo.World :=
  {| Demo.w_positions := []; Demo.w_positions_live := [];
     Demo.w_close := Close4 true 1 None None; Demo.w_min_qty := None; Demo.w_now := 1000;
     Demo.w_open_orders := [resting]; Demo.w_exchange_leverage := 100;
     Demo.w_reverse := None; Demo.w_order_live := true |}.

(** An expected position of BTC. *)
Definition expected_btc : DbPosition :=
  {| d_coin := "BTC"; d_side := "Buy"; d_size := 1 |}.

(** The allowlist lets no coin through. *)
Definition gated (A : Type) (c : Call A) (w : Demo.World) : Res A * Demo.World :=
  match c in Call T return Res T * Demo.World with
  | IsSymbolAllowed _ => (Ret false, w)
  | c' => Demo.venue _ c' w
  end.

(** The minimum lot is 0.1 whatever the world; closes are confirmed with
    four values. *)
Definition lot (A : Type) (c : Call A) (w : Demo.World) : Res A * Demo.World :=
  match c in Call T return Res T * Demo.World with
  | PairMinQty _ => (Ret (Some 0.1), w)
  | c' => steady _ c' w
  end.

(** The exchange's maximum leverage is 100 whatever the world. *)
Definition levered (A : Type) (c : Call A) (w : Demo.World) : Res A * Demo.World :=
  match c in Call T return Res T * Demo.World with
  | SetMaxLeverage _ _ => (Ret 100%Z, w)
  | c' => Demo.venue _ c' w
  end.

(** A fill whose id is 0. *)
Definition zero_id_fill : FillRecord :=
  Demo.fill 0 "0xabd" "BTC" "Buy" "Open Long" 1 50000 0 0.

(** A fill that closes 99.2% of the source position. *)
Definition near_full_fill : FillRecord :=
  Demo.fill 10 "0xaaa4" "SOL" "Sell" "Close Long" 0.992 150 5 1.

(** A cancel record that writes its side as the venue does. *)
Definition cancel_buy : OrderRecord :=
  {| o_id := Some 13%Z; o_timestamp := Some 995; o_coin := "BTC"; o_action := "canceled";
     o_side := "Buy"; o_size := 1; o_price := 40000; o_order_id := Some 42%Z |}.

(** A position of the coin that is no larger than the minimum lot, and one
    that is. *)
Definition sol_dust : Position :=
  {| p_symbol := "SOLUSDT"; p_side := "Sell"; p_size := 0.08 |}.

Definition two_sol_world : Demo.World :=
  {| Demo.w_positions := [Demo.sol_position; sol_dust];
     Demo.w_positions_live := [];
     Demo.w_close := Close4 true 1 None None; Demo.w_min_qty := Some 0.1; Demo.w_now := 1000;
     Demo.w_open_orders := []; Demo.w_exchange_leverage := 100; Demo.w_reverse := None;
     Demo.w_order_live := true |}.

End Cases.


(** ** Observations on the trace *)

Definition is_market_placement (e : Event) : bool :=
  match e with
  | EvCall c => match c with OpenMarketOrder _ _ _ => true | _ => false end
  | EvDispatch _ _ => false
  end.

Definition is_cancel (e : Event) : bool :=
  match e with
  | EvCall c => match c with CancelOrder _ _ => true | _ => false end
  | EvDispatch _ _ => false
  end.

Definition is_dispatch (e : Event) : bool :=
  match e with
  | EvDispatch _ _ => true
  | EvCall _ => false
  end.

(** A failure notification of any kind. *)
Definition is_failure_notification (e : Event) : bool :=
  match e with
  | EvCall c =>
      match c with
      | SendNotification _ NtError _ _ => true
      | SendTradeFailure _ _ _ _ => true
      | _ => false
      end
  | EvDispatch _ _ => false
  end.

Fixpoint count_events (p : Event -> bool) (t : list Event) : nat :=
  match t with
  | [] => O
  | e :: rest => (if p e then 1 else 0) + count_events p rest
  end.

(** The market orders placed so far. *)
Definition placements (t : list Event) : nat := count_events is_market_placement t.

(** The hand-overs to a trade handler, newest first. *)
Fixpoint dispatches (t : list Event) : list (Handler * FillRecord) :=
  match t with
  | [] => []
  | EvDispatch h r :: rest => (h, r) :: dispatches rest
  | EvCall _ :: rest => dispatches rest
  end.

(** Does the fill carry the hash [h]? *)
Definition carries (h : string) (record : FillRecord) : bool :=
  match r_tx_hash record with
  | Some x => String.eqb x h
  | None => false
  end.

(** The fills with hash [h] that reached a trade handler. *)
Definition dispatched_with (h : string) (t : list Event) : nat :=
  List.length (List.filter (fun d => carries h (snd d)) (dispatches t)).

(** The handler [h0] and no other. *)
Definition only (h0 : Handler) (h : Handler) : bool :=
  match h0, h with
  | HReverse, HReverse | HOpen, HOpen | HForceCloseAll, HForceCloseAll
  | HClose, HClose | HReduce, HReduce => true
  | _, _ => false
  end.

(** The handlers a reverse-flip direction leads to. *)
Definition flip_handlers (h : Handler) : bool := only HReverse h || only HOpen h.

Definition any_handler (h : Handler) : bool := true.

(** The close requests, newest first. *)
Fixpoint close_requests (t : list Event) : list (Position * CloseHow) :=
  match t with
  | [] => []
  | EvCall c :: rest =>
      match c with
      | ClosePosition position how => (position, how) :: close_requests rest
      | _ => close_requests rest
      end
  | EvDispatch _ _ :: rest => close_requests rest
  end.

(** The test of the scan in [_handle_cancel_order]: the symbol, the side as
    the record writes it, and a price less than 0.01 away, all in floats. *)
Definition order_matches (symbol side : string) (price : Q) (o : VenueOrder) : Prop :=
  oo_symbol o = symbol /\ oo_side o = side
  /\ Qabs (Py.fsub (oo_price o) price) < Py.float 0.01.

(** The leverage an event of the open handler carries: the request to the
    venue is for the exchange's maximum on [symbol]; a success notification
    carries [exchange]; a failure notification carries [exchange] or
    [configured]. *)
Definition leverage_use (symbol : string) (exchange configured : Z) (e : Event) : Prop :=
  match e with
  | EvCall c =>
      match c with
      | SetMaxLeverage sy use_exchange_max => sy = symbol /\ use_exchange_max = true
      | SendTradeSuccess _ _ _ _ _ leverage _ _ => leverage = exchange
      | SendTradeFailure _ _ leverage _ => leverage = exchange \/ leverage = configured
      | _ => True
      end
  | EvDispatch _ _ => True
  end.

(** The memo a partial close writes when the minimum lot turned it into a
    close of the whole position. *)
Definition forced_memo_of (size min_qty : Q) (memo : Memo) : Prop :=
  exists now closed,
    0 < closed
    /\ memo = {| m_time := now; m_type := Forced;
                 m_fields := [("original_close_size"%string, size);
                              ("min_qty"%string, min_qty);
                              ("actual_size"%string, closed)] |}.

(** What partial closes of [positions] may do to the manager's collections:
    nothing but store such a memo under the key of a position whose close
    the minimum lot turned into a close of the whole position. *)
Definition forced_memos (size min_qty : Q) (positions : list Position) (e e' : Engine)
  : Prop :=
  synced_fills e' = synced_fills e
  /\ synced_orders e' = synced_orders e
  /\ synced_tx_hashes e' = synced_tx_hashes e
  /\ notified_order_ids e' = notified_order_ids e
  /\ order_id_mapping e' = order_id_mapping e
  /\ closed_symbols e' = closed_symbols e
  /\ forall k,
       forced_liquidations e' !! k = forced_liquidations e !! k
       \/ ((exists position,
               In position positions
               /\ snd (partial_close_size size (p_size position) min_qty) = true
               /\ k = pos_key_of (p_symbol position) (p_side position))
           /\ exists memo,
                forced_liquidations e' !! k = Some memo /\ forced_memo_of size min_qty memo).

(** The memo [_handle_reduce_position] writes for a position that was no
    larger than the minimum lot (an accidental full close). *)
Definition accidental_memo_of (pos_size min_qty : Q) (memo : Memo) : Prop :=
  exists now closed,
    0 < closed
    /\ memo = {| m_time := now; m_type := Forced;
                 m_fields := [("original_size"%string, pos_size);
                              ("min_qty"%string, min_qty);
                              ("actual_size"%string, closed)] |}.

(** What [_handle_reduce_position] may do to the manager's collections:
    mark the coin as closed, and store such a memo under the key of a
    position that was no larger than a positive minimum lot. *)
Definition reduce_memos (min_qty : Q) (coin : string) (positions : list Position)
    (e e' : Engine) : Prop :=
  synced_fills e' = synced_fills e
  /\ synced_orders e' = synced_orders e
  /\ synced_tx_hashes e' = synced_tx_hashes e
  /\ notified_order_ids e' = notified_order_ids e
  /\ order_id_mapping e' = order_id_mapping e
  /\ (closed_symbols e' = closed_symbols e
      \/ closed_symbols e' = {[coin]} ∪ closed_symbols e)
  /\ forall k,
       forced_liquidations e' !! k = forced_liquidations e !! k
       \/ exists position memo,
            In position positions
            /\ Py.Qlt_bool 0 min_qty && Qle_bool (p_size position) min_qty = true
            /\ k = pos_key_of (p_symbol position) (p_side position)
            /\ forced_liquidations e' !! k = Some memo
            /\ accidental_memo_of (p_size position) min_qty memo.

(** An event of the order stream: no market order, no close, no reverse,
    no hand-over of a fill, no status of a fill. *)
Definition leaves_positions (e : Event) : Prop :=
  match e with
  | EvCall c =>
      match c with
      | OpenMarketOrder _ _ _ | ClosePosition _ _ | HandleReverseSignal _
      | UpdateFillStatus _ _ => False
      | _ => True
      end
  | EvDispatch _ _ => False
  end.

(** An event of the fill stream: no limit order, no cancellation, no status
    of an order record. *)
Definition leaves_orders (e : Event) : Prop :=
  match e with
  | EvCall c =>
      match c with
      | OpenOrder _ _ _ _ | CancelOrder _ _ | UpdateOrderStatus _ _ => False
      | _ => True
      end
  | EvDispatch _ _ => True
  end.

(** A limit order, if the event is one, is for this symbol, side and
    price. *)
Definition limit_order_as (symbol side : string) (price : Q) (e : Event) : Prop :=
  match e with
  | EvCall c =>
      match c with
      | OpenOrder sy sd _ p => sy = symbol /\ sd = side /\ p = price
      | _ => True
      end
  | EvDispatch _ _ => True
  end.

(** A market order, if the event is one, is for this symbol and side and
    for no less than [least]. *)
Definition market_order_as (symbol side : string) (least : Q) (e : Event) : Prop :=
  match e with
  | EvCall c =>
      match c with
      | OpenMarketOrder sy sd qty => sy = symbol /\ sd = side /\ least <= qty
      | _ => True
      end
  | EvDispatch _ _ => True
  end.

(** A close request, if the event is one, does not ask for more than the
    position holds. *)
Definition close_within (e : Event) : Prop :=
  match e with
  | EvCall c =>
      match c with
      | ClosePosition position (CloseQty q) => q <= p_size position
      | _ => True
      end
  | EvDispatch _ _ => True
  end.

(** No notification of a success. *)
Definition no_success_notice (e : Event) : Prop :=
  match e with
  | EvCall c =>
      match c with
      | SendNotification _ NtSuccess _ _ => False
      | _ => True
      end
  | EvDispatch _ _ => True
  end.

(** The collections of the fill stream are as they were. *)
Definition same_fill_books (e e' : Engine) : Prop :=
  synced_fills e' = synced_fills e
  /\ synced_tx_hashes e' = synced_tx_hashes e
  /\ notified_order_ids e' = notified_order_ids e
  /\ closed_symbols e' = closed_symbols e
  /\ forced_liquidations e' = forced_liquidations e.

(** The collections of the order stream are as they were. *)
Definition same_order_books (e e' : Engine) : Prop :=
  synced_orders e' = synced_orders e
  /\ order_id_mapping e' = order_id_mapping e.

(** ** Reasoning about runs *)

Section Logic.

Context {W : Type}.

(** [Q] holds of the outcome of [m] from [s]. *)
Definition wp {A} (m : M W A) (Q : Res A -> Sys W -> Prop) (s : Sys W) : Prop :=
  Q (fst (m s)) (snd (m s)).

(** Every run of [m] relates the state before to the state after. *)
Definition keeps (R : Sys W -> Sys W -> Prop) {A} (m : M W A) : Prop :=
  forall s, R s (snd (m s)).

Definition after_call {A} (c : Call A) (w' : W) (s : Sys W) : Sys W :=
  {| eng := eng s; world := w'; trace := EvCall c :: trace s |}.

Definition with_engine (f : Engine -> Engine) (s : Sys W) : Sys W :=
  {| eng := f (eng s); world := world s; trace := trace s |}.

Definition with_event (e : Event) (s : Sys W) : Sys W :=
  {| eng := eng s; world := world s; trace := e :: trace s |}.

(** No hash is forgotten and no fill is handed to a handler. *)
Definition no_dispatch (s s' : Sys W) : Prop :=
  synced_tx_hashes (eng s) ⊆ synced_tx_hashes (eng s')
  /\ dispatches (trace s') = dispatches (trace s).

(** No processed id is forgotten and no market order is placed. *)
Definition no_placement (s s' : Sys W) : Prop :=
  synced_fills (eng s) ⊆ synced_fills (eng s')
  /\ placements (trace s') = placements (trace s).

(** The run hands [record] to the handler [h], and nothing else to any
    handler. *)
Definition hands_to (h : Handler) (record : FillRecord) (s s' : Sys W) : Prop :=
  dispatches (trace s') = (h, record) :: dispatches (trace s).

(** No hash is forgotten, and at most one hand-over happens: of [record],
    to a handler that [allowed] admits. *)
Definition hands_over (allowed : Handler -> bool) (record : FillRecord)
    (s s' : Sys W) : Prop :=
  synced_tx_hashes (eng s) ⊆ synced_tx_hashes (eng s')
  /\ (dispatches (trace s') = dispatches (trace s)
      \/ exists h, allowed h = true
                   /\ dispatches (trace s') = (h, record) :: dispatches (trace s)).

(** At most one fill with hash [h] has reached a handler, and if one has,
    [h] is among the recorded hashes. *)
Definition handed_once (h : string) (s : Sys W) : Prop :=
  (dispatched_with h (trace s) <= 1)%nat
  /\ (dispatched_with h (trace s) = 1%nat -> h ∈ synced_tx_hashes (eng s)).

(** No market order is placed and [id] ends up among the processed ids. *)
Definition marks (id : Z) (s s' : Sys W) : Prop :=
  no_placement s s' /\ id ∈ synced_fills (eng s').

(** At most one market order is placed, and only for an id that was not
    processed before and is processed after. *)
Definition at_most_once (id : Z) (s s' : Sys W) : Prop :=
  synced_fills (eng s) ⊆ synced_fills (eng s')
  /\ (placements (trace s') = placements (trace s)
      \/ (placements (trace s') = S (placements (trace s))
          /\ (id ∉ synced_fills (eng s))
          /\ (id ∈ synced_fills (eng s')))).

(** [n] calls one after the other, whatever each of them returns. *)
Fixpoint call_times {A} (n : nat) (call : M W A) : M W unit :=
  match n with
  | O => ret tt
  | S k => bind (attempt call) (fun _ => call_times k call)
  end.

(** The trace only grows. *)
Definition extends (s s' : Sys W) : Prop :=
  exists newer, trace s' = newer ++ trace s.

(** What the trace looks like once the market order is requested. *)
Definition submitted_shape (symbol side : string) (size price : Q) (s s' : Sys W) : Prop :=
  exists newer qty copy_size,
    trace s'
    = newer ++ EvCall (OpenMarketOrder symbol side qty)
        :: EvCall (QueryPositions None)
        :: EvCall (ClampOrderQuantity symbol price copy_size)
        :: EvCall (SetMaxLeverage symbol true)
        :: EvCall (CalculateCopySize size price symbol)
        :: trace s.

(** The manager's collections are untouched and the trace only grows. *)
Definition only_talks (s s' : Sys W) : Prop :=
  eng s' = eng s /\ extends s s'.

(** Every event the run adds satisfies [P]. *)
Definition emits (P : Event -> Prop) (s s' : Sys W) : Prop :=
  exists newer, trace s' = newer ++ trace s /\ Forall P newer.

(** The manager's collections change within [E]. *)
Definition changes (E : Engine -> Engine -> Prop) (s s' : Sys W) : Prop :=
  E (eng s) (eng s').

(** The close requests the run adds are those of [l], in this order. *)
Definition closes (l : list (Position * CloseHow)) (s s' : Sys W) : Prop :=
  close_requests (trace s') = rev l ++ close_requests (trace s).

(** The run adds no request and no hand-over. *)
Definition silent (s s' : Sys W) : Prop := trace s' = trace s.

(** If the run returns a value that [good] admits, [id] is among the
    processed ids. *)
Definition marked (id : Z) {A} (good : A -> Prop) (r : Res A) (s' : Sys W) : Prop :=
  forall a, r = Ret a -> good a -> id ∈ synced_fills (eng s').

(** No collaborator ever answers a close request with three values. *)
Definition close_replies_have_four (oracle : forall A : Type, Call A -> W -> Res A * W)
  : Prop :=
  forall position how w success closed_size pnl w',
    oracle _ (ClosePosition position how) w <> (Ret (Close3 success closed_size pnl), w').

End Logic.

(** * Verification *)

Local Open Scope py_scope.
Local Open Scope bool_scope.

Create HintDb keeps_db.

(** ** Rules of the monad *)

Section Rules.

Context {W : Type}.
Variable oracle : forall A : Type, Call A -> W -> Res A * W.

Lemma wp_ret {A} (a : A) (Q : Res A -> Sys W -> Prop) s :
  Q (Ret a) s -> wp (ret a) Q s.
Proof. exact (fun H => H). Qed.

Lemma wp_raise {A} (Q : Res A -> Sys W -> Prop) s :
  Q Raise s -> wp raise Q s.
Proof. exact (fun H => H). Qed.

Lemma wp_bind {A B} (m : M W A) (k : A -> M W B) (Q : Res B -> Sys W -> Prop) s :
  wp m (fun r s' => match r with Ret a => wp (k a) Q s' | Raise => Q Raise s' end) s ->
  wp (bind m k) Q s.
Proof.
  unfold wp, bind. destruct (m s) as [[a|] s']; simpl; auto.
Qed.

Lemma wp_try_except {A} (m h : M W A) (Q : Res A -> Sys W -> Prop) s :
  wp m (fun r s' => match r with Ret a => Q (Ret a) s' | Raise => wp h Q s' end) s ->
  wp (try_except m h) Q s.
Proof.
  unfold wp, try_except. destruct (m s) as [[a|] s']; simpl; auto.
Qed.

Lemma wp_attempt {A} (m : M W A) (Q : Res (option A) -> Sys W -> Prop) s :
  wp m (fun r s' => Q (Ret (match r with Ret a => Some a | Raise => None end)) s') s ->
  wp (attempt m) Q s.
Proof.
  unfold wp, attempt. destruct (m s) as [[a|] s']; simpl; auto.
Qed.

Lemma wp_gets {A} (f : Engine -> A) (Q : Res A -> Sys W -> Prop) s :
  Q (Ret (f (eng s))) s -> wp (gets f) Q s.
Proof. exact (fun H => H). Qed.

Lemma wp_modify (f : Engine -> Engine) (Q : Res unit -> Sys W -> Prop) s :
  Q (Ret tt) (with_engine f s) -> wp (modify f) Q s.
Proof. exact (fun H => H). Qed.

Lemma wp_emit (e : Event) (Q : Res unit -> Sys W -> Prop) s :
  Q (Ret tt) (with_event e s) -> wp (emit e) Q s.
Proof. exact (fun H => H). Qed.

Lemma wp_ext {A} (c : Call A) (Q : Res A -> Sys W -> Prop) s :
  (forall r w', Q r (after_call c w' s)) -> wp (ext oracle c) Q s.
Proof.
  intros H. unfold wp, ext. destruct (oracle A c (world s)) as [r w']. apply H.
Qed.

Lemma wp_when (b : bool) (m : M W unit) (Q : Res unit -> Sys W -> Prop) s :
  (b = true -> wp m Q s) -> (b = false -> Q (Ret tt) s) -> wp (when b m) Q s.
Proof. intros H1 H2. destruct b; [apply H1 | apply H2]; reflexivity. Qed.

Lemma wp_keeps {A} (R : Sys W -> Sys W -> Prop) (m : M W A)
    (Q : Res A -> Sys W -> Prop) s :
  keeps R m -> (forall r s', R s s' -> Q r s') -> wp m Q s.
Proof. intros Hk H. apply H, Hk. Qed.

Lemma wp_mono {A} (m : M W A) (Q Q' : Res A -> Sys W -> Prop) s :
  wp m Q s -> (forall r s', Q r s' -> Q' r s') -> wp m Q' s.
Proof. unfold wp. auto. Qed.

(** *** Relations kept by every run *)

Section Keeps.

Variable R : Sys W -> Sys W -> Prop.
Hypothesis R_refl : forall s, R s s.
Hypothesis R_trans : forall a b c, R a b -> R b c -> R a c.

Lemma keeps_ret {A} (a : A) : keeps R (ret a).
Proof. intros s. apply R_refl. Qed.

Lemma keeps_raise {A} : keeps R (@raise W A).
Proof. intros s. apply R_refl. Qed.

Lemma keeps_gets {A} (f : Engine -> A) : keeps R (gets f).
Proof. intros s. apply R_refl. Qed.

Lemma keeps_bind {A B} (m : M W A) (k : A -> M W B) :
  keeps R m -> (forall a, keeps R (k a)) -> keeps R (bind m k).
Proof.
  intros Hm Hk s. unfold bind. specialize (Hm s).
  destruct (m s) as [[a|] s']; simpl in *; auto.
  eapply R_trans; [exact Hm | apply Hk].
Qed.

Lemma keeps_try_except {A} (m h : M W A) :
  keeps R m -> keeps R h -> keeps R (try_except m h).
Proof.
  intros Hm Hh s. unfold try_except. specialize (Hm s).
  destruct (m s) as [[a|] s']; simpl in *; auto.
  eapply R_trans; [exact Hm | apply Hh].
Qed.

Lemma keeps_attempt {A} (m : M W A) : keeps R m -> keeps R (attempt m).
Proof.
  intros Hm s. unfold attempt. specialize (Hm s).
  destruct (m s) as [[a|] s']; simpl in *; auto.
Qed.

Lemma keeps_when (b : bool) (m : M W unit) : keeps R m -> keeps R (when b m).
Proof. destruct b; simpl; auto using keeps_ret. Qed.

Lemma keeps_ext {A} (c : Call A) :
  (forall s w', R s (after_call c w' s)) -> keeps R (ext oracle c).
Proof.
  intros H s. unfold ext. destruct (oracle A c (world s)) as [r w']. apply H.
Qed.

Lemma keeps_modify (f : Engine -> Engine) :
  (forall s, R s (with_engine f s)) -> keeps R (modify f).
Proof. intros H s. apply H. Qed.

Lemma keeps_emit (e : Event) :
  (forall s, R s (with_event e s)) -> keeps R (emit e).
Proof. intros H s. apply H. Qed.

Lemma keeps_for_each {A} (body : nat -> A -> M W nat) items :
  (forall n x, keeps R (body n x)) -> forall n, keeps R (for_each body n items).
Proof.
  intros Hb. induction items as [|x rest IH]; intros n; simpl.
  - apply keeps_ret.
  - apply keeps_bind; auto.
Qed.

Lemma keeps_with_retry {A} (call : M W A) :
  keeps R call ->
  (forall n b s w', R s (after_call (RetryDecision n b) w' s)) ->
  forall k n, keeps R (with_retry oracle k n call).
Proof.
  intros Hc Hd. induction k as [|k IH]; intros n s; simpl.
  - specialize (Hc s). destruct (call s) as [r s1]. exact Hc.
  - specialize (Hc s). destruct (call s) as [r s1]. simpl in Hc.
    pose proof (keeps_ext (RetryDecision n match r with Raise => true | Ret _ => false end)
                  (Hd _ _) s1) as He.
    destruct (ext oracle _ s1) as [[[|]|] s2]; simpl in *.
    + eapply R_trans; [exact Hc|]. eapply R_trans; [exact He|]. apply IH.
    + eapply R_trans; eauto.
    + eapply R_trans; eauto.
Qed.

End Keeps.

End Rules.

(** A generic step through the structure of a run, for a relation with
    proofs [Rrefl] and [Rtrans]; [side] settles what a request or an update
    of the manager's state has to satisfy. *)
Ltac keeps_step oracle Rrefl Rtrans side :=
  first
    [ solve [auto with keeps_db]
    | apply (keeps_ret _ Rrefl)
    | apply (keeps_raise _ Rrefl)
    | apply (keeps_gets _ Rrefl)
    | apply (keeps_with_retry oracle _ Rtrans); [ | solve [side] ]
    | apply (keeps_for_each _ Rrefl Rtrans); intros ? ?
    | apply (keeps_bind _ Rtrans); [ | intros ? ]
    | apply (keeps_try_except _ Rtrans)
    | apply keeps_attempt
    | apply (keeps_when _ Rrefl)
    | apply (keeps_ext oracle); solve [side]
    | apply keeps_modify; solve [side]
    | apply keeps_emit; solve [side]
    | match goal with
      | |- keeps _ (if ?b then _ else _) => destruct b
      | |- keeps _ (match ?x with _ => _ end) => destruct x
      | |- keeps _ (let _ := _ in _) => cbv zeta
      end ].

(** ** Nothing but [sync_fill_record] hands a fill to a handler *)

Section NoDispatch.

Context {W : Type}.
Variable oracle : forall A : Type, Call A -> W -> Res A * W.
Variable cfg : Config.

Lemma no_dispatch_refl (s : Sys W) : no_dispatch s s.
Proof. split; reflexivity. Qed.

Lemma no_dispatch_trans (a b c : Sys W) :
  no_dispatch a b -> no_dispatch b c -> no_dispatch a c.
Proof.
  intros [H1 H2] [H3 H4]. split; [set_solver | congruence].
Qed.

Ltac nd_side :=
  intros; split; simpl; [ try reflexivity; set_solver | reflexivity ].

Ltac nd := repeat keeps_step oracle (@no_dispatch_refl) (@no_dispatch_trans) nd_side.

Lemma nd_mark_skipped id is_fill st :
  keeps no_dispatch (mark_skipped oracle cfg id is_fill st).
Proof. unfold mark_skipped. nd. Qed.

Lemma nd_mark_fill id st : keeps no_dispatch (mark_fill oracle cfg id st).
Proof. unfold mark_fill. nd. Qed.

Lemma nd_check_symbol_support coin id is_fill :
  keeps no_dispatch (_check_symbol_support oracle cfg coin id is_fill).
Proof. unfold _check_symbol_support. nd; apply nd_mark_skipped. Qed.

Lemma nd_validate_order_freshness id ts is_fill :
  keeps no_dispatch (_validate_order_freshness oracle cfg id ts is_fill).
Proof.
  unfold _validate_order_freshness, _parse_timestamp, _is_order_fresh.
  nd; apply nd_mark_skipped.
Qed.

Lemma nd_get_min_order_qty coin : keeps no_dispatch (_get_min_order_qty oracle coin).
Proof. unfold _get_min_order_qty. nd. Qed.

Lemma nd_wait_loop n id start timeout :
  keeps no_dispatch (wait_loop oracle n id start timeout).
Proof.
  induction n as [|n IH]; simpl; nd.
Qed.

Hint Resolve nd_mark_skipped nd_mark_fill nd_get_min_order_qty nd_wait_loop : keeps_db.

Lemma nd_handle_open_position_body symbol side size price record is_twap oid order :
  keeps no_dispatch
    (_handle_open_position_body oracle cfg symbol side size price record is_twap oid order).
Proof.
  unfold _handle_open_position_body, open_prepare, open_on_exception,
    open_is_new_position, open_submit, open_after_submit, _wait_for_order_execution,
    query_real_fill.
  nd.
Qed.

Lemma nd_handle_open_position symbol side size price record is_twap oid order :
  keeps no_dispatch
    (_handle_open_position oracle cfg symbol side size price record is_twap oid order).
Proof.
  unfold _handle_open_position, critical_retry.
  apply (keeps_with_retry oracle _ no_dispatch_trans).
  - apply nd_handle_open_position_body.
  - intros; split; reflexivity.
Qed.

Lemma nd_handle_close_position symbol side size price record :
  keeps no_dispatch (_handle_close_position oracle cfg symbol side size price record).
Proof.
  unfold _handle_close_position, critical_retry, _handle_close_position_body.
  nd; unfold close_one, close_request, close_on_success, verify_position_is_zero, unpack4; nd.
Qed.

Lemma nd_handle_force_close_all symbol coin record :
  keeps no_dispatch (_handle_force_close_all oracle cfg symbol coin record).
Proof.
  unfold _handle_force_close_all.
  nd; unfold force_close_one, unpack4; nd.
Qed.

Lemma nd_handle_reduce_position symbol coin record :
  keeps no_dispatch (_handle_reduce_position oracle cfg symbol coin record).
Proof.
  unfold _handle_reduce_position.
  nd; unfold reduce_one, unpack3; nd.
Qed.

End NoDispatch.

(** ** Which handler a fill is handed to *)

Section HandOver.

Context {W : Type}.
Variable oracle : forall A : Type, Call A -> W -> Res A * W.
Variable cfg : Config.

Lemma keeps_bind_gen {A B} (R1 R2 R3 : Sys W -> Sys W -> Prop)
    (m : M W A) (k : A -> M W B) :
  (forall a b c, R1 a b -> R2 b c -> R3 a c) ->
  (forall a b, R1 a b -> R3 a b) ->
  keeps R1 m -> (forall a, keeps R2 (k a)) -> keeps R3 (bind m k).
Proof.
  intros Hcomp Hincl Hm Hk s. unfold bind. specialize (Hm s).
  destruct (m s) as [[a|] s']; simpl in *; eauto.
  eapply Hcomp; [exact Hm | apply Hk].
Qed.

Lemma keeps_weaken {A} (R1 R2 : Sys W -> Sys W -> Prop) (m : M W A) :
  (forall a b, R1 a b -> R2 a b) -> keeps R1 m -> keeps R2 m.
Proof. intros H Hm s. apply H, Hm. Qed.

Lemma hands_over_quiet allowed record (a b : Sys W) :
  no_dispatch a b -> hands_over allowed record a b.
Proof. intros [H1 H2]. split; auto. Qed.

Lemma hands_over_then_quiet allowed record (a b c : Sys W) :
  hands_over allowed record a b -> no_dispatch b c -> hands_over allowed record a c.
Proof.
  intros [H1 H2] [H3 H4]. split; [etransitivity; eassumption|].
  rewrite H4. exact H2.
Qed.

Lemma quiet_then_hands_over allowed record (a b c : Sys W) :
  no_dispatch a b -> hands_over allowed record b c -> hands_over allowed record a c.
Proof.
  intros [H1 H2] [H3 H4]. split; [etransitivity; eassumption|].
  rewrite <- H2. exact H4.
Qed.

Lemma hands_over_allow (allowed allowed' : Handler -> bool) record (a b : Sys W) :
  (forall h, allowed h = true -> allowed' h = true) ->
  hands_over allowed record a b -> hands_over allowed' record a b.
Proof.
  intros Hsub [H1 [H2|(h & Hh & H2)]]; split; auto.
  right. exists h. auto.
Qed.

(** A hand-over first, nothing of the kind after it. *)
Lemma keeps_hand_then {A B} allowed record (m : M W A) (k : A -> M W B) :
  keeps (hands_over allowed record) m -> (forall a, keeps no_dispatch (k a)) ->
  keeps (hands_over allowed record) (bind m k).
Proof.
  apply keeps_bind_gen; [apply hands_over_then_quiet | auto].
Qed.

(** Nothing of the kind first, a hand-over after it. *)
Lemma keeps_then_hand {A B} allowed record (m : M W A) (k : A -> M W B) :
  keeps no_dispatch m -> (forall a, keeps (hands_over allowed record) (k a)) ->
  keeps (hands_over allowed record) (bind m k).
Proof.
  apply keeps_bind_gen; [apply quiet_then_hands_over | apply hands_over_quiet].
Qed.

Lemma keeps_quiet_hand {A} allowed record (m : M W A) :
  keeps no_dispatch m -> keeps (hands_over allowed record) m.
Proof. apply keeps_weaken, hands_over_quiet. Qed.

Ltac nd_side :=
  intros; split; simpl; [ try reflexivity; set_solver | reflexivity ].

Ltac nd := repeat keeps_step oracle (@no_dispatch_refl W) (@no_dispatch_trans W) nd_side.

Lemma hand_emit h record :
  keeps (hands_over (only h) record) (@emit W (EvDispatch h record)).
Proof.
  intros s. split; simpl; [reflexivity|].
  right. exists h. split; [destruct h; reflexivity | reflexivity].
Qed.

Lemma nd_clear_closed_symbol coin : keeps no_dispatch (@clear_closed_symbol W coin).
Proof. unfold clear_closed_symbol. nd. Qed.

Lemma nd_mark_synced_fill id : keeps no_dispatch (@mark_synced_fill W id).
Proof. unfold mark_synced_fill. nd. Qed.

Lemma nd_twap_order_of oid : keeps no_dispatch (twap_order_of oracle oid).
Proof. unfold twap_order_of. nd. Qed.

Lemma hand_run_reverse_signal record signal :
  keeps (hands_over (only HReverse) record) (run_reverse_signal oracle cfg record signal).
Proof.
  unfold run_reverse_signal.
  apply keeps_hand_then; [apply hand_emit | intros _].
  pose proof nd_clear_closed_symbol. pose proof nd_mark_synced_fill. nd.
Qed.

Lemma hand_call_open_position record symbol side is_twap oid :
  keeps (hands_over (only HOpen) record)
    (call_open_position oracle cfg record symbol side is_twap oid).
Proof.
  unfold call_open_position.
  apply keeps_then_hand; [apply nd_twap_order_of | intros order].
  apply keeps_hand_then; [apply hand_emit | intros _].
  apply nd_handle_open_position.
Qed.


Lemma hand_any allowed record {A} (m : M W A) :
  keeps (hands_over allowed record) m -> keeps (hands_over any_handler record) m.
Proof. apply keeps_weaken. intros a b. apply hands_over_allow. reflexivity. Qed.

Lemma hand_ret allowed record {A} (a : A) : keeps (hands_over allowed record) (@ret W A a).
Proof. apply keeps_quiet_hand, keeps_ret, no_dispatch_refl. Qed.

(** The reverse-flip branch hands the fill to the reverse handler or to the
    open handler, never to a close. *)
Lemma hand_flip_branch record symbol new_side is_twap oid :
  keeps (hands_over flip_handlers record)
    (reverse_signal <-
       ext oracle (DetectReverseSignal symbol (r_direction record) new_side
                     (r_size record) (r_price record)) ;;
     match reverse_signal with
     | Some signal => run_reverse_signal oracle cfg record signal ;; ret true
     | None =>
         success <- call_open_position oracle cfg record symbol new_side is_twap oid ;;
         when success (clear_closed_symbol (r_coin record)) ;;
         mark_synced_fill (r_id record) ;;
         ret true
     end).
Proof.
  pose proof nd_clear_closed_symbol. pose proof nd_mark_synced_fill.
  apply keeps_then_hand; [nd | intros [signal|]].
  - apply keeps_hand_then; [|intros; nd].
    eapply keeps_weaken; [|apply hand_run_reverse_signal].
    intros a b. apply hands_over_allow. intros h Hh. unfold flip_handlers. now rewrite Hh.
  - apply keeps_hand_then; [|intros; nd].
    eapply keeps_weaken; [|apply hand_call_open_position].
    intros a b. apply hands_over_allow. intros h Hh. unfold flip_handlers.
    rewrite Hh. apply orb_true_r.
Qed.

Lemma hand_sync_fill_open record symbol is_twap oid :
  keeps (hands_over any_handler record) (sync_fill_open oracle cfg record symbol is_twap oid).
Proof.
  pose proof nd_clear_closed_symbol.
  unfold sync_fill_open.
  apply keeps_then_hand; [nd | intros [signal|]].
  - apply keeps_hand_then; [|intros; nd].
    eapply hand_any, hand_run_reverse_signal.
  - apply keeps_hand_then; [|intros; nd].
    eapply hand_any, hand_call_open_position.
Qed.

Lemma hand_sync_fill_close_or_open record symbol is_twap oid :
  keeps (hands_over any_handler record)
    (sync_fill_close_or_open oracle cfg record symbol is_twap oid).
Proof.
  unfold sync_fill_close_or_open.
  destruct (is_complete_close _ _).
  { apply keeps_hand_then; [eapply hand_any, hand_emit | intros _].
    apply (keeps_bind _ (@no_dispatch_trans W)); [apply nd_handle_force_close_all|].
    intros; nd. }
  destruct (Py.Qneq_bool _ _).
  { apply keeps_hand_then; [eapply hand_any, hand_emit | intros _].
    apply (keeps_bind _ (@no_dispatch_trans W)); [apply nd_handle_close_position|].
    intros; nd. }
  destruct (_ || _).
  { apply keeps_hand_then; [eapply hand_any, hand_emit | intros _].
    apply (keeps_bind _ (@no_dispatch_trans W)); [apply nd_handle_reduce_position|].
    intros; nd. }
  destruct (Py.contains _ _).
  - apply hand_sync_fill_open.
  - apply hand_ret.
Qed.

Lemma hand_sync_fill_dispatch record symbol is_twap oid :
  keeps (hands_over any_handler record)
    (sync_fill_dispatch oracle cfg record symbol is_twap oid).
Proof.
  unfold sync_fill_dispatch.
  destruct (Py.contains ">" _); [|apply hand_sync_fill_close_or_open].
  destruct (reverse_new_side _) as [new_side|]; [|apply hand_sync_fill_close_or_open].
  eapply hand_any, hand_flip_branch.
Qed.

Lemma nd_sync_fill_finish record : keeps no_dispatch (sync_fill_finish oracle cfg record).
Proof. unfold sync_fill_finish. nd. Qed.

Lemma hand_sync_fill_checked record :
  keeps (hands_over any_handler record) (sync_fill_checked oracle cfg record).
Proof.
  pose proof nd_sync_fill_finish.
  unfold sync_fill_checked.
  apply keeps_then_hand; [apply nd_check_symbol_support | intros supported].
  destruct (negb supported); [apply hand_ret|].
  apply keeps_then_hand; [apply nd_validate_order_freshness | intros fresh].
  destruct (negb fresh.1); [apply hand_ret|].
  apply keeps_then_hand; [nd | intros is_twap].
  apply keeps_then_hand; [nd | intros _].
  apply keeps_hand_then; [apply hand_sync_fill_dispatch | intros returned; nd].
Qed.

Lemma nd_skip_duplicate record : keeps no_dispatch (skip_duplicate oracle cfg record).
Proof. unfold skip_duplicate. nd. Qed.

Lemma hand_sync_fill_try record :
  keeps (hands_over any_handler record) (sync_fill_try oracle cfg record).
Proof.
  unfold sync_fill_try.
  destruct (dedupe_hash _); [|apply hand_sync_fill_checked].
  apply keeps_then_hand; [nd | intros seen].
  destruct seen; [apply keeps_quiet_hand, nd_skip_duplicate|].
  apply keeps_then_hand; [nd | intros _]. apply hand_sync_fill_checked.
Qed.

Lemma hand_sync_fill_record record :
  keeps (hands_over any_handler record) (sync_fill_record oracle cfg record).
Proof.
  unfold sync_fill_record.
  apply keeps_then_hand; [nd | intros synced].
  destruct synced; [apply hand_ret|].
  intros s. unfold try_except.
  pose proof (hand_sync_fill_try record s) as Ht.
  destruct (sync_fill_try oracle cfg record s) as [[[]|] s1]; simpl in *; [exact Ht|].
  eapply hands_over_then_quiet; [exact Ht|].
  assert (Hk : keeps no_dispatch
            (match r_id record with
             | Some id => when (cfg_db cfg) (ext oracle (UpdateFillStatus id StFailed))
             | None => ret tt
             end : M W unit)) by nd.
  apply Hk.
Qed.

End HandOver.

(** ** The two full-close tests *)

Lemma Qlt_bool_iff (a b : Q) : Py.Qlt_bool a b = true <-> a < b.
Proof.
  unfold Py.Qlt_bool. rewrite negb_true_iff.
  split.
  - intros H. apply Qnot_le_lt. intros Hle. apply Qle_bool_iff in Hle. congruence.
  - intros H. destruct (Qle_bool b a) eqn:E; [|reflexivity].
    apply Qle_bool_iff in E. exfalso. apply (Qlt_not_le _ _ H E).
Qed.

Lemma Qlt_bool_false_iff (a b : Q) : Py.Qlt_bool a b = false <-> b <= a.
Proof.
  unfold Py.Qlt_bool. rewrite negb_false_iff. apply Qle_bool_iff.
Qed.

Lemma Qneq_bool_iff (a b : Q) : Py.Qneq_bool a b = true <-> ~ a == b.
Proof.
  unfold Py.Qneq_bool. rewrite negb_true_iff. split.
  - intros H Heq. apply Qeq_bool_iff in Heq. congruence.
  - intros H. destruct (Qeq_bool a b) eqn:E; [|reflexivity].
    apply Qeq_bool_iff in E. contradiction.
Qed.

Lemma is_complete_close_iff (size start_position : Q) :
  is_complete_close size start_position = true
  <-> ~ Py.float start_position == 0
      /\ Py.float 0.995 <= Qabs (Py.fdiv size (Qabs start_position)).
Proof.
  unfold is_complete_close.
  destruct (Py.Qneq_bool (Py.float start_position) 0) eqn:E.
  - apply Qneq_bool_iff in E. rewrite Qle_bool_iff. tauto.
  - split; [discriminate|]. intros [H _]. apply Qneq_bool_iff in H. congruence.
Qed.

Lemma is_full_close_hl_iff (size start_position : Q) :
  is_full_close_hl size start_position = true
  <-> ~ Py.float start_position == 0
      /\ Py.float 0.99 <= Qabs (Py.fdiv size start_position).
Proof.
  unfold is_full_close_hl.
  destruct (Py.Qneq_bool (Py.float start_position) 0) eqn:E.
  - apply Qneq_bool_iff in E. rewrite Qle_bool_iff. tauto.
  - split; [discriminate|]. intros [H _]. apply Qneq_bool_iff in H. congruence.
Qed.

(** ** The forced-liquidation memo *)

(** C8: a memo stored for (symbol, side) is returned as long as less than
    300 seconds have passed since its time; from 300 seconds on the lookup
    returns nothing and deletes the entry. *)
Theorem C8_forced_memo_ttl {W : Type} (oracle : forall A : Type, Call A -> W -> Res A * W)
    (symbol side : string) (memo : Memo) (now : Q) (w' : W) (s : Sys W) :
  forced_liquidations (eng s) !! pos_key_of symbol side = Some memo ->
  oracle Q Now (world s) = (Ret now, w') ->
  (now - m_time memo < 300 ->
   get_forced_liquidation oracle symbol side s
   = (Ret (Some memo), after_call Now w' s))
  /\ (300 <= now - m_time memo ->
      get_forced_liquidation oracle symbol side s
      = (Ret None,
         with_engine (set_forced_liquidations (delete (pos_key_of symbol side)))
           (after_call Now w' s))).
Proof.
  intros Hmemo Hnow.
  unfold get_forced_liquidation, bind, gets, ext. simpl.
  rewrite Hmemo, Hnow.
  split; intros Hage.
  - apply Qlt_bool_iff in Hage. rewrite Hage. reflexivity.
  - apply Qlt_bool_false_iff in Hage. rewrite Hage. reflexivity.
Qed.

Lemma C8_forced_memo_ttl_witness :
  fst (get_forced_liquidation Demo.venue "SOLUSDT" "Buy" (Demo.memo_state 1299))
  = Ret (Some Demo.memo0)
  /\ fst (get_forced_liquidation Demo.venue "SOLUSDT" "Buy" (Demo.memo_state 1301))
     = Ret None.
Proof.
  split.
  - rewrite (proj1 (C8_forced_memo_ttl Demo.venue "SOLUSDT" "Buy" Demo.memo0 1299
                      (Demo.at_time 1299) (Demo.memo_state 1299) eq_refl eq_refl)).
    + reflexivity.
    + vm_compute. reflexivity.
  - rewrite (proj2 (C8_forced_memo_ttl Demo.venue "SOLUSDT" "Buy" Demo.memo0 1301
                      (Demo.at_time 1301) (Demo.memo_state 1301) eq_refl eq_refl)).
    + reflexivity.
    + vm_compute. discriminate.
Defined.

(** ** De-duplication by [tx_hash] *)

Section Dedupe.
Context {W : Type}.
Variable oracle : forall A : Type, Call A -> W -> Res A * W.
Variable cfg : Config.

Lemma sync_fill_record_mono record (s : Sys W) :
  synced_tx_hashes (eng s)
  ⊆ synced_tx_hashes (eng (snd (sync_fill_record oracle cfg record s))).
Proof. apply (hand_sync_fill_record oracle cfg record s). Qed.

Lemma failed_handler_quiet (record : FillRecord) :
  keeps no_dispatch
    (match r_id record with
     | Some id => when (cfg_db cfg) (ext oracle (UpdateFillStatus id StFailed))
     | None => ret tt
     end : M W unit).
Proof.
  repeat keeps_step oracle (@no_dispatch_refl W) (@no_dispatch_trans W)
    ltac:(intros; split; simpl; reflexivity).
Qed.

Lemma sync_fill_try_first record h (s : Sys W) :
  dedupe_hash (Some h) = true -> r_tx_hash record = Some h ->
  h ∉ synced_tx_hashes (eng s) ->
  sync_fill_try oracle cfg record s
  = sync_fill_checked oracle cfg record (with_engine (add_synced_tx_hash h) s).
Proof.
  intros Hd Hh Hnew. unfold sync_fill_try. rewrite Hh, Hd. simpl.
  unfold bind, gets. simpl. rewrite bool_decide_eq_false_2 by exact Hnew.
  reflexivity.
Qed.

Lemma sync_fill_try_records record h (s : Sys W) :
  dedupe_hash (Some h) = true -> r_tx_hash record = Some h ->
  h ∈ synced_tx_hashes (eng (snd (sync_fill_try oracle cfg record s))).
Proof.
  intros Hd Hh.
  destruct (decide (h ∈ synced_tx_hashes (eng s))) as [Hin|Hnew].
  - apply (proj1 (hand_sync_fill_try oracle cfg record s)). exact Hin.
  - rewrite (sync_fill_try_first record h s Hd Hh Hnew).
    apply (proj1 (hand_sync_fill_checked oracle cfg record _)).
    simpl. set_solver.
Qed.

Lemma tx_hash_recorded record h (s : Sys W) :
  dedupe_hash (Some h) = true -> r_tx_hash record = Some h ->
  fill_already_synced record (eng s) = false ->
  h ∈ synced_tx_hashes (eng (snd (sync_fill_record oracle cfg record s))).
Proof.
  intros Hd Hh Hnew. unfold sync_fill_record, bind, gets. simpl. rewrite Hnew.
  unfold try_except.
  pose proof (sync_fill_try_records record h s Hd Hh) as Hin.
  destruct (sync_fill_try oracle cfg record s) as [[[]|] s1]; simpl in *; [exact Hin|].
  apply (proj1 (failed_handler_quiet record s1)). exact Hin.
Qed.

Lemma duplicate_skipped record h id (s : Sys W) :
  cfg_db cfg = true ->
  dedupe_hash (Some h) = true -> r_tx_hash record = Some h ->
  r_id record = Some id -> id ∉ synced_fills (eng s) ->
  h ∈ synced_tx_hashes (eng s) ->
  let out := sync_fill_record oracle cfg record s in
  eng (snd out) = add_synced_fill id (eng s)
  /\ (trace (snd out) = EvCall (UpdateFillStatus id StDuplicate) :: trace s
      \/ trace (snd out)
         = EvCall (UpdateFillStatus id StFailed)
             :: EvCall (UpdateFillStatus id StDuplicate) :: trace s).
Proof.
  intros Hdb Hd Hh Hid Hfresh Hseen. simpl.
  unfold sync_fill_record, bind, gets, fill_already_synced. simpl. rewrite Hid.
  rewrite bool_decide_eq_false_2 by exact Hfresh.
  unfold try_except, sync_fill_try. rewrite Hh, Hd. simpl.
  unfold bind, gets. simpl. rewrite bool_decide_eq_true_2 by exact Hseen.
  unfold skip_duplicate. rewrite Hid, Hdb. unfold bind, modify, when, ext. simpl.
  destruct (oracle unit (UpdateFillStatus id StDuplicate) (world s)) as [[[]|] w1]; simpl.
  - auto.
  - destruct (oracle unit (UpdateFillStatus id StFailed) w1) as [r w2]; simpl. auto.
Qed.

Lemma duplicate_not_dispatched record h (s : Sys W) :
  dedupe_hash (Some h) = true -> r_tx_hash record = Some h ->
  h ∈ synced_tx_hashes (eng s) ->
  no_dispatch s (snd (sync_fill_record oracle cfg record s)).
Proof.
  intros Hd Hh Hseen. unfold sync_fill_record, bind, gets. simpl.
  destruct (fill_already_synced record (eng s)); [apply no_dispatch_refl|].
  unfold try_except.
  assert (Htry : sync_fill_try oracle cfg record s = skip_duplicate oracle cfg record s).
  { unfold sync_fill_try. rewrite Hh, Hd. simpl. unfold bind, gets. simpl.
    rewrite bool_decide_eq_true_2 by exact Hseen. reflexivity. }
  rewrite Htry.
  pose proof (nd_skip_duplicate oracle cfg record s) as Hs.
  destruct (skip_duplicate oracle cfg record s) as [[[]|] s1]; simpl in *; [exact Hs|].
  eapply no_dispatch_trans; [exact Hs | apply failed_handler_quiet].
Qed.

Lemma carries_hash h record : carries h record = true -> r_tx_hash record = Some h.
Proof.
  unfold carries. destruct (r_tx_hash record) as [x|]; [|discriminate].
  intros H. apply String.eqb_eq in H. congruence.
Qed.

Lemma sync_fill_record_known record (s : Sys W) :
  fill_already_synced record (eng s) = true ->
  sync_fill_record oracle cfg record s = (Ret tt, s).
Proof.
  intros H. unfold sync_fill_record, bind, gets. simpl. rewrite H. reflexivity.
Qed.

Lemma handed_once_step h record (s : Sys W) :
  dedupe_hash (Some h) = true ->
  handed_once h s -> handed_once h (snd (sync_fill_record oracle cfg record s)).
Proof.
  intros Hd [Hle Hin].
  destruct (hand_sync_fill_record oracle cfg record s) as [Hmono [Hsame|(h0 & _ & Hadd)]].
  - unfold handed_once, dispatched_with. rewrite Hsame. split; [exact Hle|].
    intros H1. apply Hmono, Hin, H1.
  - unfold handed_once, dispatched_with in *. rewrite Hadd. simpl.
    destruct (carries h record) eqn:Hc; simpl.
    + apply carries_hash in Hc.
      assert (Hnew : h ∉ synced_tx_hashes (eng s)).
      { intros Hseen.
        destruct (duplicate_not_dispatched record h s Hd Hc Hseen) as [_ Heq].
        rewrite Hadd in Heq. apply (f_equal (@List.length _)) in Heq. simpl in Heq. lia. }
      assert (Hzero : List.length
                        (List.filter (fun d => carries h (snd d)) (dispatches (trace s)))
                      = 0%nat).
      { destruct (Nat.eq_dec
                    (List.length
                       (List.filter (fun d => carries h (snd d)) (dispatches (trace s)))) 1%nat)
          as [H1|H1]; [exfalso; apply Hnew, Hin, H1 | lia]. }
      rewrite Hzero. split; [lia|]. intros _.
      destruct (fill_already_synced record (eng s)) eqn:Hknown.
      * rewrite (sync_fill_record_known record s Hknown) in Hadd. simpl in Hadd.
        apply (f_equal (@List.length _)) in Hadd. simpl in Hadd. lia.
      * apply tx_hash_recorded; assumption.
    + split; [exact Hle|]. intros H1. apply Hmono, Hin, H1.
Qed.

Lemma handed_once_run h records :
  dedupe_hash (Some h) = true ->
  forall s : Sys W,
    handed_once h s -> handed_once h (snd (sync_fill_records oracle cfg records s)).
Proof.
  intros Hd. induction records as [|record rest IH]; intros s Hs; [exact Hs|].
  simpl. unfold bind, attempt.
  pose proof (handed_once_step h record s Hd Hs) as Hstep.
  destruct (sync_fill_record oracle cfg record s) as [[[]|] s1]; simpl in *;
    apply IH, Hstep.
Qed.

End Dedupe.



(** ** The open handler places at most one order per id *)

Section OpenOnce.

Context {W : Type}.
Variable oracle : forall A : Type, Call A -> W -> Res A * W.
Variable cfg : Config.

Lemma no_placement_refl (s : Sys W) : no_placement s s.
Proof. split; reflexivity. Qed.

Lemma no_placement_trans (a b c : Sys W) :
  no_placement a b -> no_placement b c -> no_placement a c.
Proof.
  intros [H1 H2] [H3 H4]. split; [etransitivity; eassumption | congruence].
Qed.

Ltac np_side :=
  intros; split; simpl; [ try reflexivity; set_solver | reflexivity ].

Ltac np := repeat keeps_step oracle (@no_placement_refl) (@no_placement_trans) np_side.

Lemma np_mark_fill id st : keeps no_placement (mark_fill oracle cfg id st).
Proof. unfold mark_fill. np. Qed.

Lemma np_wait_loop n id start timeout :
  keeps no_placement (wait_loop oracle n id start timeout).
Proof. induction n as [|n IH]; simpl; np. Qed.

Hint Resolve np_mark_fill np_wait_loop : keeps_db.

Lemma np_open_prepare symbol side size price id :
  keeps no_placement (open_prepare oracle cfg symbol side size price id).
Proof. unfold open_prepare. np. Qed.

Lemma np_open_on_exception symbol side id is_new :
  keeps no_placement (open_on_exception oracle cfg symbol side id is_new).
Proof. unfold open_on_exception. np. Qed.

Lemma np_open_is_new_position symbol side :
  keeps no_placement (open_is_new_position oracle symbol side).
Proof. unfold open_is_new_position. np. Qed.

Lemma np_wait_for_order_execution id :
  keeps no_placement (_wait_for_order_execution oracle cfg id).
Proof. unfold _wait_for_order_execution. np. Qed.

Lemma np_query_real_fill symbol id qty price :
  keeps no_placement (query_real_fill oracle symbol id qty price).
Proof. unfold query_real_fill. np. Qed.

Lemma marks_then (id : Z) (a b c : Sys W) :
  marks id a b -> no_placement b c -> marks id a c.
Proof.
  intros [H1 H2] H3. split; [eapply no_placement_trans; eassumption|].
  apply (proj1 H3), H2.
Qed.

Lemma marks_mark_fill id st :
  id <> 0%Z -> keeps (marks id) (mark_fill oracle cfg (Some id) st).
Proof.
  intros Hid s. unfold mark_fill.
  destruct (Z.eqb_spec id 0) as [|_]; [contradiction|].
  unfold bind, modify, when, ext. simpl.
  destruct (cfg_db cfg); simpl.
  - destruct (oracle unit (UpdateFillStatus id st) (world s)) as [[[]|] w1]; simpl;
      (split; [split; simpl; [set_solver | reflexivity] | simpl; set_solver]).
  - split; [split; simpl; [set_solver | reflexivity] | simpl; set_solver].
Qed.

Lemma marks_open_on_exception symbol side id is_new :
  id <> 0%Z -> keeps (marks id) (open_on_exception oracle cfg symbol side (Some id) is_new).
Proof.
  intros Hid. unfold open_on_exception.
  eapply (keeps_bind_gen (marks id) no_placement (marks id));
    [apply marks_then | auto | apply marks_mark_fill, Hid | intros _; np].
Qed.


Lemma at_most_once_refl id (s : Sys W) : at_most_once id s s.
Proof. split; [reflexivity | left; reflexivity]. Qed.

Lemma at_most_once_trans id (a b c : Sys W) :
  at_most_once id a b -> at_most_once id b c -> at_most_once id a c.
Proof.
  intros [H1 H2] [H3 H4]. split; [etransitivity; eassumption|].
  destruct H2 as [H2|(H2 & Ha & Hb)], H4 as [H4|(H4 & Hb' & Hc)].
  - left. congruence.
  - right. split; [congruence|]. split; [|exact Hc].
    intros Hin. apply Hb', H1, Hin.
  - right. split; [congruence|]. split; [exact Ha|]. apply H3, Hb.
  - contradiction.
Qed.

Lemma at_most_once_quiet id (a b : Sys W) : no_placement a b -> at_most_once id a b.
Proof. intros [H1 H2]. split; auto. Qed.

(** After the order is submitted the id is recorded, unless an exception
    cuts the block short. *)
Lemma open_after_submit_spec symbol side price id is_twap oid order lev qty is_new order_id
    (s : Sys W) :
  id <> 0%Z ->
  wp (open_after_submit oracle cfg symbol side price (Some id) is_twap oid order
        lev qty is_new order_id)
     (fun r s' => no_placement s s' /\ (r = Raise \/ id ∈ synced_fills (eng s'))) s.
Proof.
  intros Hid. unfold open_after_submit.
  apply wp_bind. eapply wp_keeps; [apply np_wait_for_order_execution|].
  intros [[]|] s1 H1; [|split; auto].
  apply wp_bind. eapply wp_keeps; [apply np_query_real_fill|].
  intros [actual|] s2 H2; [|split; [eapply no_placement_trans; eassumption | auto]].
  apply wp_bind.
  destruct (Z.eqb_spec id 0) as [|_]; [contradiction|]. simpl.
  apply wp_modify.
  eapply wp_keeps.
  { np. }
  intros r s4 H4. split.
  - eapply no_placement_trans; [exact H1|].
    eapply no_placement_trans; [exact H2|].
    eapply no_placement_trans; [|exact H4].
    split; simpl; [set_solver | reflexivity].
  - right. apply (proj1 H4). simpl. set_solver.
Qed.

Lemma open_submit_spec symbol side size price id is_twap oid order lev qty is_new
    (s : Sys W) :
  id <> 0%Z ->
  wp (open_submit oracle cfg symbol side size price (Some id) is_twap oid order
        lev qty is_new)
     (fun r s' =>
        synced_fills (eng s) ⊆ synced_fills (eng s')
        /\ placements (trace s') = S (placements (trace s))
        /\ (r = Raise \/ id ∈ synced_fills (eng s'))) s.
Proof.
  intros Hid. unfold open_submit.
  apply wp_bind, wp_ext. intros [placed|] w1; [|repeat split; auto].
  cbv zeta.
  destruct (placed.1 && Py.truthy_str placed.2).
  - eapply wp_mono; [apply open_after_submit_spec, Hid|].
    intros r s2 [[H1 H2] H3]. simpl in *. repeat split; auto.
  - eapply wp_keeps.
    { eapply (keeps_bind_gen (marks id) no_placement (marks id));
        [apply marks_then | auto | apply marks_mark_fill, Hid | intros _; np]. }
    intros r s2 [[H1 H2] H3]. simpl in *. repeat split; auto.
Qed.

Lemma open_body_at_most_once symbol side size price record is_twap oid order id :
  r_id record = Some id -> id <> 0%Z ->
  keeps (at_most_once id)
    (_handle_open_position_body oracle cfg symbol side size price record is_twap oid order).
Proof.
  intros Hrid Hid s. change (wp (_handle_open_position_body oracle cfg symbol side size price
                                   record is_twap oid order)
                               (fun _ s' => at_most_once id s s') s).
  unfold _handle_open_position_body. rewrite Hrid.
  apply wp_bind, wp_gets.
  destruct (Z.eqb_spec id 0) as [|_]; [contradiction|]. simpl.
  destruct (bool_decide (id ∈ synced_fills (eng s))) eqn:Hseen.
  { apply wp_ret, at_most_once_refl. }
  apply bool_decide_eq_false_1 in Hseen.
  apply wp_bind, wp_attempt.
  eapply wp_keeps; [apply np_open_prepare|].
  intros [[result|[lev qty]]|] s1 H1.
  - apply wp_ret, at_most_once_quiet, H1.
  - apply wp_bind. eapply wp_keeps; [apply np_open_is_new_position|].
    intros [is_new|] s2 H2;
      [|apply at_most_once_quiet; eapply no_placement_trans; eassumption].
    apply wp_bind, wp_attempt.
    eapply wp_mono; [apply open_submit_spec, Hid|].
    intros r s3 (H3 & H4 & H5).
    assert (H12 : no_placement s s2) by (eapply no_placement_trans; eassumption).
    destruct r as [result|].
    + apply wp_ret. destruct H5 as [|H5]; [discriminate|].
      split; [etransitivity; [apply H12 | exact H3]|].
      right. split; [rewrite H4, (proj2 H12); reflexivity|]. auto.
    + eapply wp_keeps; [apply marks_open_on_exception, Hid|].
      intros r s4 [[H6 H7] H8].
      split; [etransitivity; [apply H12 | etransitivity; eassumption]|].
      right. split; [rewrite H7, H4, (proj2 H12); reflexivity|]. auto.
  - eapply wp_keeps; [apply marks_open_on_exception, Hid|].
    intros r s2 [H2 _]. apply at_most_once_quiet.
    eapply no_placement_trans; eassumption.
Qed.

Lemma open_at_most_once symbol side size price record is_twap oid order id :
  r_id record = Some id -> id <> 0%Z ->
  keeps (at_most_once id)
    (_handle_open_position oracle cfg symbol side size price record is_twap oid order).
Proof.
  intros Hrid Hid. unfold _handle_open_position, critical_retry.
  apply (keeps_with_retry oracle _ (at_most_once_trans id)).
  - apply open_body_at_most_once; assumption.
  - intros. apply at_most_once_quiet. split; reflexivity.
Qed.

Lemma call_times_at_most_once {A} id (call : M W A) n :
  keeps (at_most_once id) call -> keeps (at_most_once id) (call_times n call).
Proof.
  intros Hc. induction n as [|n IH]; simpl.
  - apply keeps_ret, at_most_once_refl.
  - apply (keeps_bind _ (at_most_once_trans id)); [apply keeps_attempt, Hc | auto].
Qed.

End OpenOnce.



(** ** The leverage of the open handler *)

Section OpenLeverage.

Context {W : Type}.
Variable oracle : forall A : Type, Call A -> W -> Res A * W.
Variable cfg : Config.

Lemma extends_refl (s : Sys W) : extends s s.
Proof. exists []. reflexivity. Qed.

Lemma extends_trans (a b c : Sys W) : extends a b -> extends b c -> extends a c.
Proof.
  intros [n1 H1] [n2 H2]. exists (n2 ++ n1). rewrite H2, H1. apply app_assoc.
Qed.

Ltac ex_side :=
  intros; first [ exists []; reflexivity | eexists [_]; reflexivity ].

Ltac ex := repeat keeps_step oracle (@extends_refl) (@extends_trans) ex_side.

Lemma ex_mark_fill id st : keeps extends (mark_fill oracle cfg id st).
Proof. unfold mark_fill. ex. Qed.

Lemma ex_wait_loop n id start timeout :
  keeps extends (wait_loop oracle n id start timeout).
Proof. induction n as [|n IH]; simpl; ex. Qed.

Hint Resolve ex_mark_fill ex_wait_loop : keeps_db.

Lemma ex_open_on_exception symbol side id is_new :
  keeps extends (open_on_exception oracle cfg symbol side id is_new).
Proof. unfold open_on_exception. ex. Qed.

Lemma ex_open_after_submit symbol side price id is_twap oid order lev qty is_new order_id :
  keeps extends
    (open_after_submit oracle cfg symbol side price id is_twap oid order
       lev qty is_new order_id).
Proof.
  unfold open_after_submit, _wait_for_order_execution, query_real_fill. ex.
Qed.

Lemma open_body_leverage_first symbol side size price record is_twap oid order (s : Sys W) :
  wp (_handle_open_position_body oracle cfg symbol side size price record is_twap oid order)
     (fun _ s' =>
        placements (trace s') <> placements (trace s) ->
        submitted_shape symbol side size price s s') s.
Proof.
  assert (Hquiet : forall {A} (m : M W A) (s1 : Sys W),
             placements (trace s1) = placements (trace s) ->
             keeps no_placement m ->
             wp m (fun _ s' =>
                     placements (trace s') <> placements (trace s) ->
                     submitted_shape symbol side size price s s') s1).
  { intros A m s1 H1 Hm. eapply wp_keeps; [exact Hm|].
    intros r s' [_ H2] Hne. exfalso. apply Hne. congruence. }
  unfold _handle_open_position_body.
  apply wp_bind, wp_gets.
  destruct (match r_id record with Some id => _ | None => false end).
  { apply wp_ret. intros H. contradiction. }
  apply wp_bind, wp_attempt. unfold open_prepare.
  apply wp_bind, wp_ext. intros [copy_size|] w1; cbv beta iota.
  2:{ apply Hquiet; [reflexivity | apply np_open_on_exception]. }
  destruct (Qle_bool copy_size 0).
  { apply wp_bind. eapply wp_keeps.
    { repeat keeps_step oracle (@no_placement_refl W) (@no_placement_trans W)
        ltac:(intros; split; simpl; [try reflexivity; set_solver | reflexivity]). }
    intros [[]|] s2 [_ H2]; cbv beta iota.
    2:{ apply Hquiet; [rewrite H2; reflexivity | apply np_open_on_exception]. }
    apply wp_bind. eapply wp_keeps; [apply np_mark_fill|].
    intros [[]|] s3 [_ H3]; cbv beta iota.
    2:{ apply Hquiet; [rewrite H3, H2; reflexivity | apply np_open_on_exception]. }
    apply wp_ret. cbv beta iota. apply wp_ret.
    intros Hne. exfalso. apply Hne. rewrite H3, H2. reflexivity. }
  apply wp_bind, wp_ext. intros [lev|] w2; cbv beta iota.
  2:{ apply Hquiet; [reflexivity | apply np_open_on_exception]. }
  apply wp_bind, wp_ext. intros [qty|] w3; cbv beta iota.
  2:{ apply Hquiet; [reflexivity | apply np_open_on_exception]. }
  destruct (Py.Qlt_bool qty (min_position_size cfg)).
  { apply wp_bind. eapply wp_keeps; [apply np_mark_fill|].
    intros [[]|] s3 [_ H3]; cbv beta iota.
    2:{ apply Hquiet; [rewrite H3; reflexivity | apply np_open_on_exception]. }
    apply wp_ret. cbv beta iota. apply wp_ret.
    intros Hne. exfalso. apply Hne. rewrite H3. reflexivity. }
  apply wp_ret. cbv beta iota.
  apply wp_bind. unfold open_is_new_position.
  apply wp_try_except, wp_bind, wp_ext.
  assert (Hsubmit : forall w4 is_new,
             wp (submitted <- attempt
                   (open_submit oracle cfg symbol side size price (r_id record)
                      is_twap oid order lev qty is_new) ;;
                 match submitted with
                 | Some result => ret result
                 | None => open_on_exception oracle cfg symbol side (r_id record)
                             (Some is_new)
                 end)
                (fun _ s' =>
                   placements (trace s') <> placements (trace s) ->
                   submitted_shape symbol side size price s s')
                (after_call (QueryPositions None) w4
                   (after_call (ClampOrderQuantity symbol price copy_size) w3
                      (after_call (SetMaxLeverage symbol true) w2
                         (after_call (CalculateCopySize size price symbol) w1 s))))).
  { intros w4 is_new.
    apply wp_bind, wp_attempt. unfold open_submit.
    apply wp_bind, wp_ext. intros [placed|] w5; cbv beta iota zeta.
    - destruct (placed.1 && Py.truthy_str placed.2).
      + eapply wp_keeps; [apply ex_open_after_submit|].
        intros [x|] s6 [newer H6]; cbv beta iota.
        * apply wp_ret. intros _. exists newer, qty, copy_size. exact H6.
        * eapply wp_keeps; [apply ex_open_on_exception|].
          intros r s7 [newer' H7] _. exists (newer' ++ newer), qty, copy_size.
          rewrite H7, H6. rewrite <- app_assoc. reflexivity.
      + eapply wp_keeps.
        { pose proof ex_mark_fill.
          repeat keeps_step oracle (@extends_refl) (@extends_trans)
            ltac:(intros; first [ exists []; reflexivity | eexists [_]; reflexivity ]). }
        intros [x|] s6 [newer H6]; cbv beta iota.
        * apply wp_ret. intros _. exists newer, qty, copy_size. exact H6.
        * eapply wp_keeps; [apply ex_open_on_exception|].
          intros r s7 [newer' H7] _. exists (newer' ++ newer), qty, copy_size.
          rewrite H7, H6. rewrite <- app_assoc. reflexivity.
    - eapply wp_keeps; [apply ex_open_on_exception|].
      intros r s7 [newer' H7] _. exists newer', qty, copy_size. exact H7. }
  intros [positions|] w4; cbv beta iota.
  - apply wp_ret. cbv beta iota. apply Hsubmit.
  - apply wp_ret. cbv beta iota. apply Hsubmit.
Qed.

End OpenLeverage.

(** ** Runs against known answers *)

Section Answers.

Context {W : Type}.
Variable oracle : forall A : Type, Call A -> W -> Res A * W.

Lemma wp_ext_eq {A} (c : Call A) (Q : Res A -> Sys W -> Prop) (s : Sys W) r w' :
  oracle A c (world s) = (r, w') -> Q r (after_call c w' s) -> wp (ext oracle c) Q s.
Proof. intros H HQ. unfold wp, ext. rewrite H. exact HQ. Qed.

Lemma only_talks_refl (s : Sys W) : only_talks s s.
Proof. split; [reflexivity | apply extends_refl]. Qed.

Lemma only_talks_trans (a b c : Sys W) :
  only_talks a b -> only_talks b c -> only_talks a c.
Proof.
  intros [H1 H2] [H3 H4]. split; [congruence | eapply extends_trans; eassumption].
Qed.

End Answers.

Ltac ot oracle :=
  let Hrefl := uconstr:(@only_talks_refl _) in
  let Htrans := uconstr:(@only_talks_trans _) in
  repeat keeps_step oracle Hrefl Htrans
    ltac:(intros; split; [reflexivity | eexists [_]; reflexivity]).

(** ** Partial closes and the minimum lot *)

Section PartialClose.

Context {W : Type}.
Variable oracle : forall A : Type, Call A -> W -> Res A * W.
Variable cfg : Config.

Lemma partial_close_size_plain (size pos_size min_qty : Q) :
  ~ (0 < min_qty /\ Qmin size pos_size < min_qty) ->
  partial_close_size size pos_size min_qty = (Qmin size pos_size, false).
Proof.
  intros H. unfold partial_close_size.
  destruct (Py.Qlt_bool 0 min_qty) eqn:E1; [|reflexivity].
  destruct (Py.Qlt_bool (Qmin size pos_size) min_qty) eqn:E2; [|reflexivity].
  exfalso. apply H. split; apply Qlt_bool_iff; assumption.
Qed.

Lemma partial_close_size_bumped (size pos_size min_qty : Q) :
  0 < min_qty -> Qmin size pos_size < min_qty ->
  fst (partial_close_size size pos_size min_qty) = Qmin min_qty pos_size
  /\ (snd (partial_close_size size pos_size min_qty) = true <-> pos_size <= min_qty).
Proof.
  intros H1 H2. unfold partial_close_size.
  apply Qlt_bool_iff in H1, H2. rewrite H1, H2. simpl.
  split; [reflexivity|]. rewrite Qle_bool_iff. split.
  - intros H. apply Q.min_glb_iff in H. tauto.
  - intros H. apply Q.min_glb; [exact H | apply Qle_refl].
Qed.

Lemma close_one_partial coin size count position (s : Sys W)
    min_qty w1 closed pnl ec w2 rx w3 now w4 :
  oracle _ (PairMinQty coin) (world s) = (Ret (Some min_qty), w1) ->
  oracle _ (ClosePosition position
              (CloseQty (fst (partial_close_size size (p_size position) min_qty)))) w1
  = (Ret (Close4 true closed pnl ec), w2) ->
  0 < closed ->
  oracle _ (GetExecutions (p_symbol position) 10) w2 = (rx, w3) ->
  oracle _ Now w3 = (Ret now, w4) ->
  wp (close_one oracle cfg coin size false count position)
     (fun r s' =>
        r = Ret (S count)
        /\ (exists newer,
               trace s'
               = newer ++ EvCall (ClosePosition position
                                    (CloseQty (fst (partial_close_size size
                                                      (p_size position) min_qty))))
                   :: EvCall (PairMinQty coin) :: trace s)
        /\ (snd (partial_close_size size (p_size position) min_qty) = false ->
            eng s' = eng s)
        /\ (snd (partial_close_size size (p_size position) min_qty) = true ->
            forced_liquidations (eng s') !! pos_key_of (p_symbol position) (p_side position)
            = Some {| m_time := now; m_type := Forced;
                      m_fields := [("original_close_size"%string, size);
                                   ("min_qty"%string, min_qty);
                                   ("actual_size"%string, closed)] |})) s.
Proof.
  intros Hmin Hclose Hpos Hexec Hnow.
  unfold close_one, close_request. apply wp_bind, wp_attempt. simpl.
  apply wp_bind. unfold _get_min_order_qty.
  apply wp_try_except, wp_bind. eapply wp_ext_eq; [exact Hmin|]. cbv beta iota.
  apply wp_ret. cbv beta iota.
  apply wp_bind. eapply wp_ext_eq; [exact Hclose|]. cbv beta iota.
  apply wp_bind. apply wp_ret. cbv beta iota. apply wp_ret. cbv beta iota.
  apply Qlt_bool_iff in Hpos. rewrite Hpos. simpl.
  apply wp_bind, wp_attempt.
  set (forced := snd (partial_close_size size (p_size position) min_qty)).
  set (q := fst (partial_close_size size (p_size position) min_qty)).
  set (s2 := after_call (ClosePosition position (CloseQty q)) w2
               (after_call (PairMinQty coin) w1 s)).
  unfold close_on_success.
  apply wp_bind, wp_try_except.
  apply wp_bind. eapply wp_ext_eq; [exact Hexec|].
  set (s3 := after_call (GetExecutions (p_symbol position) 10) w3 s2).
  assert (Hgo : forall (Q : Res unit -> Sys W -> Prop),
    (forall r s',
        extends s3 s'
        /\ (forced = false -> eng s' = eng s)
        /\ (forced = true ->
            forced_liquidations (eng s')
              !! pos_key_of (p_symbol position) (p_side position)
            = Some {| m_time := now; m_type := Forced;
                      m_fields := [("original_close_size"%string, size);
                                   ("min_qty"%string, min_qty);
                                   ("actual_size"%string, closed)] |}) ->
        Q r s') ->
    wp (when forced
          (now <- ext oracle Now ;;
           modify (set_forced_liquidations
                     (insert (pos_key_of (p_symbol position) (p_side position))
                        {| m_time := now; m_type := Forced;
                           m_fields := [("original_close_size"%string, size);
                                        ("min_qty"%string, min_qty);
                                        ("actual_size"%string, closed)] |}))) ;;
        when (cfg_feishu_notifier cfg)
          (ext oracle
             (SendNotification
                (if forced then NoticeReduceAsFullClose
                 else if false then NoticeFullCloseOk else NoticeReduceOk)
                NtSuccess (p_symbol position) (p_side position))) ;;
        when (false || forced)
          (when (negb forced)
             (now <- ext oracle Now ;;
              modify (set_forced_liquidations
                        (insert (pos_key_of (p_symbol position) (p_side position))
                           {| m_time := now; m_type := Follow;
                              m_fields := [("size"%string, closed)] |}))) ;;
           when (cfg_position_closed_callback cfg)
             (try_except
                (ext oracle (PositionClosedCallback (p_symbol position) (p_side position)))
                (ret tt))))
       Q s3).
  { intros Q HQ. destruct forced.
    - simpl. apply wp_bind, wp_bind.
      eapply wp_ext_eq; [exact Hnow|]. cbv beta iota.
      apply wp_modify. cbv beta iota.
      eapply (wp_keeps only_talks); [ot oracle|].
      intros r s' [He Hx]. apply HQ. split; [|split; [discriminate|]].
      + eapply extends_trans; [|exact Hx]. eexists [_]. reflexivity.
      + intros _. rewrite He. simpl. apply lookup_insert_eq.
    - simpl. eapply (wp_keeps only_talks); [ot oracle|].
      intros r s' [He Hx]. apply HQ. split; [exact Hx | split; [|discriminate]].
      intros _. rewrite He. reflexivity. }
  assert (Hfinal : forall (r : Res unit) s',
             extends s3 s'
             /\ (forced = false -> eng s' = eng s)
             /\ (forced = true ->
                 forced_liquidations (eng s')
                   !! pos_key_of (p_symbol position) (p_side position)
                 = Some {| m_time := now; m_type := Forced;
                           m_fields := [("original_close_size"%string, size);
                                        ("min_qty"%string, min_qty);
                                        ("actual_size"%string, closed)] |}) ->
             wp (ret (S count) : M W nat)
                (fun r0 s0 =>
                   r0 = Ret (S count)
                   /\ (exists newer,
                          trace s0
                          = newer ++ EvCall (ClosePosition position (CloseQty q))
                              :: EvCall (PairMinQty coin) :: trace s)
                   /\ (forced = false -> eng s0 = eng s)
                   /\ (forced = true ->
                       forced_liquidations (eng s0)
                         !! pos_key_of (p_symbol position) (p_side position)
                       = Some {| m_time := now; m_type := Forced;
                                 m_fields := [("original_close_size"%string, size);
                                              ("min_qty"%string, min_qty);
                                              ("actual_size"%string, closed)] |})) s').
  { intros r s' ([newer Hx] & Hf & Ht). apply wp_ret. split; [reflexivity|].
    split; [|split; [exact Hf | exact Ht]].
    exists (newer ++ [EvCall (GetExecutions (p_symbol position) 10)]).
    rewrite Hx. rewrite <- app_assoc. reflexivity. }
  destruct rx as [executions|]; cbv beta iota.
  - apply wp_ret. cbv beta iota.
    apply Hgo. intros r s' H. destruct r; apply (Hfinal (Ret tt)); exact H.
  - apply wp_ret. cbv beta iota.
    apply Hgo. intros r s' H. destruct r; apply (Hfinal (Ret tt)); exact H.
Qed.

End PartialClose.

(** ** Recovery from "position is zero" *)

Section PositionIsZero.

Context {W : Type}.
Variable oracle : forall A : Type, Call A -> W -> Res A * W.
Variable cfg : Config.

(** C6, amended: when a close is rejected with error code 110017 the
    handler sleeps 5 seconds and asks for the positions again without the
    cache.  If the answer is a non-empty list in which the symbol and side
    have size 0 (or no entry), the close counts as a success and nothing
    more is sent.  If the symbol and side still have a size, or if the
    answer lists no position at all, the close counts as failed and the
    failure notification goes out. *)
Theorem C6_position_is_zero_recovery coin size full count position (s s1 : Sys W)
    forced min_qty success closed pnl w2 current w3 :
  close_request oracle coin size full position s
  = (Ret (forced, min_qty, (success, closed, pnl, Some "110017"%string)), s1) ->
  success && Py.Qlt_bool 0 closed = false ->
  oracle _ (Sleep 5) (world s1) = (Ret tt, w2) ->
  oracle _ (QueryPositions (Some false)) w2 = (Ret current, w3) ->
  (current <> []
   /\ target_pos_size_of (p_symbol position) (p_side position) current == 0 ->
   close_one oracle cfg coin size full count position s
   = (Ret (S count),
      after_call (QueryPositions (Some false)) w3 (after_call (Sleep 5) w2 s1)))
  /\ (current = []
      \/ ~ target_pos_size_of (p_symbol position) (p_side position) current == 0 ->
      fst (close_one oracle cfg coin size full count position s) = Ret count
      /\ (cfg_feishu_notifier cfg = true ->
          trace (snd (close_one oracle cfg coin size full count position s))
          = EvCall (SendNotification (NoticeCloseFailed full) NtError
                      (p_symbol position) (p_side position))
              :: EvCall (QueryPositions (Some false))
              :: EvCall (Sleep 5) :: trace s1)).
Proof.
  intros Hreq Hfail Hsleep Hquery.
  assert (Hverify :
    verify_position_is_zero oracle (p_symbol position) (p_side position)
      (Some "110017"%string) s1
    = (Ret (match current with
            | [] => true
            | _ :: _ =>
                negb (Qeq_bool (target_pos_size_of (p_symbol position)
                                  (p_side position) current) 0)
            end),
       after_call (QueryPositions (Some false)) w3 (after_call (Sleep 5) w2 s1))).
  { unfold verify_position_is_zero. simpl. unfold bind, ext. rewrite Hsleep. simpl.
    rewrite Hquery. destruct current as [|p rest]; [reflexivity|].
    destruct (Qeq_bool _ 0); reflexivity. }
  assert (Hone : forall should_send,
    (match current with
     | [] => true
     | _ :: _ =>
         negb (Qeq_bool (target_pos_size_of (p_symbol position)
                           (p_side position) current) 0)
     end) = should_send ->
    close_one oracle cfg coin size full count position s
    = (x <- attempt
         (when (should_send && cfg_feishu_notifier cfg)
            (ext oracle (SendNotification (NoticeCloseFailed full) NtError
                           (p_symbol position) (p_side position)))) ;;
       ret (if should_send then count else S count))
        (after_call (QueryPositions (Some false)) w3 (after_call (Sleep 5) w2 s1))).
  { intros should_send Hs. unfold close_one.
    unfold bind at 1. unfold attempt at 1. rewrite Hreq. rewrite Hfail.
    unfold bind at 1. unfold attempt at 1. rewrite Hverify. rewrite Hs. reflexivity. }
  split.
  - intros [Hne Hzero]. rewrite (Hone false).
    + reflexivity.
    + destruct current as [|p rest]; [contradiction|].
      apply Qeq_bool_iff in Hzero. rewrite Hzero. reflexivity.
  - intros Hnot. rewrite (Hone true).
    + unfold bind, attempt, when, ext. simpl.
      destruct (cfg_feishu_notifier cfg); simpl.
      * destruct (oracle unit _ w3) as [[[]|] w4]; simpl; split; auto.
      * split; [reflexivity | discriminate].
    + destruct Hnot as [->|Hnz]; [reflexivity|].
      destruct current as [|p rest]; [reflexivity|].
      destruct (Qeq_bool _ 0) eqn:E; [|reflexivity].
      apply Qeq_bool_iff in E. contradiction.
Qed.

End PositionIsZero.

(** C6, as stated, fails: the close is rejected with 110017 and the requery
    lists no position at all, so the size of the symbol and side is 0; the
    handler still sends the failure notification and counts no success. *)
Lemma C6_counterexample :
  target_pos_size_of "SOLUSDT" "Buy" (Demo.w_positions_live (Demo.zero_reject_world [])) == 0
  /\ fst (_handle_close_position_body Demo.venue Demo.config "SOLUSDT" "Sell" 0.05 150
            Demo.small_reduce_fill (Demo.start (Demo.zero_reject_world [])))
     = Ret 0%nat
  /\ trace (snd (_handle_close_position_body Demo.venue Demo.config "SOLUSDT" "Sell" 0.05 150
                   Demo.small_reduce_fill (Demo.start (Demo.zero_reject_world []))))
     = [ EvCall (SendNotification (NoticeCloseFailed false) NtError "SOLUSDT" "Buy");
         EvCall (QueryPositions (Some false));
         EvCall (Sleep 5);
         EvCall (ClosePosition Demo.sol_position (CloseQty 0.05));
         EvCall (PairMinQty "SOL");
         EvCall (QueryPositions None) ].
Proof.
  repeat split; vm_compute; reflexivity.
Qed.

Lemma C6_position_is_zero_recovery_witness :
  fst (close_one Demo.venue Demo.config "SOL" 0.05 false 0 Demo.sol_position
         (Demo.start (Demo.zero_reject_world [Demo.sol_flat])))
  = Ret 1%nat.
Proof.
  refine (f_equal fst
            (proj1 (C6_position_is_zero_recovery Demo.venue Demo.config "SOL" 0.05 false 0
                      Demo.sol_position
                      (Demo.start (Demo.zero_reject_world [Demo.sol_flat]))
                      (snd (close_request Demo.venue "SOL" 0.05 false Demo.sol_position
                              (Demo.start (Demo.zero_reject_world [Demo.sol_flat]))))
                      false 0.01 false 0 None
                      (Demo.zero_reject_world [Demo.sol_flat]) [Demo.sol_flat]
                      (Demo.zero_reject_world [Demo.sol_flat]) _ _ _ _) _)).
  - vm_compute. reflexivity.
  - reflexivity.
  - reflexivity.
  - reflexivity.
  - split; [discriminate | vm_compute; reflexivity].
Defined.

(** ** The order-id mapping *)

Section OrderIdMap.

Context {W : Type}.
Variable oracle : forall A : Type, Call A -> W -> Res A * W.
Variable cfg : Config.

Lemma truthy_str_some (b : string) : b <> EmptyString -> Py.truthy_str (Some b) = true.
Proof.
  intros Hb. simpl. destruct (String.eqb_spec b EmptyString); [contradiction|reflexivity].
Qed.

Lemma wp_eq {A} (m : M W A) (s : Sys W) r0 s0 :
  wp m (fun r s' => r = r0 /\ s' = s0) s -> m s = (r0, s0).
Proof.
  unfold wp. destruct (m s) as [r s']. simpl. intros [-> ->]. reflexivity.
Qed.

Lemma place_records_mapping symbol side size price record (s : Sys W)
    copy_size w1 orders w2 w2' lev w3 qty w4 b w5 hl :
  oracle _ (CalculateCopySize size price symbol) (world s) = (Ret copy_size, w1) ->
  0 < copy_size ->
  min_position_size cfg <= copy_size ->
  oracle _ QueryOpenOrders w1 = (Ret orders, w2) ->
  (orders = [] /\ w2' = w2
   \/ orders <> []
      /\ oracle _ (ContainOrder orders symbol side price) w2 = (Ret false, w2')) ->
  oracle _ (SetMaxLeverage symbol true) w2' = (Ret lev, w3) ->
  oracle _ (ClampOrderQuantity symbol price copy_size) w3 = (Ret qty, w4) ->
  oracle _ (OpenOrder symbol side qty price) w4 = (Ret (true, Some b), w5) ->
  b <> EmptyString ->
  o_order_id record = Some hl ->
  hl <> 0%Z ->
  fst (_handle_place_order_body oracle cfg symbol side size price record s) = Ret tt
  /\ order_id_mapping
       (eng (snd (_handle_place_order_body oracle cfg symbol side size price record s)))
     = <[hl := b]> (order_id_mapping (eng s)).
Proof.
  intros Hcopy Hpos Hmin Horders Hdup Hlev Hqty Hplace Hb Hhl Hhl0.
  change (wp (_handle_place_order_body oracle cfg symbol side size price record)
            (fun r s' =>
               r = Ret tt
               /\ order_id_mapping (eng s') = <[hl := b]> (order_id_mapping (eng s))) s).
  assert (E1 : Qle_bool copy_size 0 = false).
  { destruct (Qle_bool copy_size 0) eqn:E; [|reflexivity].
    apply Qle_bool_iff in E. exfalso. apply (Qlt_not_le _ _ Hpos E). }
  assert (E2 : Py.Qlt_bool copy_size (min_position_size cfg) = false)
    by (apply Qlt_bool_false_iff; exact Hmin).
  unfold _handle_place_order_body.
  apply wp_try_except, wp_bind. eapply wp_ext_eq; [exact Hcopy|]. cbv beta iota.
  rewrite E1, E2.
  apply wp_bind. eapply wp_ext_eq; [exact Horders|]. cbv beta iota.
  apply wp_bind.
  assert (Hrest : forall s2 : Sys W,
             world s2 = w2' -> eng s2 = eng s ->
             wp (leverage <- ext oracle (SetMaxLeverage symbol true) ;;
                 qty0 <- ext oracle (ClampOrderQuantity symbol price copy_size) ;;
                 placed <- ext oracle (OpenOrder symbol side qty0 price) ;;
                 (let success := placed.1 in
                  let bybit_order_id := placed.2 in
                  if success && Py.truthy_str bybit_order_id
                  then
                    match o_order_id record with
                    | Some hl_order_id =>
                        when (negb (Z.eqb hl_order_id 0))
                          (modify (set_order_id_mapping
                                     (insert hl_order_id
                                        (default EmptyString bybit_order_id))))
                    | None => ret tt
                    end
                  else ret tt))
                (fun r s' =>
                   match r with
                   | Ret a =>
                       Ret a = Ret tt
                       /\ order_id_mapping (eng s')
                          = <[hl := b]> (order_id_mapping (eng s))
                   | Raise =>
                       wp (ret tt : M W unit)
                         (fun r0 s0 =>
                            r0 = Ret tt
                            /\ order_id_mapping (eng s0)
                               = <[hl := b]> (order_id_mapping (eng s))) s'
                   end) s2).
  { intros s2 Hw He.
    apply wp_bind. eapply wp_ext_eq; [rewrite Hw; exact Hlev|]. cbv beta iota.
    apply wp_bind. eapply wp_ext_eq; [exact Hqty|]. cbv beta iota.
    apply wp_bind. eapply wp_ext_eq; [exact Hplace|]. cbv beta iota zeta.
    simpl fst. simpl snd. rewrite (truthy_str_some b Hb). simpl andb. cbv iota.
    rewrite Hhl. destruct (Z.eqb_spec hl 0) as [|_]; [contradiction|].
    simpl negb. apply wp_modify. split; [reflexivity|].
    simpl. rewrite He. reflexivity. }
  destruct Hdup as [[-> ->]|[Hne Hcontain]].
  - apply wp_ret. cbv beta iota. apply Hrest; reflexivity.
  - destruct orders as [|o rest]; [contradiction|].
    eapply wp_ext_eq; [exact Hcontain|]. cbv beta iota. apply Hrest; reflexivity.
Qed.


Lemma cancel_mapped symbol record hl b info (s : Sys W) w1 w2 :
  hl <> 0%Z ->
  order_id_mapping (eng s) !! hl = Some b ->
  b <> EmptyString ->
  oracle _ (QueryOrder b false) (world s) = (Ret (Some info), w1) ->
  oracle _ (CancelOrder symbol b) w1 = (Ret true, w2) ->
  _handle_cancel_order_body oracle symbol (Some hl) record s
  = (Ret tt,
     with_engine (set_order_id_mapping (delete hl))
       (after_call (CancelOrder symbol b) w2 (after_call (QueryOrder b false) w1 s))).
Proof.
  intros Hhl Hmap Hb Hlive Hcancel. apply wp_eq.
  unfold _handle_cancel_order_body.
  destruct (Z.eqb_spec hl 0) as [|_]; [contradiction|].
  apply wp_try_except, wp_bind. unfold resolve_bybit_order_id.
  apply wp_bind, wp_gets. rewrite Hmap, (truthy_str_some b Hb).
  apply wp_ret. cbv beta iota. rewrite (truthy_str_some b Hb). simpl negb. cbv iota.
  simpl default.
  apply wp_bind. eapply wp_ext_eq; [exact Hlive|]. cbv beta iota.
  apply wp_bind. eapply wp_ext_eq; [exact Hcancel|]. cbv beta iota.
  apply wp_modify. split; reflexivity.
Qed.

Lemma cancel_gone symbol record hl b (s : Sys W) w1 :
  hl <> 0%Z ->
  order_id_mapping (eng s) !! hl = Some b ->
  b <> EmptyString ->
  oracle _ (QueryOrder b false) (world s) = (Ret None, w1) ->
  _handle_cancel_order_body oracle symbol (Some hl) record s
  = (Ret tt,
     with_engine (set_order_id_mapping (delete hl)) (after_call (QueryOrder b false) w1 s)).
Proof.
  intros Hhl Hmap Hb Hlive. apply wp_eq.
  unfold _handle_cancel_order_body.
  destruct (Z.eqb_spec hl 0) as [|_]; [contradiction|].
  apply wp_try_except, wp_bind. unfold resolve_bybit_order_id.
  apply wp_bind, wp_gets. rewrite Hmap, (truthy_str_some b Hb).
  apply wp_ret. cbv beta iota. rewrite (truthy_str_some b Hb). simpl negb. cbv iota.
  simpl default.
  apply wp_bind. eapply wp_ext_eq; [exact Hlive|]. cbv beta iota.
  apply wp_modify. split; reflexivity.
Qed.

Lemma order_matches_iff symbol side price o :
  String.eqb (oo_symbol o) symbol && String.eqb (oo_side o) side
  && Py.Qlt_bool (Qabs (Py.fsub (oo_price o) price)) (Py.float 0.01) = true
  <-> order_matches symbol side price o.
Proof.
  unfold order_matches.
  rewrite !andb_true_iff, !String.eqb_eq, Qlt_bool_iff. tauto.
Qed.

(** Without an order that passes the test the scan finds nothing. *)
Lemma match_open_order_none symbol side price open_orders :
  (forall o, List.In o open_orders -> ~ order_matches symbol side price o) ->
  match_open_order symbol side price open_orders = None.
Proof.
  induction open_orders as [|o rest IH]; intros Hno; [reflexivity|].
  cbn [match_open_order].
  destruct (String.eqb (oo_symbol o) symbol && String.eqb (oo_side o) side
            && Py.Qlt_bool (Qabs (Py.fsub (oo_price o) price)) (Py.float 0.01)) eqn:E.
  - exfalso. apply order_matches_iff in E. apply (Hno o); [left; reflexivity | exact E].
  - apply IH. intros o' Hin. apply Hno. right. exact Hin.
Qed.

(** The scan yields the [orderId] of the first order that passes the
    test. *)
Lemma match_open_order_first symbol side price before o after :
  Forall (fun o' => ~ order_matches symbol side price o') before ->
  order_matches symbol side price o ->
  match_open_order symbol side price (before ++ o :: after) = oo_orderId o.
Proof.
  intros Hbefore Ho. induction Hbefore as [|o' rest Ho' _ IH]; cbn [app match_open_order].
  - apply order_matches_iff in Ho. rewrite Ho. reflexivity.
  - destruct (String.eqb (oo_symbol o') symbol && String.eqb (oo_side o') side
              && Py.Qlt_bool (Qabs (Py.fsub (oo_price o') price)) (Py.float 0.01)) eqn:E.
    + exfalso. apply Ho'. apply order_matches_iff. exact E.
    + exact IH.
Qed.

Lemma cancel_unmapped_no_match symbol record hl open_orders (s : Sys W) w1 :
  hl <> 0%Z ->
  order_id_mapping (eng s) !! hl = None ->
  oracle _ QueryOpenOrders (world s) = (Ret open_orders, w1) ->
  match_open_order symbol (o_side record) (o_price record) open_orders = None ->
  _handle_cancel_order_body oracle symbol (Some hl) record s
  = (Ret tt,
     if Py.Qlt_bool 0 (o_price record) then after_call QueryOpenOrders w1 s else s).
Proof.
  intros Hhl Hmap Horders Hnone. apply wp_eq.
  unfold _handle_cancel_order_body.
  destruct (Z.eqb_spec hl 0) as [|_]; [contradiction|].
  apply wp_try_except, wp_bind. unfold resolve_bybit_order_id.
  apply wp_bind, wp_gets. rewrite Hmap. simpl Py.truthy_str. cbv iota.
  destruct (Py.Qlt_bool 0 (o_price record)).
  - apply wp_bind. eapply wp_ext_eq; [exact Horders|]. cbv beta iota.
    apply wp_ret. cbv beta iota. rewrite Hnone. simpl. apply wp_ret. split; reflexivity.
  - apply wp_ret. cbv beta iota. simpl. apply wp_ret. split; reflexivity.
Qed.

Lemma cancel_unmapped_match symbol record hl open_orders b info (s : Sys W) w1 w2 w3 :
  hl <> 0%Z ->
  order_id_mapping (eng s) !! hl = None ->
  0 < o_price record ->
  oracle _ QueryOpenOrders (world s) = (Ret open_orders, w1) ->
  match_open_order symbol (o_side record) (o_price record) open_orders = Some b ->
  b <> EmptyString ->
  oracle _ (QueryOrder b false) w1 = (Ret (Some info), w2) ->
  oracle _ (CancelOrder symbol b) w2 = (Ret true, w3) ->
  _handle_cancel_order_body oracle symbol (Some hl) record s
  = (Ret tt,
     with_engine (set_order_id_mapping (delete hl))
       (after_call (CancelOrder symbol b) w3
          (after_call (QueryOrder b false) w2 (after_call QueryOpenOrders w1 s)))).
Proof.
  intros Hhl Hmap Hprice Horders Hsome Hb Hlive Hcancel. apply wp_eq.
  unfold _handle_cancel_order_body.
  destruct (Z.eqb_spec hl 0) as [|_]; [contradiction|].
  apply wp_try_except, wp_bind. unfold resolve_bybit_order_id.
  apply wp_bind, wp_gets. rewrite Hmap. simpl Py.truthy_str. cbv iota.
  apply Qlt_bool_iff in Hprice. rewrite Hprice.
  apply wp_bind. eapply wp_ext_eq; [exact Horders|]. cbv beta iota.
  apply wp_ret. cbv beta iota. rewrite Hsome.
  rewrite (truthy_str_some b Hb). simpl negb. cbv iota. simpl default.
  apply wp_bind. eapply wp_ext_eq; [exact Hlive|]. cbv beta iota.
  apply wp_bind. eapply wp_ext_eq; [exact Hcancel|]. cbv beta iota.
  apply wp_modify. split; reflexivity.
Qed.

End OrderIdMap.

(** ** What a run adds to the trace *)

Section Emits.

Context {W : Type}.

Lemma emits_refl (P : Event -> Prop) (s : Sys W) : emits P s s.
Proof. exists []. split; [reflexivity | constructor]. Qed.

Lemma emits_trans (P : Event -> Prop) (a b c : Sys W) :
  emits P a b -> emits P b c -> emits P a c.
Proof.
  intros (n1 & H1 & F1) (n2 & H2 & F2). exists (n2 ++ n1). split.
  - rewrite H2, H1. apply app_assoc.
  - apply Forall_app. split; assumption.
Qed.

Lemma emits_weaken (P P' : Event -> Prop) (a b : Sys W) :
  (forall e, P e -> P' e) -> emits P a b -> emits P' a b.
Proof.
  intros H (n & Hn & F). exists n. split; [exact Hn|].
  eapply Forall_impl; [exact F | exact H].
Qed.

Lemma emits_call (P : Event -> Prop) {A} (c : Call A) w' (s : Sys W) :
  P (EvCall c) -> emits P s (after_call c w' s).
Proof. intros H. exists [EvCall c]. split; [reflexivity | repeat constructor; exact H]. Qed.

Lemma emits_engine (P : Event -> Prop) f (s : Sys W) : emits P s (with_engine f s).
Proof. exists []. split; [reflexivity | constructor]. Qed.

Lemma emits_event (P : Event -> Prop) e (s : Sys W) :
  P e -> emits P s (with_event e s).
Proof. intros H. exists [e]. split; [reflexivity | repeat constructor; exact H]. Qed.

Lemma changes_refl (E : Engine -> Engine -> Prop) :
  (forall e, E e e) -> forall s : Sys W, changes E s s.
Proof. intros H s. apply H. Qed.

Lemma changes_trans (E : Engine -> Engine -> Prop) :
  (forall a b c, E a b -> E b c -> E a c) ->
  forall a b c : Sys W, changes E a b -> changes E b c -> changes E a c.
Proof. intros H a b c. apply H. Qed.

Lemma same_fill_books_refl e : same_fill_books e e.
Proof. repeat split. Qed.

Lemma same_fill_books_trans a b c :
  same_fill_books a b -> same_fill_books b c -> same_fill_books a c.
Proof.
  intros (H1 & H2 & H3 & H4 & H5) (G1 & G2 & G3 & G4 & G5).
  repeat split; congruence.
Qed.

Lemma same_order_books_refl e : same_order_books e e.
Proof. repeat split. Qed.

Lemma same_order_books_trans a b c :
  same_order_books a b -> same_order_books b c -> same_order_books a c.
Proof. intros (H1 & H2) (G1 & G2). split; congruence. Qed.

End Emits.

(** A step for [emits P]: [evt] settles [P] of a single event. *)
Ltac emits_side evt :=
  intros;
  first [ apply emits_engine
        | apply emits_call; evt
        | apply emits_event; evt ].

Ltac emits_run oracle P evt :=
  let Hrefl := uconstr:(@emits_refl _ P) in
  let Htrans := uconstr:(@emits_trans _ P) in
  repeat keeps_step oracle Hrefl Htrans ltac:(emits_side evt).

(** A step for [changes E], for [E] reflexive and transitive by [Erefl] and
    [Etrans]. *)
Ltac changes_run oracle Erefl Etrans :=
  let Hrefl := uconstr:(changes_refl _ Erefl) in
  let Htrans := uconstr:(changes_trans _ Etrans) in
  repeat keeps_step oracle Hrefl Htrans
    ltac:(intros; unfold changes; simpl; first [ apply Erefl | repeat split ]).

(** ** The two streams keep apart *)

Section Streams.

Context {W : Type}.
Variable oracle : forall A : Type, Call A -> W -> Res A * W.
Variable cfg : Config.

Lemma order_stream_emits record :
  keeps (emits leaves_positions) (sync_order_record oracle cfg record).
Proof.
  unfold sync_order_record, _check_symbol_support, mark_skipped,
    _validate_order_freshness, _parse_timestamp, _is_order_fresh,
    _handle_place_order, _handle_cancel_order, api_retry,
    _handle_place_order_body, _handle_cancel_order_body, resolve_bybit_order_id.
  emits_run oracle leaves_positions ltac:(exact I).
Qed.

Lemma order_stream_changes record :
  keeps (changes same_fill_books) (sync_order_record oracle cfg record).
Proof.
  unfold sync_order_record, _check_symbol_support, mark_skipped,
    _validate_order_freshness, _parse_timestamp, _is_order_fresh,
    _handle_place_order, _handle_cancel_order, api_retry,
    _handle_place_order_body, _handle_cancel_order_body, resolve_bybit_order_id.
  changes_run oracle same_fill_books_refl same_fill_books_trans.
Qed.

End Streams.

Section FillStream.

Context {W : Type}.
Variable oracle : forall A : Type, Call A -> W -> Res A * W.
Variable cfg : Config.

Ltac unfold_fill_stream :=
  unfold sync_fill_record, sync_fill_try, skip_duplicate, sync_fill_checked,
    sync_fill_finish, sync_fill_dispatch, sync_fill_close_or_open, sync_fill_open,
    call_open_position, run_reverse_signal, twap_order_of, mark_synced_fill,
    clear_closed_symbol, _check_symbol_support,
    _validate_order_freshness, _parse_timestamp, _is_order_fresh,
    _handle_open_position, _handle_close_position, critical_retry,
    _handle_open_position_body, open_prepare, open_on_exception, open_is_new_position,
    open_submit, open_after_submit, _wait_for_order_execution, query_real_fill,
    mark_fill, _handle_close_position_body, _handle_force_close_all,
    _handle_reduce_position, _get_min_order_qty, mark_skipped.

Ltac unfold_rounds :=
  unfold close_one, close_request, close_on_success, verify_position_is_zero,
    force_close_one, reduce_one, unpack3, unpack4, _get_min_order_qty.

Lemma wait_loop_emits_orders n id start timeout :
  keeps (emits leaves_orders) (wait_loop oracle n id start timeout).
Proof.
  induction n as [|n IH]; simpl; emits_run oracle leaves_orders ltac:(exact I).
Qed.

Lemma wait_loop_same_orders n id start timeout :
  keeps (changes same_order_books) (wait_loop oracle n id start timeout).
Proof.
  induction n as [|n IH]; simpl;
    changes_run oracle same_order_books_refl same_order_books_trans.
Qed.

Lemma fill_stream_emits record :
  keeps (emits leaves_orders) (sync_fill_record oracle cfg record).
Proof.
  pose proof wait_loop_emits_orders.
  unfold_fill_stream.
  emits_run oracle leaves_orders ltac:(exact I);
    unfold_rounds; emits_run oracle leaves_orders ltac:(exact I).
Qed.

Lemma fill_stream_changes record :
  keeps (changes same_order_books) (sync_fill_record oracle cfg record).
Proof.
  pose proof wait_loop_same_orders.
  unfold_fill_stream.
  changes_run oracle same_order_books_refl same_order_books_trans;
    unfold_rounds;
    changes_run oracle same_order_books_refl same_order_books_trans.
Qed.

End FillStream.

(** ** What the orders look like *)

Section Orders.

Context {W : Type}.
Variable oracle : forall A : Type, Call A -> W -> Res A * W.
Variable cfg : Config.

Lemma convert_side_of_order (side : string) :
  _convert_side_to_bybit_format side
    (if String.eqb side "BUY" then "Open Long" else "Open Short")
  = (if String.eqb side "BUY" then "Buy" else "Sell")%string.
Proof. destruct (String.eqb side "BUY"); reflexivity. Qed.

Lemma place_order_emits symbol side size price record :
  keeps (emits (limit_order_as symbol side price))
    (_handle_place_order oracle cfg symbol side size price record).
Proof.
  unfold _handle_place_order, api_retry, _handle_place_order_body.
  emits_run oracle (limit_order_as symbol side price)
    ltac:(first [exact I | simpl; repeat split; reflexivity]).
Qed.

Lemma order_stream_limit_orders record :
  keeps (emits (limit_order_as (ensure_full_symbol cfg (o_coin record))
                  (if String.eqb (o_side record) "BUY" then "Buy" else "Sell")
                  (o_price record)))
    (sync_order_record oracle cfg record).
Proof.
  pose proof (place_order_emits (ensure_full_symbol cfg (o_coin record))
                (if String.eqb (o_side record) "BUY" then "Buy" else "Sell")%string
                (o_size record) (o_price record) record) as Hplace.
  unfold sync_order_record. rewrite convert_side_of_order.
  unfold _check_symbol_support, mark_skipped,
    _validate_order_freshness, _parse_timestamp, _is_order_fresh,
    _handle_cancel_order, api_retry, _handle_cancel_order_body, resolve_bybit_order_id.
  emits_run oracle
    (limit_order_as (ensure_full_symbol cfg (o_coin record))
       (if String.eqb (o_side record) "BUY" then "Buy" else "Sell")%string
       (o_price record))
    ltac:(exact I).
Qed.

(** The market order of the open handler. *)

Lemma wait_loop_emits_market symbol side least n id start timeout :
  keeps (emits (market_order_as symbol side least))
    (wait_loop oracle n id start timeout).
Proof.
  induction n as [|n IH]; simpl;
    emits_run oracle (market_order_as symbol side least) ltac:(exact I).
Qed.

Lemma open_prepare_emits symbol side size price id :
  keeps (emits (market_order_as symbol side (min_position_size cfg)))
    (open_prepare oracle cfg symbol side size price id).
Proof.
  unfold open_prepare, mark_fill.
  emits_run oracle (market_order_as symbol side (min_position_size cfg)) ltac:(exact I).
Qed.

Lemma open_prepare_quantity symbol side size price id (s : Sys W) leverage qty :
  fst (open_prepare oracle cfg symbol side size price id s) = Ret (inr (leverage, qty)) ->
  min_position_size cfg <= qty.
Proof.
  unfold open_prepare.
  apply (wp_bind _ _ (fun r _ => r = Ret (inr (leverage, qty)) -> _)).
  apply wp_ext. intros [copy_size|] w1; [|discriminate].
  destruct (Qle_bool copy_size 0).
  { apply wp_bind. eapply (wp_keeps (fun _ _ => True)); [intros ?; exact I|].
    intros [[]|] s1 _; [|discriminate].
    apply wp_bind. eapply (wp_keeps (fun _ _ => True)); [intros ?; exact I|].
    intros [[]|] s2 _; [|discriminate]. apply wp_ret. discriminate. }
  apply wp_bind, wp_ext. intros [lev|] w2; [|discriminate].
  apply wp_bind, wp_ext. intros [q|] w3; [|discriminate].
  destruct (Py.Qlt_bool q (min_position_size cfg)) eqn:Hq.
  { apply wp_bind. eapply (wp_keeps (fun _ _ => True)); [intros ?; exact I|].
    intros [[]|] s2 _; [|discriminate]. apply wp_ret. discriminate. }
  apply wp_ret. intros Heq. injection Heq as _ <-.
  apply Qlt_bool_false_iff. exact Hq.
Qed.

Lemma open_submit_emits symbol side size price id is_twap oid order lev qty is_new :
  min_position_size cfg <= qty ->
  keeps (emits (market_order_as symbol side (min_position_size cfg)))
    (open_submit oracle cfg symbol side size price id is_twap oid order lev qty is_new).
Proof.
  intros Hqty.
  pose proof (wait_loop_emits_market symbol side (min_position_size cfg)).
  unfold open_submit, open_after_submit, _wait_for_order_execution, query_real_fill,
    mark_fill.
  emits_run oracle (market_order_as symbol side (min_position_size cfg))
    ltac:(first [exact I | simpl; repeat split; first [reflexivity | exact Hqty]]).
Qed.

Lemma open_body_emits symbol side size price record is_twap oid order :
  keeps (emits (market_order_as symbol side (min_position_size cfg)))
    (_handle_open_position_body oracle cfg symbol side size price record is_twap oid order).
Proof.
  set (P := market_order_as symbol side (min_position_size cfg)).
  assert (Hexc : forall is_new,
             keeps (emits P) (open_on_exception oracle cfg symbol side (r_id record) is_new)).
  { intros is_new. unfold open_on_exception, mark_fill.
    emits_run oracle P ltac:(exact I). }
  assert (Hnew : keeps (emits P) (open_is_new_position oracle symbol side)).
  { unfold open_is_new_position. emits_run oracle P ltac:(exact I). }
  unfold _handle_open_position_body.
  apply (keeps_bind _ (@emits_trans W P)); [apply (keeps_gets _ (@emits_refl W P))|].
  intros already. destruct already; [apply (keeps_ret _ (@emits_refl W P))|].
  intros s. unfold bind at 1, attempt at 1.
  pose proof (open_prepare_emits symbol side size price (r_id record) s) as Hem.
  pose proof (open_prepare_quantity symbol side size price (r_id record) s) as Hqty.
  destruct (open_prepare oracle cfg symbol side size price (r_id record) s)
    as [[[result|[leverage qty]]|] s1]; simpl in *.
  - exact Hem.
  - eapply emits_trans; [exact Hem|].
    specialize (Hqty leverage qty eq_refl).
    assert (Hrest : keeps (emits P)
              (is_new_position <- open_is_new_position oracle symbol side ;;
               submitted <- attempt
                 (open_submit oracle cfg symbol side size price (r_id record) is_twap oid
                    order leverage qty is_new_position) ;;
               match submitted with
               | None => open_on_exception oracle cfg symbol side (r_id record)
                           (Some is_new_position)
               | Some result => ret result
               end)).
    { apply (keeps_bind _ (@emits_trans W P)); [exact Hnew|]. intros is_new.
      apply (keeps_bind _ (@emits_trans W P)).
      - apply keeps_attempt, open_submit_emits, Hqty.
      - intros [result|]; [apply (keeps_ret _ (@emits_refl W P)) | apply Hexc]. }
    apply Hrest.
  - eapply emits_trans; [exact Hem|]. apply Hexc.
Qed.

Lemma open_emits symbol side size price record is_twap oid order :
  keeps (emits (market_order_as symbol side (min_position_size cfg)))
    (_handle_open_position oracle cfg symbol side size price record is_twap oid order).
Proof.
  unfold _handle_open_position, critical_retry.
  apply (keeps_with_retry oracle _ (@emits_trans W _)).
  - apply open_body_emits.
  - intros. apply emits_call. exact I.
Qed.

End Orders.

(** ** The close requests *)

Section Closes.

Context {W : Type}.
Variable oracle : forall A : Type, Call A -> W -> Res A * W.
Variable cfg : Config.

Lemma closes_refl (s : Sys W) : closes [] s s.
Proof. reflexivity. Qed.

Lemma closes_app l1 l2 (a b c : Sys W) :
  closes l1 a b -> closes l2 b c -> closes (l1 ++ l2) a c.
Proof.
  unfold closes. intros H1 H2. rewrite H2, H1, rev_app_distr. apply app_assoc.
Qed.

Lemma closes_trans (a b c : Sys W) : closes [] a b -> closes [] b c -> closes [] a c.
Proof. apply (closes_app [] []). Qed.

Lemma closes_then_none l (a b c : Sys W) : closes l a b -> closes [] b c -> closes l a c.
Proof. intros H1 H2. rewrite <- (app_nil_r l). eapply closes_app; eassumption. Qed.

Lemma closes_none_then l (a b c : Sys W) : closes [] a b -> closes l b c -> closes l a c.
Proof. intros H1 H2. change l with ([] ++ l). eapply closes_app; eassumption. Qed.

Ltac quiet_run :=
  let Hrefl := uconstr:(@closes_refl) in
  let Htrans := uconstr:(@closes_trans) in
  repeat keeps_step oracle Hrefl Htrans ltac:(intros; reflexivity).

Lemma partial_close_size_le (size pos_size min_qty : Q) :
  fst (partial_close_size size pos_size min_qty) <= pos_size.
Proof.
  unfold partial_close_size.
  destruct (Py.Qlt_bool 0 min_qty && Py.Qlt_bool (Qmin size pos_size) min_qty); simpl;
    apply Q.le_min_r.
Qed.

Lemma close_position_emits symbol side size price record :
  keeps (emits close_within)
    (_handle_close_position oracle cfg symbol side size price record).
Proof.
  unfold _handle_close_position, critical_retry, _handle_close_position_body.
  emits_run oracle close_within ltac:(exact I).
  all: unfold close_one, close_request, close_on_success, verify_position_is_zero,
         unpack4, _get_min_order_qty.
  all: emits_run oracle close_within
         ltac:(first [exact I | simpl; apply partial_close_size_le]).
Qed.

(** One round of the loop of the complete close asks for the whole
    position, once. *)
Lemma force_close_one_closes count position :
  keeps (closes [(position, CloseAll)]) (force_close_one oracle cfg count position).
Proof.
  unfold force_close_one.
  apply (keeps_bind_gen (closes [(position, CloseAll)]) (closes []) _).
  - apply closes_then_none.
  - auto.
  - apply keeps_attempt.
    apply (keeps_bind_gen (closes [(position, CloseAll)]) (closes []) _).
    + apply closes_then_none.
    + auto.
    + apply keeps_ext. intros; reflexivity.
    + intros reply. unfold unpack4. quiet_run.
  - intros requested. quiet_run.
Qed.

Lemma force_close_one_returns count position (s : Sys W) :
  exists count', fst (force_close_one oracle cfg count position s) = Ret count'.
Proof.
  unfold force_close_one.
  apply (wp_bind _ _ (fun r _ => exists count', r = Ret count')), wp_attempt.
  eapply (wp_keeps (fun _ _ => True)); [intros ?; exact I|].
  intros r s1 _.
  destruct r as [[[[success closed_size] pnl] error_code]|]; [|apply wp_ret; eauto].
  destruct (success && Py.Qlt_bool 0 closed_size).
  - apply wp_bind, wp_attempt.
    eapply (wp_keeps (fun _ _ => True)); [intros ?; exact I|].
    intros r2 s2 _. apply wp_ret. eauto.
  - apply wp_bind, wp_attempt.
    eapply (wp_keeps (fun _ _ => True)); [intros ?; exact I|].
    intros r2 s2 _. apply wp_ret. eauto.
Qed.

Lemma for_each_closes (body : nat -> Position -> M W nat) how :
  (forall n position s,
      closes [(position, how)] s (snd (body n position s))
      /\ exists n', fst (body n position s) = Ret n') ->
  forall items n s,
    closes (map (fun position => (position, how)) items) s
      (snd (for_each body n items s))
    /\ exists n', fst (for_each body n items s) = Ret n'.
Proof.
  intros Hbody. induction items as [|x rest IH]; intros n s; simpl.
  - split; [apply closes_refl | eauto].
  - unfold bind. destruct (Hbody n x s) as [Hc [n1 Hr]].
    destruct (body n x s) as [r s1]. simpl in *. subst r.
    destruct (IH n1 s1) as [Hc' Hr']. split; [|exact Hr'].
    change ((x, how) :: ?l) with ([(x, how)] ++ l).
    eapply closes_app; eassumption.
Qed.

Lemma startswith_app (a b : string) : Py.startswith (a ++ b) a = true.
Proof.
  unfold Py.startswith. induction a as [|c a IH]; simpl.
  - destruct b; reflexivity.
  - destruct (Ascii.ascii_dec c c); [apply IH | congruence].
Qed.

Lemma endswith_refl (b : string) : Py.endswith b b = true.
Proof.
  destruct b as [|c b]; simpl; rewrite ?Ascii.eqb_refl, ?String.eqb_refl; reflexivity.
Qed.

Lemma endswith_app (a b p : string) :
  Py.endswith b p = true -> Py.endswith (a ++ b) p = true.
Proof.
  intros H. induction a as [|c a IH]; simpl; [exact H|].
  rewrite IH. apply orb_true_r.
Qed.

Lemma coin_positions_of_symbol coin x position positions :
  In position positions ->
  p_symbol position = (coin ++ x ++ "USDT")%string ->
  0 < p_size position ->
  In position (coin_positions_of coin positions).
Proof.
  intros Hin Hsym Hsize. unfold coin_positions_of. apply filter_In. split; [exact Hin|].
  rewrite Hsym. apply Qlt_bool_iff in Hsize. rewrite Hsize.
  rewrite startswith_app.
  rewrite (endswith_app coin _ _ (endswith_app x _ _ (endswith_refl "USDT"))).
  reflexivity.
Qed.

Lemma force_close_all_closes symbol coin record positions w1 (s : Sys W) :
  coin ∉ closed_symbols (eng s) ->
  oracle _ (QueryPositions None) (world s) = (Ret positions, w1) ->
  closes (map (fun position => (position, CloseAll)) (coin_positions_of coin positions))
    s (snd (_handle_force_close_all oracle cfg symbol coin record s)).
Proof.
  intros Hopen Hq.
  change (wp (_handle_force_close_all oracle cfg symbol coin record)
            (fun _ s' =>
               closes (map (fun position => (position, CloseAll))
                         (coin_positions_of coin positions)) s s') s).
  unfold _handle_force_close_all.
  apply wp_bind, wp_gets. rewrite bool_decide_eq_false_2 by exact Hopen.
  apply wp_try_except, wp_bind. eapply wp_ext_eq; [exact Hq|].
  set (s1 := after_call (QueryPositions None) w1 s).
  assert (H01 : closes [] s s1) by reflexivity.
  destruct positions as [|p0 rest]; [apply wp_modify; exact H01|].
  destruct (coin_positions_of coin (p0 :: rest)) as [|c0 crest];
    [apply wp_modify; exact H01|].
  apply wp_bind.
  destruct (for_each_closes (force_close_one oracle cfg) CloseAll
              (fun n position s0 =>
                 conj (force_close_one_closes n position s0)
                      (force_close_one_returns n position s0))
              (c0 :: crest) O s1) as [Hc [n' Hr]].
  unfold wp at 1. rewrite Hr.
  set (s2 := snd (for_each (force_close_one oracle cfg) 0 (c0 :: crest) s1)) in *.
  clearbody s2.
  destruct (n' =? length (c0 :: crest))%nat; simpl;
    (eapply closes_none_then; [exact H01|];
     eapply closes_then_none; [exact Hc | reflexivity]).
Qed.

End Closes.

(** ** The reduce handler and the shape of the venue's reply *)

Section Mismatch.

Context {W : Type}.
Variable oracle : forall A : Type, Call A -> W -> Res A * W.
Variable cfg : Config.
Hypothesis Hfour : close_replies_have_four oracle.

Lemma reduce_one_quadruple min_qty count position (s : Sys W) :
  exists w',
    reduce_one oracle cfg min_qty count position s
    = (Ret count, after_call (ClosePosition position CloseAll) w' s).
Proof.
  unfold reduce_one, bind, attempt, ext.
  destruct (oracle _ (ClosePosition position CloseAll) (world s)) as [[reply|] w'] eqn:E.
  - destruct reply as [success closed_size pnl|success closed_size pnl error_code].
    + exfalso. exact (Hfour _ _ _ _ _ _ _ E).
    + exists w'. reflexivity.
  - exists w'. reflexivity.
Qed.

Lemma reduce_rounds_quadruple min_qty items :
  forall count (s : Sys W),
    fst (for_each (reduce_one oracle cfg min_qty) count items s) = Ret count
    /\ eng (snd (for_each (reduce_one oracle cfg min_qty) count items s)) = eng s
    /\ emits no_success_notice s
         (snd (for_each (reduce_one oracle cfg min_qty) count items s))
    /\ closes (map (fun position => (position, CloseAll)) items) s
         (snd (for_each (reduce_one oracle cfg min_qty) count items s)).
Proof.
  induction items as [|x rest IH]; intros count s; simpl.
  - repeat split. apply emits_refl.
  - unfold bind. destruct (reduce_one_quadruple min_qty count x s) as [w' ->].
    destruct (IH count (after_call (ClosePosition x CloseAll) w' s))
      as (H1 & H2 & H3 & H4).
    split; [exact H1|]. split; [rewrite H2; reflexivity|]. split.
    + eapply emits_trans; [|exact H3]. apply emits_call. exact I.
    + change ((x, CloseAll) :: ?l) with ([(x, CloseAll)] ++ l).
      eapply closes_app; [|exact H4]. reflexivity.
Qed.

Lemma get_min_order_qty_returns coin (s : Sys W) :
  exists min_qty w',
    _get_min_order_qty oracle coin s = (Ret min_qty, after_call (PairMinQty coin) w' s).
Proof.
  unfold _get_min_order_qty, try_except, bind, ext.
  destruct (oracle _ (PairMinQty coin) (world s)) as [[[min_qty|]|] w']; simpl; eauto.
Qed.

Lemma reduce_quadruple_quiet symbol coin record (s : Sys W) :
  eng (snd (_handle_reduce_position oracle cfg symbol coin record s)) = eng s
  /\ emits no_success_notice s (snd (_handle_reduce_position oracle cfg symbol coin record s)).
Proof.
  change (wp (_handle_reduce_position oracle cfg symbol coin record)
            (fun _ s' => eng s' = eng s /\ emits no_success_notice s s') s).
  unfold _handle_reduce_position.
  apply wp_bind, wp_gets.
  destruct (bool_decide (coin ∈ closed_symbols (eng s)));
    [apply wp_ret; split; [reflexivity | apply emits_refl]|].
  assert (Hfail : forall s1 : Sys W,
             eng s1 = eng s -> emits no_success_notice s s1 ->
             wp (when (cfg_feishu_notifier cfg)
                   (ext oracle (SendNotification NoticeReduceAllFailed NtError symbol "")))
                (fun _ s' => eng s' = eng s /\ emits no_success_notice s s') s1).
  { intros s1 He Hem. apply wp_when; intros _.
    - apply wp_ext. intros r w'. split; [exact He|].
      eapply emits_trans; [exact Hem|]. apply emits_call. exact I.
    - split; assumption. }
  apply wp_try_except, wp_bind, wp_ext. intros r w1.
  set (s1 := after_call (QueryPositions None) w1 s).
  assert (He1 : eng s1 = eng s) by reflexivity.
  assert (Hem1 : emits no_success_notice s s1) by (apply emits_call; exact I).
  destruct r as [positions|]; [|apply Hfail; assumption].
  destruct positions as [|p0 rest]; [apply wp_ret; split; assumption|].
  destruct (coin_positions_of coin (p0 :: rest)) as [|c0 crest];
    [apply wp_ret; split; assumption|].
  apply wp_bind.
  destruct (get_min_order_qty_returns coin s1) as (min_qty & w2 & Hmin).
  unfold wp at 1. rewrite Hmin. cbv beta iota. unfold fst, snd.
  set (s2 := after_call (PairMinQty coin) w2 s1).
  assert (He2' : eng s2 = eng s) by reflexivity.
  assert (Hem2' : emits no_success_notice s s2).
  { eapply emits_trans; [exact Hem1|]. apply emits_call. exact I. }
  apply wp_bind.
  destruct (reduce_rounds_quadruple min_qty (c0 :: crest) O s2) as (Hr & He3 & Hem3 & _).
  unfold wp at 1. rewrite Hr.
  set (s3 := snd (for_each (reduce_one oracle cfg min_qty) 0 (c0 :: crest) s2)) in *.
  clearbody s3. cbv beta iota. change (0 <? 0)%nat with false. cbv iota.
  assert (He3' : eng s3 = eng s) by congruence.
  assert (Hem3' : emits no_success_notice s s3) by (eapply emits_trans; eassumption).
  pose proof (Hfail s3 He3' Hem3') as Hlast. unfold wp in Hlast |- *.
  destruct (when (cfg_feishu_notifier cfg)
              (ext oracle (SendNotification NoticeReduceAllFailed NtError symbol "")) s3)
    as [[[]|] s4]; simpl in *.
  - exact Hlast.
  - destruct Hlast as [He4 Hem4]. apply (Hfail s4 He4 Hem4).
Qed.

Lemma reduce_quadruple_reports symbol coin record positions w1 (s : Sys W) :
  coin ∉ closed_symbols (eng s) ->
  oracle _ (QueryPositions None) (world s) = (Ret positions, w1) ->
  coin_positions_of coin positions <> [] ->
  closes (map (fun position => (position, CloseAll)) (coin_positions_of coin positions))
    s (snd (_handle_reduce_position oracle cfg symbol coin record s))
  /\ (cfg_feishu_notifier cfg = true ->
      exists older,
        trace (snd (_handle_reduce_position oracle cfg symbol coin record s))
        = EvCall (SendNotification NoticeReduceAllFailed NtError symbol "") :: older).
Proof.
  intros Hopen Hq Hsome.
  set (L := map (fun position => (position, CloseAll)) (coin_positions_of coin positions)).
  change (wp (_handle_reduce_position oracle cfg symbol coin record)
            (fun _ s' =>
               closes L s s'
               /\ (cfg_feishu_notifier cfg = true ->
                   exists older,
                     trace s'
                     = EvCall (SendNotification NoticeReduceAllFailed NtError symbol "")
                         :: older)) s).
  unfold _handle_reduce_position.
  apply wp_bind, wp_gets. rewrite bool_decide_eq_false_2 by exact Hopen.
  assert (Hfail : forall s1 : Sys W,
             closes L s s1 ->
             wp (when (cfg_feishu_notifier cfg)
                   (ext oracle (SendNotification NoticeReduceAllFailed NtError symbol "")))
                (fun r s' =>
                   closes L s s'
                   /\ (cfg_feishu_notifier cfg = true ->
                       exists older,
                         trace s'
                         = EvCall (SendNotification NoticeReduceAllFailed NtError symbol "")
                             :: older)) s1).
  { intros s1 Hc. apply wp_when; intros Hn.
    - apply wp_ext. intros r w'. split.
      + eapply closes_then_none; [exact Hc | reflexivity].
      + intros _. eexists. reflexivity.
    - split; [exact Hc | congruence]. }
  apply wp_try_except, wp_bind. eapply wp_ext_eq; [exact Hq|].
  set (s1 := after_call (QueryPositions None) w1 s).
  assert (H01 : closes [] s s1) by reflexivity.
  destruct positions as [|p0 rest]; [exfalso; apply Hsome; reflexivity|].
  subst L.
  destruct (coin_positions_of coin (p0 :: rest)) as [|c0 crest];
    [exfalso; apply Hsome; reflexivity|].
  set (L := map (fun position => (position, CloseAll)) (c0 :: crest)) in *.
  apply wp_bind.
  destruct (get_min_order_qty_returns coin s1) as (min_qty & w2 & Hmin).
  unfold wp at 1. rewrite Hmin. cbv beta iota. unfold fst, snd.
  set (s2 := after_call (PairMinQty coin) w2 s1).
  assert (H02 : closes [] s s2) by reflexivity.
  apply wp_bind.
  destruct (reduce_rounds_quadruple min_qty (c0 :: crest) O s2) as (Hr & _ & _ & Hc).
  unfold wp at 1. rewrite Hr.
  set (s3 := snd (for_each (reduce_one oracle cfg min_qty) 0 (c0 :: crest) s2)) in *.
  clearbody s3. cbv beta iota. change (0 <? 0)%nat with false. cbv iota.
  assert (H03 : closes L s s3) by (eapply closes_none_then; eassumption).
  pose proof (Hfail s3 H03) as Hlast. unfold wp in Hlast |- *.
  destruct (when (cfg_feishu_notifier cfg)
              (ext oracle (SendNotification NoticeReduceAllFailed NtError symbol "")) s3)
    as [[[]|] s4]; simpl in *.
  - exact Hlast.
  - destruct Hlast as [Hc4 _]. apply (Hfail s4 Hc4).
Qed.

End Mismatch.

(** ** The age of a record *)

Section Freshness.

Context {W : Type}.
Variable oracle : forall A : Type, Call A -> W -> Res A * W.
Variable cfg : Config.

Lemma mark_skipped_marks id is_fill st (s : Sys W) :
  let s' := snd (mark_skipped oracle cfg (Some id) is_fill st s) in
  if is_fill then id ∈ synced_fills (eng s') else id ∈ synced_orders (eng s').
Proof.
  unfold mark_skipped, bind, modify, when, ext.
  destruct is_fill; simpl.
  - destruct (cfg_db cfg); simpl.
    + destruct (oracle _ (UpdateFillStatus id st) (world s)) as [[[]|] w']; simpl; set_solver.
    + set_solver.
  - destruct (cfg_db cfg); simpl.
    + destruct (oracle _ (UpdateOrderStatus id st) (world s)) as [[[]|] w']; simpl; set_solver.
    + set_solver.
Qed.

Lemma validate_order_freshness_enabled id ts is_fill now w1 (s : Sys W) :
  ENABLE_ORDER_TIME_FILTER cfg = true ->
  oracle _ Now (world s) = (Ret now, w1) ->
  ((now - ts) / 3600 <= ORDER_MAX_AGE_HOURS cfg ->
   _validate_order_freshness oracle cfg id (Some ts) is_fill s
   = (Ret (true, ts), after_call Now w1 s))
  /\ (ORDER_MAX_AGE_HOURS cfg < (now - ts) / 3600 ->
      let out := _validate_order_freshness oracle cfg id (Some ts) is_fill s in
      (fst out = Ret (false, ts) \/ fst out = Raise)
      /\ forall i, id = Some i ->
           if is_fill then i ∈ synced_fills (eng (snd out))
           else i ∈ synced_orders (eng (snd out))).
Proof.
  intros Hen Hnow. split; intros Hage.
  - apply wp_eq.
    unfold _validate_order_freshness, _parse_timestamp, _is_order_fresh. rewrite Hen.
    apply wp_bind, wp_ret. cbv beta iota.
    apply wp_bind. simpl negb. cbv iota.
    apply wp_bind. eapply wp_ext_eq; [exact Hnow|]. cbv beta iota.
    apply Qlt_bool_false_iff in Hage. rewrite Hage.
    apply wp_ret. cbv beta iota. simpl negb. cbv iota. apply wp_ret. split; reflexivity.
  - cbv zeta.
    change (wp (_validate_order_freshness oracle cfg id (Some ts) is_fill)
              (fun r s' =>
                 (r = Ret (false, ts) \/ r = Raise)
                 /\ forall i, id = Some i ->
                      if is_fill then i ∈ synced_fills (eng s')
                      else i ∈ synced_orders (eng s')) s).
    unfold _validate_order_freshness, _parse_timestamp, _is_order_fresh. rewrite Hen.
    apply wp_bind, wp_ret. cbv beta iota.
    apply wp_bind. simpl negb. cbv iota.
    apply wp_bind. eapply wp_ext_eq; [exact Hnow|]. cbv beta iota.
    apply Qlt_bool_iff in Hage. rewrite Hage.
    apply wp_ret. cbv beta iota. simpl negb. cbv iota.
    set (s1 := after_call Now w1 s).
    apply wp_bind. unfold wp at 1.
    pose proof (fun i => mark_skipped_marks i is_fill StFiltered s1) as Hm.
    destruct id as [i|].
    + specialize (Hm i). cbv zeta in Hm.
      destruct (mark_skipped oracle cfg (Some i) is_fill StFiltered s1) as [[[]|] s2];
        simpl in *.
      * apply wp_ret. split; [auto|]. intros i' Hi. injection Hi as <-. exact Hm.
      * split; [auto|]. intros i' Hi. injection Hi as <-. exact Hm.
    + simpl. apply wp_ret. split; [auto | discriminate].
Qed.

Lemma validate_order_freshness_disabled id ts is_fill (s : Sys W) :
  ENABLE_ORDER_TIME_FILTER cfg = false ->
  _validate_order_freshness oracle cfg id (Some ts) is_fill s = (Ret (true, ts), s).
Proof.
  intros Hen. unfold _validate_order_freshness, _parse_timestamp, _is_order_fresh.
  rewrite Hen. reflexivity.
Qed.

End Freshness.

(** ** A fill that has been through the [try] block is not looked at again *)

Section Processed.

Context {W : Type}.
Variable oracle : forall A : Type, Call A -> W -> Res A * W.
Variable cfg : Config.
Variable record : FillRecord.
Variable id : Z.
Hypothesis Hid : r_id record = Some id.

(** Whatever a run does, and however it ends. *)
Tactic Notation "anyrun" "as" simple_intropattern(p) :=
  eapply (wp_keeps (fun _ _ => True)); [intros ?; exact I | intros p ? _].

Lemma marked_then_ret {A B} (m : M W A) (b : B) good (s : Sys W) :
  (forall s0, id ∈ synced_fills (eng (snd (m s0)))) ->
  wp (m ;; ret b) (marked id good) s.
Proof.
  intros Hm. apply wp_bind. unfold wp. specialize (Hm s).
  destruct (m s) as [[a|] s1]; simpl in *.
  - intros b' _ _. exact Hm.
  - intros b' Hb. discriminate.
Qed.

Lemma check_symbol_support_marks coin (s : Sys W) :
  wp (_check_symbol_support oracle cfg coin (Some id) true)
     (marked id (fun supported : bool => supported = false)) s.
Proof.
  unfold _check_symbol_support.
  apply wp_bind, wp_ext. intros [allowed|] w1; [|intros ? ?; discriminate].
  destruct allowed; cbv beta iota; simpl negb; cbv iota.
  - apply wp_bind, wp_ext. intros [enabled|] w2; [|intros ? ?; discriminate].
    destruct enabled; cbv beta iota; simpl negb; cbv iota.
    + apply wp_ret. intros x0 Hx0 Hf0; congruence.
    + apply wp_bind, wp_ext. intros [supported|] w3; [|intros ? ?; discriminate].
      destruct supported; cbv beta iota; simpl negb; cbv iota.
      * apply wp_ret. intros x0 Hx0 Hf0; congruence.
      * apply marked_then_ret. intros s0.
        apply (mark_skipped_marks oracle cfg id true StUnsupported s0).
  - apply marked_then_ret. intros s0.
    apply (mark_skipped_marks oracle cfg id true StFiltered s0).
Qed.

Lemma validate_order_freshness_marks ts (s : Sys W) :
  wp (_validate_order_freshness oracle cfg (Some id) ts true)
     (marked id (fun fresh : bool * Q => fst fresh = false)) s.
Proof.
  unfold _validate_order_freshness.
  apply wp_bind. anyrun as [order_timestamp|]; [|intros ? ?; discriminate].
  apply wp_bind. anyrun as [fresh|]; [|intros ? ?; discriminate].
  destruct fresh; cbv beta iota; simpl negb; cbv iota.
  - apply wp_ret. intros x0 Hx0 Hf0. injection Hx0 as <-. discriminate.
  - apply marked_then_ret. intros s0.
    apply (mark_skipped_marks oracle cfg id true StFiltered s0).
Qed.

Lemma mark_synced_fill_marks (s : Sys W) :
  wp (@mark_synced_fill W (Some id)) (fun _ s' => id ∈ synced_fills (eng s')) s.
Proof. unfold mark_synced_fill. apply wp_modify. simpl. set_solver. Qed.

Lemma run_reverse_signal_marks signal (s : Sys W) :
  wp (run_reverse_signal oracle cfg record signal ;; ret true)
     (marked id (fun returned : bool => returned = true)) s.
Proof.
  unfold run_reverse_signal. rewrite Hid.
  apply wp_bind, wp_bind. anyrun as [?|]; [|intros ? ?; discriminate].
  apply wp_bind. anyrun as [success|]; [|intros ? ?; discriminate].
  apply wp_bind. anyrun as [?|]; [|intros ? ?; discriminate].
  eapply wp_mono; [apply mark_synced_fill_marks|].
  intros r0 s0' Hin. destruct r0; [|intros ? ?; discriminate].
  apply wp_ret. intros ? _ _. exact Hin.
Qed.

Lemma returns_false_marks {A} (m : M W A) (s : Sys W) :
  wp (m ;; ret false) (marked id (fun returned : bool => returned = true)) s.
Proof.
  apply wp_bind. anyrun as [?|]; [|intros ? ?; discriminate].
  apply wp_ret. intros x0 Hx0 Ht0; congruence.
Qed.

Lemma sync_fill_dispatch_marks symbol is_twap oid (s : Sys W) :
  wp (sync_fill_dispatch oracle cfg record symbol is_twap oid)
     (marked id (fun returned : bool => returned = true)) s.
Proof.
  assert (Hco : forall s0,
             wp (sync_fill_close_or_open oracle cfg record symbol is_twap oid)
                (marked id (fun returned : bool => returned = true)) s0).
  { intros s0. unfold sync_fill_close_or_open.
    destruct (is_complete_close _ _).
    { apply wp_bind. anyrun as [?|]; [|intros ? ?; discriminate].
      apply returns_false_marks. }
    destruct (Py.Qneq_bool _ _).
    { apply wp_bind. anyrun as [?|]; [|intros ? ?; discriminate].
      apply returns_false_marks. }
    destruct (_ || _).
    { apply wp_bind. anyrun as [?|]; [|intros ? ?; discriminate].
      apply returns_false_marks. }
    destruct (Py.contains "Open" _); [|apply wp_ret; intros x0 Hx0 Ht0; congruence].
    unfold sync_fill_open.
    apply wp_bind. anyrun as [[signal|]|]; [| |intros ? ?; discriminate].
    - apply run_reverse_signal_marks.
    - apply wp_bind. anyrun as [success|]; [|intros ? ?; discriminate].
      apply returns_false_marks. }
  unfold sync_fill_dispatch.
  destruct (Py.contains ">" _); [|apply Hco].
  destruct (reverse_new_side _) as [new_side|]; [|apply Hco].
  apply wp_bind. anyrun as [[signal|]|]; [| |intros ? ?; discriminate].
  - apply run_reverse_signal_marks.
  - apply wp_bind. anyrun as [success|]; [|intros ? ?; discriminate].
    apply wp_bind. anyrun as [?|]; [|intros ? ?; discriminate].
    apply wp_bind. rewrite Hid.
    eapply wp_mono; [apply mark_synced_fill_marks|].
    intros r0 s0' Hin. destruct r0; [|intros ? ?; discriminate].
    apply wp_ret. intros ? _ _. exact Hin.
Qed.

Lemma sync_fill_checked_marks (s : Sys W) :
  wp (sync_fill_checked oracle cfg record) (marked id (fun _ : unit => True)) s.
Proof.
  unfold sync_fill_checked. rewrite Hid.
  apply wp_bind.
  eapply wp_mono; [apply check_symbol_support_marks|].
  intros [supported|] s1 Hs; [|intros ? ?; discriminate].
  destruct supported; cbv beta iota; simpl negb; cbv iota.
  2:{ apply wp_ret. intros ? _ _. apply (Hs false); reflexivity. }
  apply wp_bind.
  eapply wp_mono; [apply validate_order_freshness_marks|].
  intros [[fresh ts]|] s2 Hf; [|intros ? ?; discriminate].
  destruct fresh; cbv beta iota; simpl fst; simpl negb; cbv iota.
  2:{ apply wp_ret. intros ? _ _. apply (Hf (false, ts)); reflexivity. }
  apply wp_bind. anyrun as [is_twap|]; [|intros ? ?; discriminate].
  apply wp_bind. anyrun as [?|]; [|intros ? ?; discriminate].
  apply wp_bind.
  eapply wp_mono; [apply sync_fill_dispatch_marks|].
  intros [returned|] s3 Hd; [|intros ? ?; discriminate].
  destruct returned.
  - apply wp_ret. intros ? _ _. apply (Hd true); reflexivity.
  - unfold sync_fill_finish. rewrite Hid.
    apply wp_bind, wp_modify. apply wp_when; intros _.
    + apply wp_ext. intros r w' ? _ _. simpl. set_solver.
    + intros ? _ _. simpl. set_solver.
Qed.

Lemma sync_fill_try_marks (s : Sys W) :
  fst (sync_fill_try oracle cfg record s) = Ret tt ->
  id ∈ synced_fills (eng (snd (sync_fill_try oracle cfg record s))).
Proof.
  intros Hret.
  assert (H : wp (sync_fill_try oracle cfg record) (marked id (fun _ : unit => True)) s).
  { unfold sync_fill_try.
    destruct (dedupe_hash _); [|apply sync_fill_checked_marks].
    apply wp_bind, wp_gets.
    destruct (bool_decide _).
    - unfold skip_duplicate. rewrite Hid.
      apply wp_bind, wp_modify. apply wp_when; intros _.
      + apply wp_ext. intros r w' ? _ _. simpl. set_solver.
      + intros ? _ _. simpl. set_solver.
    - apply wp_bind, wp_modify. apply sync_fill_checked_marks. }
  apply (H tt Hret I).
Qed.

Lemma processed_once (s : Sys W) :
  fst (sync_fill_try oracle cfg record s) = Ret tt ->
  let s1 := snd (sync_fill_record oracle cfg record s) in
  id ∈ synced_fills (eng s1)
  /\ sync_fill_record oracle cfg record s1 = (Ret tt, s1).
Proof.
  intros Hret. simpl.
  assert (Hin : id ∈ synced_fills (eng (snd (sync_fill_record oracle cfg record s)))).
  { destruct (fill_already_synced record (eng s)) eqn:Hknown.
    - rewrite (sync_fill_record_known oracle cfg record s Hknown). simpl.
      unfold fill_already_synced in Hknown. rewrite Hid in Hknown.
      apply bool_decide_eq_true in Hknown. exact Hknown.
    - pose proof (sync_fill_try_marks s Hret) as Hm.
      unfold sync_fill_record, bind, gets. simpl. rewrite Hknown.
      unfold try_except.
      destruct (sync_fill_try oracle cfg record s) as [[[]|] s1]; simpl in *;
        [exact Hm | discriminate]. }
  split; [exact Hin|].
  apply sync_fill_record_known. unfold fill_already_synced. rewrite Hid.
  apply bool_decide_eq_true. exact Hin.
Qed.

End Processed.

(** ** Which exceptions leave the two entry points *)

Section Escapes.

Context {W : Type}.
Variable oracle : forall A : Type, Call A -> W -> Res A * W.
Variable cfg : Config.

Lemma sync_fill_record_escape record (s : Sys W) :
  fst (sync_fill_record oracle cfg record s) = Raise ->
  cfg_db cfg = true
  /\ exists id older,
       r_id record = Some id
       /\ fst (sync_fill_try oracle cfg record s) = Raise
       /\ trace (snd (sync_fill_record oracle cfg record s))
          = EvCall (UpdateFillStatus id StFailed) :: older.
Proof.
  unfold sync_fill_record, bind, gets. simpl.
  destruct (fill_already_synced record (eng s)); [discriminate|].
  unfold try_except.
  destruct (sync_fill_try oracle cfg record s) as [[[]|] s1]; simpl; [discriminate|].
  destruct (r_id record) as [id|]; [|discriminate].
  destruct (cfg_db cfg); simpl; [|discriminate].
  unfold ext. destruct (oracle _ (UpdateFillStatus id StFailed) (world s1)) as [[[]|] w'];
    simpl; [discriminate|].
  intros _. split; [reflexivity|]. exists id. eexists. repeat split.
Qed.

Lemma sync_order_record_escape record (s : Sys W) :
  fst (sync_order_record oracle cfg record s) = Raise ->
  (o_id record = None /\ snd (sync_order_record oracle cfg record s) = s)
  \/ (cfg_db cfg = true
      /\ exists id older,
           o_id record = Some id
           /\ trace (snd (sync_order_record oracle cfg record s))
              = EvCall (UpdateOrderStatus id StFailed) :: older).
Proof.
  unfold sync_order_record.
  destruct (o_id record) as [id|]; [|intros _; left; split; reflexivity].
  intros Hraise. right. revert Hraise.
  match goal with
  | |- fst (?m s) = Raise -> _ =>
      change (wp m
                (fun r s' =>
                   r = Raise ->
                   cfg_db cfg = true
                   /\ exists id0 older,
                        Some id = Some id0
                        /\ trace s' = EvCall (UpdateOrderStatus id0 StFailed) :: older)
                s)
  end.
  apply wp_bind, wp_gets.
  destruct (bool_decide _); [apply wp_ret; discriminate|].
  apply wp_try_except.
  eapply (wp_keeps (fun _ _ => True)); [intros ?; exact I|].
  intros [[]|] s1 _; [discriminate|].
  apply wp_when; intros Hdb; [|discriminate].
  apply wp_ext. intros r w' _. split; [exact Hdb|]. exists id. eexists. split; reflexivity.
Qed.

End Escapes.

(** ** The fill reported after a market order *)

Section RealFill.

Lemma fill_from_executions_unmatched order_id qty price executions :
  (forall e, In e executions -> ex_orderLinkId e <> order_id) ->
  fill_from_executions order_id qty price executions = (qty, price).
Proof.
  intros Hno. unfold fill_from_executions.
  assert (Hnil : List.filter (fun e => String.eqb (ex_orderLinkId e) order_id) executions
                 = []).
  { induction executions as [|e l IH]; [reflexivity|]. simpl.
    destruct (String.eqb_spec (ex_orderLinkId e) order_id) as [Heq|_].
    - exfalso. apply (Hno e); [left; reflexivity | exact Heq].
    - apply IH. intros e' H'. apply Hno. right. exact H'. }
  rewrite Hnil. reflexivity.
Qed.

Lemma filter_own_twice order_id (executions : list Execution) :
  List.filter (fun e => String.eqb (ex_orderLinkId e) order_id)
    (List.filter (fun e => String.eqb (ex_orderLinkId e) order_id) executions)
  = List.filter (fun e => String.eqb (ex_orderLinkId e) order_id) executions.
Proof.
  induction executions as [|e l IH]; [reflexivity|]. simpl.
  destruct (String.eqb (ex_orderLinkId e) order_id) eqn:E; [|exact IH].
  simpl. rewrite E, IH. reflexivity.
Qed.

Lemma fill_from_executions_own order_id qty price executions executions' :
  List.filter (fun e => String.eqb (ex_orderLinkId e) order_id) executions
  = List.filter (fun e => String.eqb (ex_orderLinkId e) order_id) executions' ->
  fill_from_executions order_id qty price executions
  = fill_from_executions order_id qty price executions'.
Proof. intros H. unfold fill_from_executions. rewrite H. reflexivity. Qed.

End RealFill.

(** ** The memo of a followed full close *)

Section FollowMemo.

Context {W : Type}.
Variable oracle : forall A : Type, Call A -> W -> Res A * W.
Variable cfg : Config.

Lemma wp_ext_case {A} (c : Call A) (Q : Res A -> Sys W -> Prop) (s0 : Sys W) :
  (forall r w', oracle A c (world s0) = (r, w') -> Q r (after_call c w' s0)) ->
  wp (ext oracle c) Q s0.
Proof.
  intros H. unfold wp, ext.
  destruct (oracle A c (world s0)) as [r w'] eqn:E. apply H. reflexivity.
Qed.

Lemma look_at_executions symbol (Q : Res unit -> Sys W -> Prop) (s0 : Sys W) :
  (forall s', only_talks s0 s' -> Q (Ret tt) s') ->
  wp (try_except (ext oracle (GetExecutions symbol 10) ;; ret tt) (ret tt)) Q s0.
Proof.
  intros H. apply wp_try_except, wp_bind, wp_ext. intros r w'.
  assert (Ht : only_talks s0 (after_call (GetExecutions symbol 10) w' s0)).
  { split; [reflexivity | eexists [_]; reflexivity]. }
  destruct r; [apply wp_ret|]; apply H; exact Ht.
Qed.

Variables (coin : string) (size : Q) (count : nat) (position : Position).
Variables (closed : Q) (pnl : option Q) (error_code : option string).
Variables (s : Sys W) (w1 : W).

Hypothesis Hclose :
  oracle _ (ClosePosition position CloseAll) (world s)
  = (Ret (Close4 true closed pnl error_code), w1).
Hypothesis Hclosed : 0 < closed.

Lemma close_one_full_start (Q : Res nat -> Sys W -> Prop) :
  wp (attempt (close_on_success oracle cfg coin size position true false 0 closed)
      ;; ret (S count)) Q (after_call (ClosePosition position CloseAll) w1 s) ->
  wp (close_one oracle cfg coin size true count position) Q s.
Proof.
  intros H. unfold close_one, close_request.
  apply wp_bind, wp_attempt. cbv beta iota.
  apply wp_bind. eapply wp_ext_eq; [exact Hclose|]. cbv beta iota.
  apply wp_bind, wp_ret. cbv beta iota. apply wp_ret. cbv beta iota.
  apply Qlt_bool_iff in Hclosed. rewrite Hclosed. simpl andb. cbv iota.
  exact H.
Qed.

Lemma follow_memo_lost :
  cfg_feishu_notifier cfg = true ->
  (forall w,
      fst (oracle _ (SendNotification NoticeFullCloseOk NtSuccess
                       (p_symbol position) (p_side position)) w) = Raise) ->
  fst (close_one oracle cfg coin size true count position s) = Ret (S count)
  /\ eng (snd (close_one oracle cfg coin size true count position s)) = eng s.
Proof.
  intros Hn Hdown.
  change (wp (close_one oracle cfg coin size true count position)
            (fun r s' => r = Ret (S count) /\ eng s' = eng s) s).
  apply close_one_full_start.
  apply wp_bind, wp_attempt. unfold close_on_success.
  apply wp_bind, look_at_executions. intros s2 [He2 _].
  apply wp_bind. simpl when at 1. apply wp_ret. cbv beta iota.
  apply wp_bind. rewrite Hn. simpl when at 1.
  apply wp_ext_case. intros r w3 E.
  specialize (Hdown (world s2)). rewrite E in Hdown. simpl in Hdown. subst r.
  apply wp_ret. split; [reflexivity | exact He2].
Qed.

Lemma follow_memo_written now :
  (forall w,
      fst (oracle _ (SendNotification NoticeFullCloseOk NtSuccess
                       (p_symbol position) (p_side position)) w) = Ret tt) ->
  (forall w, fst (oracle _ Now w) = Ret now) ->
  fst (close_one oracle cfg coin size true count position s) = Ret (S count)
  /\ forced_liquidations (eng (snd (close_one oracle cfg coin size true count position s)))
     = <[pos_key_of (p_symbol position) (p_side position)
         := {| m_time := now; m_type := Follow; m_fields := [("size"%string, closed)] |}]>
         (forced_liquidations (eng s)).
Proof.
  intros Hup Hnow.
  set (memo := {| m_time := now; m_type := Follow;
                  m_fields := [("size"%string, closed)] |}).
  set (key := pos_key_of (p_symbol position) (p_side position)).
  change (wp (close_one oracle cfg coin size true count position)
            (fun r s' =>
               r = Ret (S count)
               /\ forced_liquidations (eng s') = <[key := memo]> (forced_liquidations (eng s)))
            s).
  apply close_one_full_start.
  apply wp_bind, wp_attempt. unfold close_on_success.
  apply wp_bind, look_at_executions. intros s2 [He2 _].
  apply wp_bind. simpl when at 1. apply wp_ret. cbv beta iota.
  apply wp_bind.
  assert (Hnotice : forall Q' : Res unit -> Sys W -> Prop,
             (forall s', eng s' = eng s2 -> Q' (Ret tt) s') ->
             wp (when (cfg_feishu_notifier cfg)
                   (ext oracle (SendNotification NoticeFullCloseOk NtSuccess
                                  (p_symbol position) (p_side position)))) Q' s2).
  { intros Q' HQ. apply wp_when; intros _; [|apply HQ; reflexivity].
    apply wp_ext_case. intros r w3 E.
    specialize (Hup (world s2)). rewrite E in Hup. simpl in Hup. subst r.
    apply HQ. reflexivity. }
  apply Hnotice. intros s3 He3.
  cbn [when orb negb].
  apply wp_bind, wp_bind. apply wp_ext_case. intros r w4 E.
  specialize (Hnow (world s3)). rewrite E in Hnow. simpl in Hnow. subst r.
  apply wp_modify.
  eapply (wp_keeps only_talks); [ot oracle|].
  intros r s5 [He5 _].
  assert (Hmemo : forced_liquidations (eng s5)
                  = <[key := memo]> (forced_liquidations (eng s))).
  { rewrite He5. simpl. rewrite He3, He2. reflexivity. }
  destruct r as [[]|]; apply wp_ret; split; [reflexivity | exact Hmemo | reflexivity | exact Hmemo].
Qed.

End FollowMemo.

(** ** The keys of the memos *)

Section MemoKeys.

Lemma string_length_app (a b : string) :
  String.length (a ++ b) = (String.length a + String.length b)%nat.
Proof.
  induction a as [|c a IH]; [reflexivity|].
  change (S (String.length (a ++ b)) = S (String.length a + String.length b)).
  f_equal. exact IH.
Qed.

Lemma string_app_assoc (a b c : string) : ((a ++ b) ++ c = a ++ (b ++ c))%string.
Proof.
  induction a as [|x a IH]; [reflexivity|].
  change (String x ((a ++ b) ++ c) = String x (a ++ (b ++ c)))%string.
  f_equal. exact IH.
Qed.

Lemma string_app_inj_length (a a' b b' : string) :
  String.length b = String.length b' ->
  (a ++ b = a' ++ b')%string -> a = a' /\ b = b'.
Proof.
  revert a'. induction a as [|c a IH]; intros [|c' a'] Hlen Heq.
  - exact (conj eq_refl Heq).
  - exfalso. apply (f_equal String.length) in Heq.
    rewrite !string_length_app in Heq. simpl String.length in Heq. lia.
  - exfalso. apply (f_equal String.length) in Heq.
    rewrite !string_length_app in Heq. simpl String.length in Heq. lia.
  - change (String c (a ++ b) = String c' (a' ++ b'))%string in Heq.
    injection Heq as -> Heq. destruct (IH a' Hlen Heq) as [-> ->]. auto.
Qed.

Lemma pos_key_of_inj (symbol symbol' side side' : string) :
  side = "Buy"%string \/ side = "Sell"%string ->
  side' = "Buy"%string \/ side' = "Sell"%string ->
  pos_key_of symbol side = pos_key_of symbol' side' ->
  symbol = symbol' /\ side = side'.
Proof.
  unfold pos_key_of. intros [->| ->] [->| ->] Heq.
  - apply string_app_inj_length in Heq as [-> _]; auto.
  - exfalso. change ("_" ++ "Sell")%string with (("_" ++ "S") ++ "ell")%string in Heq.
    change ("_" ++ "Buy")%string with ("_" ++ "Buy")%string in Heq.
    rewrite <- (string_app_assoc symbol' ("_" ++ "S") "ell") in Heq.
    change ("_" ++ "Buy")%string with ("_Buy")%string in Heq.
    assert (H4 : (symbol ++ "_Buy" = (symbol ++ "_") ++ "Buy")%string)
      by (symmetry; apply string_app_assoc).
    rewrite H4 in Heq.
    apply string_app_inj_length in Heq as [_ Hbad]; [discriminate | reflexivity].
  - exfalso.
    change ("_" ++ "Sell")%string with (("_" ++ "S") ++ "ell")%string in Heq.
    rewrite <- (string_app_assoc symbol ("_" ++ "S") "ell") in Heq.
    assert (H4 : (symbol' ++ "_" ++ "Buy" = (symbol' ++ "_") ++ "Buy")%string)
      by (symmetry; apply string_app_assoc).
    rewrite H4 in Heq.
    apply string_app_inj_length in Heq as [_ Hbad]; [discriminate | reflexivity].
  - apply string_app_inj_length in Heq as [-> _]; auto.
Qed.

Context {W : Type}.
Variable oracle : forall A : Type, Call A -> W -> Res A * W.

Lemma clear_then_get symbol side (s : Sys W) :
  let s1 := snd (@clear_forced_liquidation W symbol side s) in
  get_forced_liquidation oracle symbol side s1 = (Ret None, s1).
Proof.
  simpl. unfold get_forced_liquidation, clear_forced_liquidation, bind, gets, modify.
  simpl. rewrite lookup_delete_eq. reflexivity.
Qed.

Lemma clear_keeps_others symbol side symbol' side' (s : Sys W) :
  side = "Buy"%string \/ side = "Sell"%string ->
  side' = "Buy"%string \/ side' = "Sell"%string ->
  (symbol', side') <> (symbol, side) ->
  forced_liquidations (eng (snd (@clear_forced_liquidation W symbol side s)))
    !! pos_key_of symbol' side'
  = forced_liquidations (eng s) !! pos_key_of symbol' side'.
Proof.
  intros Hs Hs' Hne. unfold clear_forced_liquidation, modify. simpl.
  apply lookup_delete_ne. intros Heq.
  apply pos_key_of_inj in Heq as [-> ->]; auto.
Qed.

End MemoKeys.

(** ** Cancelling by price when the sides are written differently *)

Section CancelSides.

Context {W : Type}.
Variable oracle : forall A : Type, Call A -> W -> Res A * W.

Lemma match_open_order_other_side symbol side price open_orders :
  Forall (fun order => oo_side order <> side) open_orders ->
  match_open_order symbol side price open_orders = None.
Proof.
  intros H. apply match_open_order_none. intros o Hin (_ & Hside & _).
  rewrite Forall_forall in H. apply (H o); [|exact Hside].
  apply list_elem_of_In. exact Hin.
Qed.

Lemma cancel_by_price_sides symbol record hl (s : Sys W) :
  hl <> 0%Z ->
  order_id_mapping (eng s) !! hl = None ->
  (forall open_orders w', oracle _ QueryOpenOrders (world s) = (Ret open_orders, w') ->
                          Forall (fun order => oo_side order <> o_side record) open_orders) ->
  fst (_handle_cancel_order_body oracle symbol (Some hl) record s) = Ret tt
  /\ eng (snd (_handle_cancel_order_body oracle symbol (Some hl) record s)) = eng s
  /\ emits (fun e => is_cancel e = false) s
       (snd (_handle_cancel_order_body oracle symbol (Some hl) record s)).
Proof.
  intros Hhl Hmap Hsides.
  change (wp (_handle_cancel_order_body oracle symbol (Some hl) record)
            (fun r s' => r = Ret tt /\ eng s' = eng s
                         /\ emits (fun e => is_cancel e = false) s s') s).
  unfold _handle_cancel_order_body.
  destruct (Z.eqb_spec hl 0) as [|_]; [contradiction|].
  apply wp_try_except, wp_bind. unfold resolve_bybit_order_id.
  apply wp_bind, wp_gets. rewrite Hmap. simpl Py.truthy_str. cbv iota.
  destruct (Py.Qlt_bool 0 (o_price record)).
  - apply wp_bind. apply wp_ext_case. intros r w' E.
    assert (Hem : emits (fun e => is_cancel e = false) s (after_call QueryOpenOrders w' s))
      by (apply emits_call; reflexivity).
    destruct r as [open_orders|].
    + apply wp_ret. cbv beta iota.
      rewrite (match_open_order_other_side symbol (o_side record) (o_price record)
                 open_orders (Hsides open_orders w' E)).
      simpl. apply wp_ret. repeat split. exact Hem.
    + apply wp_ret. repeat split. exact Hem.
  - apply wp_ret. cbv beta iota. simpl. apply wp_ret. repeat split. apply emits_refl.
Qed.

End CancelSides.

(** ** Expected against actual positions *)

Section Reconciled.

Variable cfg : Config.

Lemma check_position_sync_flat db_positions bybit_positions :
  check_position_sync cfg db_positions bybit_positions
  = flat_map (check_one cfg (bybit_pos_dict_of bybit_positions)) db_positions.
Proof.
  unfold check_position_sync.
  generalize (bybit_pos_dict_of bybit_positions). intros d.
  rewrite <- (app_nil_l (flat_map _ _)). generalize (@nil SyncAction).
  induction db_positions as [|x rest IH]; intros acc; simpl.
  - symmetry. apply app_nil_r.
  - rewrite IH. symmetry. apply app_assoc.
Qed.

Lemma dict_lookup_same k positions :
  forall d1 d2 : gmap string Position,
    d1 !! k = d2 !! k ->
    fold_left add_bybit_pos positions d1 !! k = fold_left add_bybit_pos positions d2 !! k.
Proof.
  induction positions as [|p rest IH]; intros d1 d2 H; simpl; [exact H|].
  apply IH. unfold add_bybit_pos. destruct (Py.Qlt_bool 0 (p_size p)); [|exact H].
  destruct (decide (pos_key_of (p_symbol p) (p_side p) = k)) as [<-|Hne].
  - rewrite !lookup_insert_eq. reflexivity.
  - rewrite !lookup_insert_ne by exact Hne. exact H.
Qed.

Lemma dict_lookup_found k positions :
  forall (d : gmap string Position) pos,
    fold_left add_bybit_pos positions d !! k = Some pos ->
    d !! k = Some pos
    \/ (In pos positions /\ 0 < p_size pos
        /\ pos_key_of (p_symbol pos) (p_side pos) = k).
Proof.
  induction positions as [|p rest IH]; intros d pos H; simpl in *; [auto|].
  destruct (IH _ _ H) as [Hd|(Hin & Hpos & Hkey)]; [|right; auto].
  unfold add_bybit_pos in Hd. destruct (Py.Qlt_bool 0 (p_size p)) eqn:Hp; [|auto].
  destruct (decide (pos_key_of (p_symbol p) (p_side p) = k)) as [Hk|Hne].
  - rewrite <- Hk, lookup_insert_eq in Hd. injection Hd as <-.
    right. split; [left; reflexivity|]. split; [apply Qlt_bool_iff; exact Hp | exact Hk].
  - rewrite lookup_insert_ne in Hd by exact Hne. auto.
Qed.

Lemma dict_lookup_absent k positions :
  (forall pos, In pos positions -> 0 < p_size pos ->
               pos_key_of (p_symbol pos) (p_side pos) <> k) ->
  forall d : gmap string Position, fold_left add_bybit_pos positions d !! k = d !! k.
Proof.
  induction positions as [|p rest IH]; intros Hno d; simpl; [reflexivity|].
  rewrite IH by (intros pos Hin; apply Hno; right; exact Hin).
  unfold add_bybit_pos. destruct (Py.Qlt_bool 0 (p_size p)) eqn:Hp; [|reflexivity].
  apply lookup_insert_ne. apply Hno; [left; reflexivity | apply Qlt_bool_iff; exact Hp].
Qed.

Lemma dict_lookup_without k before pos after :
  pos_key_of (p_symbol pos) (p_side pos) <> k ->
  bybit_pos_dict_of (before ++ pos :: after) !! k
  = bybit_pos_dict_of (before ++ after) !! k.
Proof.
  intros Hne. unfold bybit_pos_dict_of. 
  rewrite !fold_left_app. simpl. apply dict_lookup_same.
  unfold add_bybit_pos at 1. destruct (Py.Qlt_bool 0 (p_size pos)); [|reflexivity].
  apply lookup_insert_ne. exact Hne.
Qed.

Lemma dict_lookup_stays k positions :
  forall d : gmap string Position,
    is_Some (d !! k) -> is_Some (fold_left add_bybit_pos positions d !! k).
Proof.
  induction positions as [|p rest IH]; intros d H; simpl; [exact H|].
  apply IH. unfold add_bybit_pos. destruct (Py.Qlt_bool 0 (p_size p)); [|exact H].
  destruct (decide (pos_key_of (p_symbol p) (p_side p) = k)) as [<-|Hne].
  - rewrite lookup_insert_eq. eauto.
  - rewrite lookup_insert_ne by exact Hne. exact H.
Qed.

Lemma dict_lookup_present k positions pos :
  In pos positions -> 0 < p_size pos ->
  pos_key_of (p_symbol pos) (p_side pos) = k ->
  forall d : gmap string Position, is_Some (fold_left add_bybit_pos positions d !! k).
Proof.
  intros Hin Hsize Hkey.
  induction positions as [|p rest IH]; intros d; simpl; [destruct Hin|].
  destruct Hin as [->|Hin]; [|apply IH; exact Hin].
  apply dict_lookup_stays. unfold add_bybit_pos.
  apply Qlt_bool_iff in Hsize. rewrite Hsize, Hkey, lookup_insert_eq. eauto.
Qed.

Lemma check_one_open d db symbol side size :
  In (ActionOpen symbol side size) (check_one cfg d db) ->
  symbol = ensure_full_symbol cfg (d_coin db) /\ side = d_side db /\ size = d_size db
  /\ 0 < size /\ d !! pos_key_of symbol side = None.
Proof.
  unfold check_one.
  destruct (d !! pos_key_of (ensure_full_symbol cfg (d_coin db)) (d_side db)) as [p|] eqn:E.
  - destruct (Py.Qlt_bool _ _); simpl; [intros [H|[]]; discriminate | intros []].
  - destruct (Py.Qlt_bool 0 (d_size db)) eqn:Hp; simpl; [|intros []].
    intros [H|[]]. injection H as <- <- <-.
    repeat split; [apply Qlt_bool_iff; exact Hp | exact E].
Qed.

Lemma check_one_adjust d db symbol side expected actual :
  In (ActionAdjust symbol side expected actual) (check_one cfg d db) ->
  symbol = ensure_full_symbol cfg (d_coin db) /\ side = d_side db
  /\ expected = d_size db
  /\ Py.float (min_position_size cfg) < Qabs (Py.fsub expected actual)
  /\ exists pos, d !! pos_key_of symbol side = Some pos /\ p_size pos = actual.
Proof.
  unfold check_one.
  destruct (d !! pos_key_of (ensure_full_symbol cfg (d_coin db)) (d_side db)) as [p|] eqn:E.
  - destruct (Py.Qlt_bool _ _) eqn:Hp; simpl; [|intros []].
    intros [H|[]]. injection H as <- <- <- <-.
    repeat split; [apply Qlt_bool_iff; exact Hp|]. exists p. auto.
  - destruct (Py.Qlt_bool _ _); simpl; [intros [H|[]]; discriminate | intros []].
Qed.

Lemma check_position_sync_sound db_positions bybit_positions :
  (forall symbol side size,
      In (ActionOpen symbol side size) (check_position_sync cfg db_positions bybit_positions) ->
      0 < size
      /\ (exists db, In db db_positions
                     /\ symbol = ensure_full_symbol cfg (d_coin db)
                     /\ side = d_side db /\ size = d_size db)
      /\ forall pos, In pos bybit_positions -> 0 < p_size pos ->
                     pos_key_of (p_symbol pos) (p_side pos) <> pos_key_of symbol side)
  /\ (forall symbol side expected actual,
         In (ActionAdjust symbol side expected actual)
            (check_position_sync cfg db_positions bybit_positions) ->
         Py.float (min_position_size cfg) < Qabs (Py.fsub expected actual)
         /\ (exists db, In db db_positions
                        /\ symbol = ensure_full_symbol cfg (d_coin db)
                        /\ side = d_side db /\ expected = d_size db)
         /\ exists pos, In pos bybit_positions /\ 0 < p_size pos
                        /\ pos_key_of (p_symbol pos) (p_side pos) = pos_key_of symbol side
                        /\ p_size pos = actual).
Proof.
  rewrite check_position_sync_flat. split.
  - intros symbol side size Hin. apply in_flat_map in Hin as (db & Hdb & Hin).
    apply check_one_open in Hin as (-> & -> & -> & Hpos & Hnone).
    split; [exact Hpos|]. split; [exists db; auto|].
    intros pos Hp Hsize Hkey.
    destruct (dict_lookup_present _ bybit_positions pos Hp Hsize Hkey ∅) as [x Hx].
    unfold bybit_pos_dict_of in Hnone.  congruence.
  - intros symbol side expected actual Hin.
    apply in_flat_map in Hin as (db & Hdb & Hin).
    apply check_one_adjust in Hin as (-> & -> & -> & Hdiff & pos & Hlook & Hact).
    split; [exact Hdiff|]. split; [exists db; auto|].
    exists pos. unfold bybit_pos_dict_of in Hlook. 
    apply dict_lookup_found in Hlook as [Hempty|(Hin & Hsize & Hkey)].
    + rewrite lookup_empty in Hempty. discriminate.
    + auto.
Qed.

Lemma check_position_sync_unreferenced db_positions before pos after :
  (forall db, In db db_positions ->
              pos_key_of (ensure_full_symbol cfg (d_coin db)) (d_side db)
              <> pos_key_of (p_symbol pos) (p_side pos)) ->
  check_position_sync cfg db_positions (before ++ pos :: after)
  = check_position_sync cfg db_positions (before ++ after).
Proof.
  intros Hno. rewrite !check_position_sync_flat.
  induction db_positions as [|db rest IH]; [reflexivity|]. simpl.
  rewrite IH by (intros db' H'; apply Hno; right; exact H').
  f_equal. unfold check_one.
  rewrite dict_lookup_without; [reflexivity|].
  intros Heq. apply (Hno db); [left; reflexivity | symmetry; exact Heq].
Qed.

Lemma check_position_sync_flat_venue db_positions bybit_positions :
  (forall pos, In pos bybit_positions -> p_size pos <= 0) ->
  check_position_sync cfg db_positions bybit_positions
  = map (fun db => ActionOpen (ensure_full_symbol cfg (d_coin db)) (d_side db) (d_size db))
      (List.filter (fun db => Py.Qlt_bool 0 (d_size db)) db_positions).
Proof.
  intros Hflat. rewrite check_position_sync_flat.
  assert (Hnone : forall k, bybit_pos_dict_of bybit_positions !! k = None).
  { intros k. unfold bybit_pos_dict_of. 
    rewrite dict_lookup_absent; [apply lookup_empty|].
    intros pos Hin Hpos. exfalso. apply (Qlt_not_le _ _ Hpos). apply Hflat. exact Hin. }
  induction db_positions as [|db rest IH]; [reflexivity|]. simpl.
  rewrite IH. unfold check_one at 1. rewrite Hnone.
  destruct (Py.Qlt_bool 0 (d_size db)); reflexivity.
Qed.

End Reconciled.

(** ** The leverage table *)

Section Leverage.

Lemma load_pairs_stops bad after :
  parse_leverage_pair bad = Raise ->
  forall before leverage_map,
    load_pairs (before ++ bad :: after) leverage_map = load_pairs before leverage_map.
Proof.
  intros Hbad. induction before as [|entry before IH]; intros m; simpl.
  - rewrite Hbad. reflexivity.
  - destruct (parse_leverage_pair entry) as [[[coin lev]|]|]; [apply IH | apply IH | reflexivity].
Qed.

Lemma load_pairs_app before after :
  Forall (fun entry => parse_leverage_pair entry <> Raise) before ->
  forall leverage_map,
    load_pairs (before ++ after) leverage_map
    = load_pairs after (load_pairs before leverage_map).
Proof.
  induction 1 as [|entry before Hentry _ IH]; intros m; simpl; [reflexivity|].
  destruct (parse_leverage_pair entry) as [[[coin lev]|]|]; [apply IH | apply IH | congruence].
Qed.

Lemma load_pairs_other_keys key entries :
  Forall (fun entry => forall lev, parse_leverage_pair entry <> Ret (Some (key, lev))) entries ->
  forall leverage_map, load_pairs entries leverage_map !! key = leverage_map !! key.
Proof.
  induction 1 as [|entry entries Hentry _ IH]; intros m; simpl; [reflexivity|].
  destruct (parse_leverage_pair entry) as [[[coin lev]|]|] eqn:E; [|apply IH|reflexivity].
  rewrite IH. apply lookup_insert_ne. intros ->. apply (Hentry lev). reflexivity.
Qed.

Lemma load_leverage_config_stops text before bad after :
  PyStr.split_on "," text = before ++ bad :: after ->
  parse_leverage_pair bad = Raise ->
  _load_leverage_config (Some text) = load_pairs before ∅.
Proof.
  intros Hsplit Hbad. unfold _load_leverage_config. simpl.
  destruct (String.eqb_spec text "") as [->|_]; simpl.
  - simpl in Hsplit. destruct before as [|b0 [|b1 before]]; simpl in Hsplit.
    + injection Hsplit as <- _. vm_compute in Hbad. discriminate.
    + injection Hsplit as _ Hnil. discriminate.
    + injection Hsplit as _ Hnil. discriminate.
  - rewrite Hsplit. apply load_pairs_stops. exact Hbad.
Qed.

Lemma load_leverage_config_last text before entry after key lev :
  PyStr.split_on "," text = before ++ entry :: after ->
  Forall (fun e => parse_leverage_pair e <> Raise) before ->
  parse_leverage_pair entry = Ret (Some (key, lev)) ->
  Forall (fun e => forall lev', parse_leverage_pair e <> Ret (Some (key, lev'))) after ->
  _load_leverage_config (Some text) !! key = Some lev.
Proof.
  intros Hsplit Hbefore Hentry Hafter. unfold _load_leverage_config. simpl.
  destruct (String.eqb_spec text "") as [->|_]; simpl.
  - exfalso. simpl in Hsplit. destruct before as [|b0 [|b1 before]]; simpl in Hsplit.
    + injection Hsplit as <- _. vm_compute in Hentry. discriminate.
    + injection Hsplit as _ Hnil. discriminate.
    + injection Hsplit as _ Hnil. discriminate.
  - rewrite Hsplit, load_pairs_app by exact Hbefore. simpl. rewrite Hentry.
    rewrite load_pairs_other_keys by exact Hafter. apply lookup_insert_eq.
Qed.

Lemma load_leverage_config_missing text key :
  Forall (fun e => forall lev, parse_leverage_pair e <> Ret (Some (key, lev)))
    (PyStr.split_on "," text) ->
  _load_leverage_config (Some text) !! key = None.
Proof.
  intros H. unfold _load_leverage_config. simpl.
  destruct (negb (text =? "")%string); [|apply lookup_empty].
  rewrite load_pairs_other_keys by exact H. apply lookup_empty.
Qed.

End Leverage.

(** ** The mark of a coin that has been closed *)

Section Latch.

Context {W : Type}.
Variable oracle : forall A : Type, Call A -> W -> Res A * W.
Variable cfg : Config.

Lemma force_close_all_latched symbol coin record (s : Sys W) :
  coin ∈ closed_symbols (eng s) ->
  _handle_force_close_all oracle cfg symbol coin record s = (Ret tt, s).
Proof.
  intros H. unfold _handle_force_close_all, bind, gets. simpl.
  rewrite bool_decide_eq_true_2 by exact H. reflexivity.
Qed.

Lemma reduce_position_latched symbol coin record (s : Sys W) :
  coin ∈ closed_symbols (eng s) ->
  _handle_reduce_position oracle cfg symbol coin record s = (Ret tt, s).
Proof.
  intros H. unfold _handle_reduce_position, bind, gets. simpl.
  rewrite bool_decide_eq_true_2 by exact H. reflexivity.
Qed.

Lemma force_close_all_nothing_open symbol coin record positions w1 (s : Sys W) :
  coin ∉ closed_symbols (eng s) ->
  oracle _ (QueryPositions None) (world s) = (Ret positions, w1) ->
  coin_positions_of coin positions = [] ->
  _handle_force_close_all oracle cfg symbol coin record s
  = (Ret tt,
     with_engine (set_closed_symbols (union {[coin]}))
       (after_call (QueryPositions None) w1 s)).
Proof.
  intros Hopen Hq Hnone. apply wp_eq. unfold _handle_force_close_all.
  apply wp_bind, wp_gets. rewrite bool_decide_eq_false_2 by exact Hopen.
  apply wp_try_except, wp_bind. eapply wp_ext_eq; [exact Hq|]. cbv beta iota.
  destruct positions as [|p0 rest]; [apply wp_modify; split; reflexivity|].
  rewrite Hnone. apply wp_modify. split; reflexivity.
Qed.

Lemma place_order_body_returns symbol side size price record (s : Sys W) :
  fst (_handle_place_order_body oracle cfg symbol side size price record s) = Ret tt.
Proof.
  change (wp (_handle_place_order_body oracle cfg symbol side size price record)
            (fun r _ => r = Ret tt) s).
  unfold _handle_place_order_body. cbv zeta. apply wp_try_except.
  eapply (wp_keeps (fun _ _ => True)); [intros ?; exact I|].
  intros [[]|] s1 _; [reflexivity | apply wp_ret; reflexivity].
Qed.

Lemma cancel_order_body_returns symbol hl record (s : Sys W) :
  fst (_handle_cancel_order_body oracle symbol hl record s) = Ret tt.
Proof.
  change (wp (_handle_cancel_order_body oracle symbol hl record)
            (fun r _ => r = Ret tt) s).
  unfold _handle_cancel_order_body.
  destruct hl as [hl|]; [|apply wp_ret; reflexivity].
  destruct (Z.eqb hl 0); [apply wp_ret; reflexivity|].
  apply wp_try_except.
  eapply (wp_keeps (fun _ _ => True)); [intros ?; exact I|].
  intros [[]|] s1 _; [reflexivity | apply wp_ret; reflexivity].
Qed.

End Latch.

(** ** Which handler gets a fill *)

Section Classified.

Context {W : Type}.
Variable oracle : forall A : Type, Call A -> W -> Res A * W.
Variable cfg : Config.

Ltac quiet :=
  repeat keeps_step oracle (@no_dispatch_refl W) (@no_dispatch_trans W)
    ltac:(intros; split; simpl; [ try reflexivity; set_solver | reflexivity ]).

Lemma hands_to_then_quiet h record (a b c : Sys W) :
  hands_to h record a b -> no_dispatch b c -> hands_to h record a c.
Proof. unfold hands_to. intros H [_ H2]. rewrite H2. exact H. Qed.

Lemma quiet_then_hands_to h record (a b c : Sys W) :
  no_dispatch a b -> hands_to h record b c -> hands_to h record a c.
Proof. unfold hands_to. intros [_ H1] H2. rewrite H2, H1. reflexivity. Qed.

Lemma hands_to_bind {A B} h record (m : M W A) (k : A -> M W B) (s : Sys W) :
  hands_to h record s (snd (m s)) -> (forall a, keeps no_dispatch (k a)) ->
  hands_to h record s (snd (bind m k s)).
Proof.
  intros Hm Hk. unfold bind. pose proof Hk as Hk'.
  destruct (m s) as [[a|] s1]; simpl in *; [|exact Hm].
  eapply hands_to_then_quiet; [exact Hm | apply Hk].
Qed.

Lemma hands_to_not_quiet h record (s s' : Sys W) :
  hands_to h record s s' -> dispatches (trace s') <> dispatches (trace s).
Proof.
  unfold hands_to. intros H Heq. rewrite Heq in H.
  apply (f_equal (@List.length _)) in H. simpl in H. lia.
Qed.

Lemma run_reverse_signal_hands record signal (s : Sys W) :
  hands_to HReverse record s (snd (run_reverse_signal oracle cfg record signal s)).
Proof.
  unfold run_reverse_signal.
  apply hands_to_bind; [reflexivity|]. intros _.
  unfold clear_closed_symbol, mark_synced_fill. quiet.
Qed.

Lemma call_open_position_hands record symbol side is_twap oid (s : Sys W) :
  fst (twap_order_of oracle oid s) <> Raise ->
  hands_to HOpen record s (snd (call_open_position oracle cfg record symbol side is_twap oid s)).
Proof.
  intros Hret. unfold call_open_position, bind at 1.
  pose proof (nd_twap_order_of oracle oid s) as Hq.
  destruct (twap_order_of oracle oid s) as [[order|] s1]; simpl in *; [|congruence].
  eapply quiet_then_hands_to; [exact Hq|].
  apply hands_to_bind; [reflexivity|]. intros _.
  apply nd_handle_open_position.
Qed.

Lemma call_open_position_lost record symbol side is_twap oid (s : Sys W) :
  fst (twap_order_of oracle oid s) = Raise ->
  no_dispatch s (snd (call_open_position oracle cfg record symbol side is_twap oid s)).
Proof.
  intros Hret. unfold call_open_position, bind at 1.
  pose proof (nd_twap_order_of oracle oid s) as Hq.
  destruct (twap_order_of oracle oid s) as [[order|] s1]; simpl in *; [discriminate|].
  exact Hq.
Qed.

(** The reverse-flip branch, by the answer of the reverse handler. *)
Lemma dispatch_flip record symbol is_twap oid new_side (s : Sys W) :
  Py.contains ">" (r_direction record) = true ->
  reverse_new_side (r_direction record) = Some new_side ->
  (forall signal w1,
      oracle _ (DetectReverseSignal symbol (r_direction record) new_side
                  (r_size record) (r_price record)) (world s)
      = (Ret (Some signal), w1) ->
      hands_to HReverse record s
        (snd (sync_fill_dispatch oracle cfg record symbol is_twap oid s)))
  /\ (forall w1,
         oracle _ (DetectReverseSignal symbol (r_direction record) new_side
                     (r_size record) (r_price record)) (world s)
         = (Ret None, w1) ->
         (fst (twap_order_of oracle oid
                 (after_call (DetectReverseSignal symbol (r_direction record) new_side
                                (r_size record) (r_price record)) w1 s)) <> Raise ->
          hands_to HOpen record s
            (snd (sync_fill_dispatch oracle cfg record symbol is_twap oid s)))
         /\ (fst (twap_order_of oracle oid
                    (after_call (DetectReverseSignal symbol (r_direction record) new_side
                                   (r_size record) (r_price record)) w1 s)) = Raise ->
             dispatches (trace (snd (sync_fill_dispatch oracle cfg record symbol is_twap oid s)))
             = dispatches (trace s)))
  /\ (forall w1,
         oracle _ (DetectReverseSignal symbol (r_direction record) new_side
                     (r_size record) (r_price record)) (world s)
         = (Raise, w1) ->
         dispatches (trace (snd (sync_fill_dispatch oracle cfg record symbol is_twap oid s)))
         = dispatches (trace s)).
Proof.
  intros Hgt Hside. unfold sync_fill_dispatch. rewrite Hgt, Hside.
  set (call := DetectReverseSignal symbol (r_direction record) new_side
                 (r_size record) (r_price record)).
  assert (Hcall : forall w1, no_dispatch s (after_call call w1 s))
    by (intros w1; split; reflexivity).
  split; [|split].
  - intros signal w1 Hanswer. unfold bind at 1, ext at 1. rewrite Hanswer.
    change {| eng := eng s; world := w1; trace := EvCall call :: trace s |}
      with (after_call call w1 s).
    eapply quiet_then_hands_to; [apply Hcall|].
    apply hands_to_bind; [apply run_reverse_signal_hands|]. intros _. quiet.
  - intros w1 Hanswer.
    split; intros Htwap; unfold bind at 1, ext at 1; rewrite Hanswer;
      change {| eng := eng s; world := w1; trace := EvCall call :: trace s |}
        with (after_call call w1 s).
    + eapply quiet_then_hands_to; [apply Hcall|].
      apply hands_to_bind; [apply call_open_position_hands; exact Htwap|].
      intros success. unfold clear_closed_symbol, mark_synced_fill. quiet.
    + pose proof (call_open_position_lost record symbol new_side is_twap oid _ Htwap) as Hl.
      assert (Hr : fst (call_open_position oracle cfg record symbol new_side is_twap oid
                          (after_call call w1 s)) = Raise).
      { unfold call_open_position, bind at 1.
        destruct (twap_order_of oracle oid (after_call call w1 s)) as [[order|] s1];
          simpl in *; [discriminate | reflexivity]. }
      unfold bind at 1.
      destruct (call_open_position oracle cfg record symbol new_side is_twap oid
                  (after_call call w1 s)) as [[success|] s1]; simpl in *; [discriminate|].
      apply (proj2 Hl).
  - intros w1 Hanswer. unfold bind at 1, ext at 1. rewrite Hanswer. reflexivity.
Qed.

Lemma dispatch_complete_close record symbol is_twap oid :
  is_complete_close (r_size record) (r_start_position record) = true ->
  Py.contains ">" (r_direction record) = false
  \/ reverse_new_side (r_direction record) = None ->
  sync_fill_dispatch oracle cfg record symbol is_twap oid
  = (emit (EvDispatch HForceCloseAll record) ;;
     _handle_force_close_all oracle cfg symbol (r_coin record) record ;;
     ret false).
Proof.
  intros Hcc Hdir. unfold sync_fill_dispatch.
  assert (Hfc : sync_fill_close_or_open oracle cfg record symbol is_twap oid
                = (emit (EvDispatch HForceCloseAll record) ;;
                   _handle_force_close_all oracle cfg symbol (r_coin record) record ;;
                   ret false)).
  { unfold sync_fill_close_or_open. rewrite Hcc. reflexivity. }
  destruct Hdir as [Hdir|Hdir]; rewrite Hdir.
  - exact Hfc.
  - destruct (Py.contains ">" (r_direction record)); exact Hfc.
Qed.

Lemma force_close_all_handed record symbol (s : Sys W) :
  hands_to HForceCloseAll record s
    (snd ((emit (EvDispatch HForceCloseAll record) ;;
           _handle_force_close_all oracle cfg symbol (r_coin record) record ;;
           ret false) s)).
Proof.
  apply hands_to_bind; [reflexivity|]. intros _.
  pose proof (nd_handle_force_close_all oracle cfg). quiet.
Qed.

(** Without the complete-close test the fill goes anywhere but to the full
    close. *)
Lemma close_or_open_not_complete record symbol is_twap oid :
  is_complete_close (r_size record) (r_start_position record) = false ->
  keeps (hands_over (fun h => negb (only HForceCloseAll h)) record)
    (sync_fill_close_or_open oracle cfg record symbol is_twap oid).
Proof.
  intros Hcc.
  assert (Hemit : forall h, negb (only HForceCloseAll h) = true ->
            keeps (hands_over (fun h => negb (only HForceCloseAll h)) record)
              (@emit W (EvDispatch h record))).
  { intros h Hh. eapply keeps_weaken; [|apply hand_emit].
    intros a b. apply hands_over_allow. intros h' Hh'.
    destruct h, h'; try discriminate; reflexivity. }
  assert (Hweak : forall h {A} (m : M W A), negb (only HForceCloseAll h) = true ->
            keeps (hands_over (only h) record) m ->
            keeps (hands_over (fun h => negb (only HForceCloseAll h)) record) m).
  { intros h A m Hh. apply keeps_weaken. intros a b. apply hands_over_allow.
    intros h' Hh'. destruct h, h'; try discriminate; reflexivity. }
  unfold sync_fill_close_or_open. rewrite Hcc.
  destruct (Py.Qneq_bool _ _).
  { apply keeps_hand_then; [apply Hemit; reflexivity | intros _].
    apply (keeps_bind _ (@no_dispatch_trans W)); [apply nd_handle_close_position|].
    intros; quiet. }
  destruct (_ || _).
  { apply keeps_hand_then; [apply Hemit; reflexivity | intros _].
    apply (keeps_bind _ (@no_dispatch_trans W)); [apply nd_handle_reduce_position|].
    intros; quiet. }
  destruct (Py.contains _ _); [|apply hand_ret].
  unfold sync_fill_open.
  apply keeps_then_hand; [quiet | intros [signal|]].
  - apply keeps_hand_then; [|intros; quiet].
    apply (Hweak HReverse); [reflexivity | apply hand_run_reverse_signal].
  - apply keeps_hand_then; [|intros; unfold clear_closed_symbol; quiet].
    apply (Hweak HOpen); [reflexivity | apply hand_call_open_position].
Qed.

(** Apart from a reverse flip, the fill is handed to the full close exactly
    when the complete-close test holds. *)
Lemma dispatch_complete_close_iff record symbol is_twap oid (s : Sys W) :
  Py.contains ">" (r_direction record) = false
  \/ reverse_new_side (r_direction record) = None ->
  hands_to HForceCloseAll record s
    (snd (sync_fill_dispatch oracle cfg record symbol is_twap oid s))
  <-> is_complete_close (r_size record) (r_start_position record) = true.
Proof.
  intros Hdir. split.
  - intros Hh.
    destruct (is_complete_close (r_size record) (r_start_position record)) eqn:Hcc;
      [reflexivity|]. exfalso.
    assert (Hd : sync_fill_dispatch oracle cfg record symbol is_twap oid
                 = sync_fill_close_or_open oracle cfg record symbol is_twap oid).
    { unfold sync_fill_dispatch. destruct Hdir as [Hdir|Hdir]; rewrite Hdir;
        [reflexivity | destruct (Py.contains ">" (r_direction record)); reflexivity]. }
    rewrite Hd in Hh.
    destruct (close_or_open_not_complete record symbol is_twap oid Hcc s)
      as [_ [Hsame|(h & Hallowed & Hadd)]].
    + apply (hands_to_not_quiet _ _ _ _ Hh). exact Hsame.
    + unfold hands_to in Hh. rewrite Hadd in Hh. injection Hh as ->. discriminate.
  - intros Hcc. rewrite (dispatch_complete_close record symbol is_twap oid Hcc Hdir).
    apply force_close_all_handed.
Qed.

End Classified.

(** ** The close handler, round by round *)

Section Rounds.

Context {W : Type}.
Variable oracle : forall A : Type, Call A -> W -> Res A * W.
Variable cfg : Config.

Ltac no_close :=
  let Hrefl := uconstr:(@closes_refl W) in
  let Htrans := uconstr:(@closes_trans W) in
  repeat keeps_step oracle Hrefl Htrans ltac:(intros; reflexivity).

Lemma keeps_both {A} (R1 R2 : Sys W -> Sys W -> Prop) (m : M W A) :
  keeps R1 m -> keeps R2 m -> keeps (fun a b => R1 a b /\ R2 a b) m.
Proof. intros H1 H2 s. split; [apply H1 | apply H2]. Qed.

(** What follows a confirmed partial close: no further close request, and
    the memo of kind [forced] if the close was a forced full close and the
    clock answers. *)
Lemma close_on_success_partial coin size p forced min_qty closed (s2 : Sys W) :
  wp (close_on_success oracle cfg coin size p false forced min_qty closed)
     (fun _ s3 =>
        closes [] s2 s3
        /\ ((eng s3 = eng s2
             /\ (forced = true ->
                 (forall w, exists now w', oracle _ Now w = (Ret now, w')) -> False))
            \/ (forced = true
                /\ exists now,
                     eng s3
                     = set_forced_liquidations
                         (insert (pos_key_of (p_symbol p) (p_side p))
                            {| m_time := now; m_type := Forced;
                               m_fields := [("original_close_size"%string, size);
                                            ("min_qty"%string, min_qty);
                                            ("actual_size"%string, closed)] |})
                         (eng s2)))) s2.
Proof.
  unfold close_on_success.
  match goal with |- wp _ ?Q _ => set (Post := Q) end.
  assert (Hrest : forall s3 : Sys W,
             closes [] s2 s3 -> eng s3 = eng s2 ->
             wp (when forced
                   (now <- ext oracle Now ;;
                    modify (set_forced_liquidations
                              (insert (pos_key_of (p_symbol p) (p_side p))
                                 {| m_time := now; m_type := Forced;
                                    m_fields := [("original_close_size"%string, size);
                                                 ("min_qty"%string, min_qty);
                                                 ("actual_size"%string, closed)] |}))) ;;
                 when (cfg_feishu_notifier cfg)
                   (ext oracle
                      (SendNotification
                         (if forced then NoticeReduceAsFullClose
                          else if false then NoticeFullCloseOk else NoticeReduceOk)
                         NtSuccess (p_symbol p) (p_side p))) ;;
                 when (false || forced)
                   (when (negb forced)
                      (now <- ext oracle Now ;;
                       modify (set_forced_liquidations
                                 (insert (pos_key_of (p_symbol p) (p_side p))
                                    {| m_time := now; m_type := Follow;
                                       m_fields := [("size"%string, closed)] |}))) ;;
                    when (cfg_position_closed_callback cfg)
                      (try_except
                         (ext oracle (PositionClosedCallback (p_symbol p) (p_side p)))
                         (ret tt))))
                Post s3).
  { intros s3 Hc He. destruct forced; cbn [when orb negb].
    - apply wp_bind, wp_bind, wp_ext_case. intros [now|] w4 Enow.
      + apply wp_modify. cbv beta iota.
        eapply wp_keeps; [apply keeps_both; [ot oracle | no_close]|].
        intros r s' [[He' _] Hc']. split.
        * eapply closes_trans; [exact Hc|]. eapply closes_trans; [|exact Hc']. reflexivity.
        * right. split; [reflexivity|]. exists now. rewrite He'. simpl. rewrite He.
          reflexivity.
      + split.
        * eapply closes_trans; [exact Hc|]. reflexivity.
        * left. split; [exact He|]. intros _ Hnow.
          destruct (Hnow (world s3)) as (now & w' & Eq). rewrite Eq in Enow. discriminate.
    - eapply wp_keeps; [apply keeps_both; [ot oracle | no_close]|].
      intros r s' [[He' _] Hc']. split.
      + eapply closes_trans; eassumption.
      + left. split; [congruence | discriminate]. }
  apply wp_bind, wp_try_except, wp_bind, wp_ext. intros rx w3.
  destruct rx as [executions|]; cbv beta iota.
  - apply wp_ret. cbv beta iota. apply Hrest; reflexivity.
  - apply wp_ret. cbv beta iota. apply Hrest; reflexivity.
Qed.

(** One round of the loop of a partial close: one request, for the
    quantity that the minimum lot allows; the manager's collections change
    by the memo of a forced full close at most. *)
Lemma close_one_partial_spec coin size min_qty count p (s0 : Sys W) :
  fst (_get_min_order_qty oracle coin s0) = Ret min_qty ->
  wp (close_one oracle cfg coin size false count p)
    (fun r s1 =>
       (exists count', r = Ret count')
       /\ closes [(p, CloseQty (fst (partial_close_size size (p_size p) min_qty)))] s0 s1
       /\ (eng s1 = eng s0
           \/ (snd (partial_close_size size (p_size p) min_qty) = true
               /\ exists memo,
                    forced_memo_of size min_qty memo
                    /\ eng s1
                       = set_forced_liquidations
                           (insert (pos_key_of (p_symbol p) (p_side p)) memo) (eng s0)))
       /\ ((forall q w, exists closed pnl ec w',
               oracle _ (ClosePosition p (CloseQty q)) w
               = (Ret (Close4 true closed pnl ec), w') /\ 0 < closed) ->
           (forall w, exists now w', oracle _ Now w = (Ret now, w')) ->
           snd (partial_close_size size (p_size p) min_qty) = true ->
           exists memo,
             forced_memo_of size min_qty memo
             /\ eng s1
                = set_forced_liquidations
                    (insert (pos_key_of (p_symbol p) (p_side p)) memo) (eng s0))) s0.
Proof.
  intros Hmin.
  destruct (get_min_order_qty_returns oracle coin s0) as (m & w1 & E).
  rewrite E in Hmin. simpl in Hmin. injection Hmin as ->.
  match goal with |- wp _ ?Q _ => set (Post := Q) end.
  unfold close_one. apply wp_bind, wp_attempt. unfold close_request.
  apply wp_bind. unfold wp at 1. rewrite E. cbn [fst snd]. cbv zeta.
  apply wp_bind, wp_ext_case. intros reply w2 Ereply. simpl in Ereply.
  set (q := fst (partial_close_size size (p_size p) min_qty)) in *.
  set (forced := snd (partial_close_size size (p_size p) min_qty)) in *.
  set (s2 := after_call (ClosePosition p (CloseQty q)) w2
               (after_call (PairMinQty coin) w1 s0)).
  assert (H02 : closes [(p, CloseQty q)] s0 s2) by reflexivity.
  assert (Hsame : forall (c : nat) (s3 : Sys W),
             closes [] s2 s3 -> eng s3 = eng s0 ->
             ((forall q w, exists closed pnl ec w',
                  oracle _ (ClosePosition p (CloseQty q)) w
                  = (Ret (Close4 true closed pnl ec), w') /\ 0 < closed) ->
              (forall w, exists now w', oracle _ Now w = (Ret now, w')) ->
              forced = true -> False) ->
             Post (Ret c) s3).
  { intros c s3 Hc He Hno. split; [eauto|]. split.
    - exact (closes_then_none _ s0 s2 s3 H02 Hc).
    - split; [left; exact He|]. intros H1 H2 H3. destruct (Hno H1 H2 H3). }
  destruct reply as [[success closed pnl|success closed pnl ec]|].
  - apply wp_bind. cbn [unpack4]. apply wp_raise. cbv beta iota. apply wp_ret.
    apply Hsame; [reflexivity | reflexivity |]. intros Hc _ _.
    destruct (Hc q w1) as (c' & pnl' & ec' & w' & Eq & _). rewrite Eq in Ereply.
    discriminate.
  - apply wp_bind. cbn [unpack4]. apply wp_ret. cbv beta iota. apply wp_ret.
    cbv beta iota.
    destruct (success && Py.Qlt_bool 0 closed) eqn:Esucc.
    + apply andb_true_iff in Esucc as [-> Hclosed]. apply Qlt_bool_iff in Hclosed.
      apply wp_bind, wp_attempt.
      eapply wp_mono; [apply close_on_success_partial|].
      intros r s3 [Hc Hcase]. apply wp_ret.
      destruct Hcase as [[He Hno]|[Hf [now He]]].
      * apply Hsame; [exact Hc | exact He |]. intros _ Hnow Hforced.
        apply Hno; assumption.
      * split; [eauto|]. split; [exact (closes_then_none _ s0 s2 s3 H02 Hc)|].
        assert (Hmemo : exists memo,
                   forced_memo_of size min_qty memo
                   /\ eng s3
                      = set_forced_liquidations
                          (insert (pos_key_of (p_symbol p) (p_side p)) memo) (eng s0)).
        { eexists. split; [exists now, closed; split; [exact Hclosed | reflexivity]|].
          exact He. }
        split; [right; split; [exact Hf | exact Hmemo] | intros _ _ _; exact Hmemo].
    + assert (Hno : (forall q w, exists closed pnl ec w',
                        oracle _ (ClosePosition p (CloseQty q)) w
                        = (Ret (Close4 true closed pnl ec), w') /\ 0 < closed) ->
                    (forall w, exists now w', oracle _ Now w = (Ret now, w')) ->
                    forced = true -> False).
      { intros Hc _ _.
        destruct (Hc q w1) as (c' & pnl' & ec' & w' & Eq & Hpos). rewrite Eq in Ereply.
        injection Ereply as <- <- _ _ _.
        apply Qlt_bool_iff in Hpos. rewrite Hpos in Esucc. discriminate. }
      apply wp_bind, wp_attempt.
      eapply wp_keeps.
      { apply keeps_both; [unfold verify_position_is_zero; ot oracle
                          | unfold verify_position_is_zero; no_close]. }
      intros r s3 [[He _] Hc].
      destruct r as [should|]; cbv beta iota.
      * apply wp_bind, wp_attempt.
        eapply wp_keeps; [apply keeps_both; [ot oracle | no_close]|].
        intros r' s4 [[He' _] Hc']. apply wp_ret.
        apply Hsame; [eapply closes_trans; eassumption | rewrite He', He; reflexivity
                     | exact Hno].
      * apply wp_ret. apply Hsame; [exact Hc | exact He | exact Hno].
  - apply wp_ret.
    apply Hsame; [reflexivity | reflexivity |]. intros Hc _ _.
    destruct (Hc q w1) as (c' & pnl' & ec' & w' & Eq & _). rewrite Eq in Ereply.
    discriminate.
Qed.

(** One round of the loop of a full close asks for the whole position,
    once. *)
Lemma close_one_full_closes coin size count p :
  keeps (closes [(p, CloseAll)]) (close_one oracle cfg coin size true count p).
Proof.
  unfold close_one.
  apply (keeps_bind_gen (closes [(p, CloseAll)]) (closes []) _).
  - apply closes_then_none.
  - auto.
  - apply keeps_attempt. unfold close_request.
    apply (keeps_bind_gen (closes [(p, CloseAll)]) (closes []) _).
    + apply closes_then_none.
    + auto.
    + apply keeps_ext. intros; reflexivity.
    + intros reply. unfold unpack4. no_close.
  - intros requested. unfold close_on_success, verify_position_is_zero. no_close.
Qed.

Lemma close_one_returns coin size full count p (s : Sys W) :
  exists count', fst (close_one oracle cfg coin size full count p s) = Ret count'.
Proof.
  unfold close_one.
  apply (wp_bind _ _ (fun r _ => exists count', r = Ret count')), wp_attempt.
  eapply (wp_keeps (fun _ _ => True)); [intros ?; exact I|].
  intros r s1 _.
  destruct r as [[[forced min_qty] [[[success closed_size] pnl] error_code]]|];
    [|apply wp_ret; eauto].
  destruct (success && Py.Qlt_bool 0 closed_size).
  - apply wp_bind, wp_attempt.
    eapply (wp_keeps (fun _ _ => True)); [intros ?; exact I|].
    intros r2 s2 _. apply wp_ret. eauto.
  - apply wp_bind, wp_attempt.
    eapply (wp_keeps (fun _ _ => True)); [intros ?; exact I|].
    intros [should|] s2 _; [|apply wp_ret; eauto].
    apply wp_bind, wp_attempt.
    eapply (wp_keeps (fun _ _ => True)); [intros ?; exact I|].
    intros r3 s3 _. apply wp_ret. eauto.
Qed.

End Rounds.

(** ** The close handlers, position by position *)

Section CloseLoop.

Context {W : Type}.
Variable oracle : forall A : Type, Call A -> W -> Res A * W.
Variable cfg : Config.

Ltac no_close :=
  let Hrefl := uconstr:(@closes_refl W) in
  let Htrans := uconstr:(@closes_trans W) in
  repeat keeps_step oracle Hrefl Htrans ltac:(intros; reflexivity).

Lemma forced_memos_refl size min_qty positions e : forced_memos size min_qty positions e e.
Proof. repeat split; auto. Qed.

Lemma forced_memos_trans size min_qty positions a b c :
  forced_memos size min_qty positions a b -> forced_memos size min_qty positions b c ->
  forced_memos size min_qty positions a c.
Proof.
  intros (A1 & A2 & A3 & A4 & A5 & A6 & A7) (B1 & B2 & B3 & B4 & B5 & B6 & B7).
  repeat split; try congruence.
  intros k. destruct (B7 k) as [Hk|Hk]; [|right; exact Hk].
  rewrite Hk. apply A7.
Qed.

Lemma forced_memos_insert size min_qty positions p memo e :
  In p positions ->
  snd (partial_close_size size (p_size p) min_qty) = true ->
  forced_memo_of size min_qty memo ->
  forced_memos size min_qty positions e
    (set_forced_liquidations (insert (pos_key_of (p_symbol p) (p_side p)) memo) e).
Proof.
  intros Hin Hforced Hmemo. repeat split. intros k. simpl.
  destruct (decide (k = pos_key_of (p_symbol p) (p_side p))) as [->|Hne].
  - right. split; [exists p; auto|]. exists memo. rewrite lookup_insert_eq. auto.
  - left. apply lookup_insert_ne. congruence.
Qed.

Lemma forced_memos_keeps size min_qty positions e e' k :
  forced_memos size min_qty positions e e' ->
  (exists memo, forced_liquidations e !! k = Some memo /\ forced_memo_of size min_qty memo) ->
  exists memo, forced_liquidations e' !! k = Some memo /\ forced_memo_of size min_qty memo.
Proof.
  intros (_ & _ & _ & _ & _ & _ & H) Hk.
  destruct (H k) as [Heq|[_ Hnew]]; [rewrite Heq; exact Hk | exact Hnew].
Qed.

Lemma for_each_returns {A} (body : nat -> A -> M W nat) :
  (forall n x s, exists n', fst (body n x s) = Ret n') ->
  forall items n s, exists n', fst (for_each body n items s) = Ret n'.
Proof.
  intros Hbody. induction items as [|x rest IH]; intros n s; simpl; [eauto|].
  unfold bind. destruct (Hbody n x s) as [n1 Hr].
  destruct (body n x s) as [r s1]. simpl in Hr. subst r. apply IH.
Qed.

(** The loop of a partial close, under a minimum lot that does not change:
    the requests, what becomes of the memos, and the memo of every position
    whose close was forced to be a full close when the venue confirms the
    closes and the clock answers. *)
Lemma partial_loop coin size min_qty positions :
  (forall s : Sys W, fst (_get_min_order_qty oracle coin s) = Ret min_qty) ->
  forall items, (forall p, In p items -> In p positions) ->
  forall n (s : Sys W),
    closes (map (fun p => (p, CloseQty (fst (partial_close_size size (p_size p) min_qty))))
              items)
      s (snd (for_each (close_one oracle cfg coin size false) n items s))
    /\ forced_memos size min_qty positions (eng s)
         (eng (snd (for_each (close_one oracle cfg coin size false) n items s)))
    /\ ((forall p q w, exists closed pnl ec w',
            oracle _ (ClosePosition p (CloseQty q)) w
            = (Ret (Close4 true closed pnl ec), w') /\ 0 < closed) ->
        (forall w, exists now w', oracle _ Now w = (Ret now, w')) ->
        forall p, In p items ->
          snd (partial_close_size size (p_size p) min_qty) = true ->
          exists memo,
            forced_liquidations
              (eng (snd (for_each (close_one oracle cfg coin size false) n items s)))
            !! pos_key_of (p_symbol p) (p_side p) = Some memo
            /\ forced_memo_of size min_qty memo).
Proof.
  intros Hmin. induction items as [|x rest IH]; intros Hsub n s.
  - simpl. split; [apply closes_refl|]. split; [apply forced_memos_refl|].
    intros _ _ p [].
  - simpl. unfold bind.
    pose proof (close_one_partial_spec oracle cfg coin size min_qty n x s (Hmin s)) as Hx.
    unfold wp in Hx.
    destruct (close_one oracle cfg coin size false n x s) as [r s1]. simpl in Hx.
    destruct Hx as ([n1 ->] & Hc & Hm & Hfull).
    destruct (IH (fun p H => Hsub p (or_intror H)) n1 s1) as (Hc' & Hm' & Hfull').
    set (s2 := snd (for_each (close_one oracle cfg coin size false) n1 rest s1)) in *.
    assert (Hstep : forced_memos size min_qty positions (eng s) (eng s1)).
    { destruct Hm as [->|(Hf & memo & Hmemo & ->)]; [apply forced_memos_refl|].
      apply forced_memos_insert; [apply Hsub; left; reflexivity | exact Hf | exact Hmemo]. }
    split; [|split].
    + change ((x, ?h) :: ?l) with ([(x, h)] ++ l). eapply closes_app; eassumption.
    + eapply forced_memos_trans; eassumption.
    + intros Hconfirm Hnow p [<-|Hin] Hf.
      * eapply forced_memos_keeps; [exact Hm'|].
        destruct (Hfull (Hconfirm x) Hnow Hf) as (memo & Hmemo & ->).
        exists memo. simpl. rewrite lookup_insert_eq. auto.
      * apply (Hfull' Hconfirm Hnow p Hin Hf).
Qed.

(** The same loop whatever the minimum lot answered in each round: one
    request with a quantity for each position. *)
Lemma partial_loop_quantities coin size items :
  forall n (s : Sys W),
  exists quantities,
    List.length quantities = List.length items
    /\ closes (combine items (map CloseQty quantities))
         s (snd (for_each (close_one oracle cfg coin size false) n items s)).
Proof.
  induction items as [|x rest IH]; intros n s.
  - exists []. split; [reflexivity | apply closes_refl].
  - simpl. unfold bind.
    destruct (get_min_order_qty_returns oracle coin s) as (m & w1 & E).
    assert (Hmin : fst (_get_min_order_qty oracle coin s) = Ret m) by (rewrite E; reflexivity).
    pose proof (close_one_partial_spec oracle cfg coin size m n x s Hmin) as Hx.
    unfold wp in Hx.
    destruct (close_one oracle cfg coin size false n x s) as [r s1]. simpl in Hx.
    destruct Hx as ([n1 ->] & Hc & _).
    destruct (IH n1 s1) as (qs & Hlen & Hc').
    exists (fst (partial_close_size size (p_size x) m) :: qs). split.
    + simpl. rewrite Hlen. reflexivity.
    + simpl. change ((x, ?h) :: ?l) with ([(x, h)] ++ l). eapply closes_app; eassumption.
Qed.

(** With the positions the venue lists, the handler is its loop over the
    open positions of the coin. *)
Lemma close_body_run symbol side size price record positions w1 (s : Sys W) :
  oracle _ (QueryPositions None) (world s) = (Ret positions, w1) ->
  snd (_handle_close_position_body oracle cfg symbol side size price record s)
  = snd (for_each (close_one oracle cfg (Py.remove_all "USDT" symbol) size
                     (is_full_close_hl size (r_start_position record)))
           O (coin_positions_of (Py.remove_all "USDT" symbol) positions)
           (after_call (QueryPositions None) w1 s)).
Proof.
  intros Hq. unfold _handle_close_position_body, try_except. cbv zeta.
  unfold bind at 1, ext at 1. rewrite Hq.
  change {| eng := eng s; world := w1; trace := EvCall (QueryPositions None) :: trace s |}
    with (after_call (QueryPositions None) w1 s).
  destruct positions as [|p0 rest]; [reflexivity|].
  destruct (coin_positions_of (Py.remove_all "USDT" symbol) (p0 :: rest)) as [|c0 crest];
    [reflexivity|].
  destruct (for_each_returns
              (close_one oracle cfg (Py.remove_all "USDT" symbol) size
                 (is_full_close_hl size (r_start_position record)))
              (fun n x s0 => close_one_returns oracle cfg _ size _ n x s0)
              (c0 :: crest) O (after_call (QueryPositions None) w1 s)) as [n' Hr].
  destruct (for_each _ 0%nat (c0 :: crest) (after_call (QueryPositions None) w1 s))
    as [r s']. simpl in Hr. subst r. reflexivity.
Qed.

Lemma close_body_full_closes symbol side size price record positions w1 (s : Sys W) :
  is_full_close_hl size (r_start_position record) = true ->
  oracle _ (QueryPositions None) (world s) = (Ret positions, w1) ->
  closes (map (fun p => (p, CloseAll))
            (coin_positions_of (Py.remove_all "USDT" symbol) positions))
    s (snd (_handle_close_position_body oracle cfg symbol side size price record s)).
Proof.
  intros Hfull Hq. rewrite (close_body_run symbol side size price record positions w1 s Hq).
  rewrite Hfull.
  eapply closes_none_then; [|apply for_each_closes].
  - reflexivity.
  - intros n p s0. split; [apply close_one_full_closes | apply close_one_returns].
Qed.

Lemma close_body_partial_quantities symbol side size price record positions w1 (s : Sys W) :
  is_full_close_hl size (r_start_position record) = false ->
  oracle _ (QueryPositions None) (world s) = (Ret positions, w1) ->
  exists quantities,
    List.length quantities
    = List.length (coin_positions_of (Py.remove_all "USDT" symbol) positions)
    /\ closes (combine (coin_positions_of (Py.remove_all "USDT" symbol) positions)
                 (map CloseQty quantities))
         s (snd (_handle_close_position_body oracle cfg symbol side size price record s)).
Proof.
  intros Hfull Hq. rewrite (close_body_run symbol side size price record positions w1 s Hq).
  rewrite Hfull.
  destruct (partial_loop_quantities (Py.remove_all "USDT" symbol) size
              (coin_positions_of (Py.remove_all "USDT" symbol) positions) O
              (after_call (QueryPositions None) w1 s)) as (qs & Hlen & Hc).
  exists qs. split; [exact Hlen|].
  eapply closes_none_then; [|exact Hc]. reflexivity.
Qed.

Lemma close_body_partial symbol side size price record positions w1 min_qty (s : Sys W) :
  is_full_close_hl size (r_start_position record) = false ->
  oracle _ (QueryPositions None) (world s) = (Ret positions, w1) ->
  (forall s0 : Sys W,
      fst (_get_min_order_qty oracle (Py.remove_all "USDT" symbol) s0) = Ret min_qty) ->
  closes (map (fun p => (p, CloseQty (fst (partial_close_size size (p_size p) min_qty))))
            (coin_positions_of (Py.remove_all "USDT" symbol) positions))
    s (snd (_handle_close_position_body oracle cfg symbol side size price record s))
  /\ forced_memos size min_qty (coin_positions_of (Py.remove_all "USDT" symbol) positions)
       (eng s)
       (eng (snd (_handle_close_position_body oracle cfg symbol side size price record s)))
  /\ ((forall p q w, exists closed pnl ec w',
          oracle _ (ClosePosition p (CloseQty q)) w
          = (Ret (Close4 true closed pnl ec), w') /\ 0 < closed) ->
      (forall w, exists now w', oracle _ Now w = (Ret now, w')) ->
      forall p, In p (coin_positions_of (Py.remove_all "USDT" symbol) positions) ->
        snd (partial_close_size size (p_size p) min_qty) = true ->
        exists memo,
          forced_liquidations
            (eng (snd (_handle_close_position_body oracle cfg symbol side size price
                         record s)))
          !! pos_key_of (p_symbol p) (p_side p) = Some memo
          /\ forced_memo_of size min_qty memo).
Proof.
  intros Hfull Hq Hmin.
  rewrite (close_body_run symbol side size price record positions w1 s Hq). rewrite Hfull.
  destruct (partial_loop (Py.remove_all "USDT" symbol) size min_qty
              (coin_positions_of (Py.remove_all "USDT" symbol) positions) Hmin
              (coin_positions_of (Py.remove_all "USDT" symbol) positions)
              (fun p H => H) O (after_call (QueryPositions None) w1 s))
    as (Hc & Hm & Hfullmemo).
  split; [|split].
  - eapply closes_none_then; [|exact Hc]. reflexivity.
  - exact Hm.
  - exact Hfullmemo.
Qed.

(** The reduce handler asks for every open position of the coin whole. *)
Lemma reduce_one_closes min_qty count p :
  keeps (closes [(p, CloseAll)]) (reduce_one oracle cfg min_qty count p).
Proof.
  unfold reduce_one.
  apply (keeps_bind_gen (closes [(p, CloseAll)]) (closes []) _).
  - apply closes_then_none.
  - auto.
  - apply keeps_attempt.
    apply (keeps_bind_gen (closes [(p, CloseAll)]) (closes []) _).
    + apply closes_then_none.
    + auto.
    + apply keeps_ext. intros; reflexivity.
    + intros reply. unfold unpack3. no_close.
  - intros requested. no_close.
Qed.

Lemma reduce_one_returns min_qty count p (s : Sys W) :
  exists count', fst (reduce_one oracle cfg min_qty count p s) = Ret count'.
Proof.
  unfold reduce_one.
  apply (wp_bind _ _ (fun r _ => exists count', r = Ret count')), wp_attempt.
  eapply (wp_keeps (fun _ _ => True)); [intros ?; exact I|].
  intros r s1 _.
  destruct r as [[[success closed_size] pnl]|]; [|apply wp_ret; eauto].
  destruct (success && Py.Qlt_bool 0 closed_size); [|apply wp_ret; eauto].
  apply wp_bind, wp_attempt.
  eapply (wp_keeps (fun _ _ => True)); [intros ?; exact I|].
  intros r2 s2 _. apply wp_ret. eauto.
Qed.

Lemma reduce_position_closes symbol coin record positions w1 (s : Sys W) :
  coin ∉ closed_symbols (eng s) ->
  oracle _ (QueryPositions None) (world s) = (Ret positions, w1) ->
  closes (map (fun p => (p, CloseAll)) (coin_positions_of coin positions))
    s (snd (_handle_reduce_position oracle cfg symbol coin record s)).
Proof.
  intros Hopen Hq.
  change (wp (_handle_reduce_position oracle cfg symbol coin record)
            (fun _ s' =>
               closes (map (fun p => (p, CloseAll)) (coin_positions_of coin positions))
                 s s') s).
  unfold _handle_reduce_position.
  apply wp_bind, wp_gets. rewrite bool_decide_eq_false_2 by exact Hopen.
  apply wp_try_except, wp_bind. eapply wp_ext_eq; [exact Hq|].
  set (s1 := after_call (QueryPositions None) w1 s).
  assert (H01 : closes [] s s1) by reflexivity.
  destruct positions as [|p0 rest]; [apply wp_ret; exact H01|].
  destruct (coin_positions_of coin (p0 :: rest)) as [|c0 crest]; [apply wp_ret; exact H01|].
  apply wp_bind.
  destruct (get_min_order_qty_returns oracle coin s1) as (m & w2 & E).
  unfold wp at 1. rewrite E. cbn [fst snd].
  set (s2 := after_call (PairMinQty coin) w2 s1).
  apply wp_bind.
  destruct (for_each_closes (reduce_one oracle cfg m) CloseAll
              (fun n position s0 =>
                 conj (reduce_one_closes m n position s0)
                      (reduce_one_returns m n position s0))
              (c0 :: crest) O s2) as [Hc [n' Hr]].
  unfold wp at 1. rewrite Hr.
  set (s3 := snd (for_each (reduce_one oracle cfg m) 0 (c0 :: crest) s2)) in *.
  clearbody s3.
  assert (H03 : closes (map (fun p => (p, CloseAll)) (c0 :: crest)) s s3).
  { eapply closes_none_then; [exact H01|]. eapply closes_none_then; [|exact Hc].
    reflexivity. }
  destruct (0 <? n')%nat.
  - apply wp_modify. exact H03.
  - eapply wp_keeps; [no_close|]. intros r s4 H4.
    destruct r; [eapply closes_then_none; [exact H03 | exact H4]|].
    eapply wp_keeps; [no_close|]. intros r5 s5 H5.
    eapply closes_then_none; [exact H03|]. eapply closes_trans; eassumption.
Qed.

End CloseLoop.

(** ** The reduce handler, position by position *)

Section ReduceLoop.

Context {W : Type}.
Variable oracle : forall A : Type, Call A -> W -> Res A * W.
Variable cfg : Config.

Ltac no_close :=
  let Hrefl := uconstr:(@closes_refl W) in
  let Htrans := uconstr:(@closes_trans W) in
  repeat keeps_step oracle Hrefl Htrans ltac:(intros; reflexivity).

Lemma reduce_memos_refl min_qty coin positions e : reduce_memos min_qty coin positions e e.
Proof. repeat split; auto. Qed.

Lemma reduce_memos_trans min_qty coin positions a b c :
  reduce_memos min_qty coin positions a b -> reduce_memos min_qty coin positions b c ->
  reduce_memos min_qty coin positions a c.
Proof.
  intros (A1 & A2 & A3 & A4 & A5 & A6 & A7) (B1 & B2 & B3 & B4 & B5 & B6 & B7).
  split; [rewrite B1; exact A1|]. split; [rewrite B2; exact A2|].
  split; [rewrite B3; exact A3|]. split; [rewrite B4; exact A4|].
  split; [rewrite B5; exact A5|]. split.
  - destruct B6 as [->| ->]; [exact A6|].
    right. destruct A6 as [->| ->]; [reflexivity|].
    apply set_eq. intros x. rewrite !elem_of_union. tauto.
  - intros k. destruct (B7 k) as [Hk|Hk]; [|right; exact Hk].
    rewrite Hk. apply A7.
Qed.

Lemma reduce_memos_insert min_qty coin positions p memo e :
  In p positions ->
  Py.Qlt_bool 0 min_qty && Qle_bool (p_size p) min_qty = true ->
  accidental_memo_of (p_size p) min_qty memo ->
  reduce_memos min_qty coin positions e
    (set_forced_liquidations (insert (pos_key_of (p_symbol p) (p_side p)) memo) e).
Proof.
  intros Hin Hacc Hmemo. repeat split; [left; reflexivity|]. intros k. simpl.
  destruct (decide (k = pos_key_of (p_symbol p) (p_side p))) as [->|Hne].
  - right. exists p, memo. rewrite lookup_insert_eq. auto.
  - left. apply lookup_insert_ne. congruence.
Qed.

Lemma reduce_memos_marked min_qty coin positions e :
  reduce_memos min_qty coin positions e (set_closed_symbols (union {[coin]}) e).
Proof. repeat split; auto. Qed.

Lemma reduce_memos_keeps min_qty coin positions e e' k :
  reduce_memos min_qty coin positions e e' ->
  (exists p memo,
      In p positions
      /\ Py.Qlt_bool 0 min_qty && Qle_bool (p_size p) min_qty = true
      /\ k = pos_key_of (p_symbol p) (p_side p)
      /\ forced_liquidations e !! k = Some memo
      /\ accidental_memo_of (p_size p) min_qty memo) ->
  exists p memo,
    In p positions
    /\ Py.Qlt_bool 0 min_qty && Qle_bool (p_size p) min_qty = true
    /\ k = pos_key_of (p_symbol p) (p_side p)
    /\ forced_liquidations e' !! k = Some memo
    /\ accidental_memo_of (p_size p) min_qty memo.
Proof.
  intros (_ & _ & _ & _ & _ & _ & H) Hk.
  destruct (H k) as [Heq|Hnew]; [rewrite Heq; exact Hk | exact Hnew].
Qed.

(** One round of the loop of the reduce handler. *)
Lemma reduce_one_spec min_qty count p (s0 : Sys W) :
  wp (reduce_one oracle cfg min_qty count p)
    (fun r s1 =>
       (exists count', r = Ret count')
       /\ closes [(p, CloseAll)] s0 s1
       /\ (eng s1 = eng s0
           \/ (Py.Qlt_bool 0 min_qty && Qle_bool (p_size p) min_qty = true
               /\ exists memo,
                    accidental_memo_of (p_size p) min_qty memo
                    /\ eng s1
                       = set_forced_liquidations
                           (insert (pos_key_of (p_symbol p) (p_side p)) memo) (eng s0)))
       /\ ((forall w, exists closed pnl w',
               oracle _ (ClosePosition p CloseAll) w = (Ret (Close3 true closed pnl), w')
               /\ 0 < closed) ->
           (forall w, exists now w', oracle _ Now w = (Ret now, w')) ->
           Py.Qlt_bool 0 min_qty && Qle_bool (p_size p) min_qty = true ->
           exists memo,
             accidental_memo_of (p_size p) min_qty memo
             /\ eng s1
                = set_forced_liquidations
                    (insert (pos_key_of (p_symbol p) (p_side p)) memo) (eng s0))) s0.
Proof.
  match goal with |- wp _ ?Q _ => set (Post := Q) end.
  unfold reduce_one. cbv zeta.
  apply wp_bind, wp_attempt, wp_bind, wp_ext_case. intros reply w1 Ereply.
  set (s1 := after_call (ClosePosition p CloseAll) w1 s0).
  assert (H01 : closes [(p, CloseAll)] s0 s1) by reflexivity.
  assert (Hsame : forall (c : nat) (s3 : Sys W),
             closes [] s1 s3 -> eng s3 = eng s0 ->
             ((forall w, exists closed pnl w',
                  oracle _ (ClosePosition p CloseAll) w = (Ret (Close3 true closed pnl), w')
                  /\ 0 < closed) ->
              (forall w, exists now w', oracle _ Now w = (Ret now, w')) ->
              Py.Qlt_bool 0 min_qty && Qle_bool (p_size p) min_qty = true -> False) ->
             Post (Ret c) s3).
  { intros c s3 Hc He Hno. split; [eauto|]. split.
    - exact (closes_then_none _ s0 s1 s3 H01 Hc).
    - split; [left; exact He|]. intros H1 H2 H3. destruct (Hno H1 H2 H3). }
  destruct reply as [[success closed pnl|success closed pnl ec]|].
  - cbn [unpack3]. apply wp_ret. cbv beta iota.
    destruct (success && Py.Qlt_bool 0 closed) eqn:Esucc.
    + apply andb_true_iff in Esucc as [-> Hclosed]. apply Qlt_bool_iff in Hclosed.
      apply wp_bind, wp_attempt.
      destruct (Py.Qlt_bool 0 min_qty && Qle_bool (p_size p) min_qty) eqn:Eacc; cbn [when].
      * apply wp_bind, wp_bind, wp_ext_case. intros [now|] w2 Enow.
        -- apply wp_modify. cbv beta iota.
           eapply wp_keeps; [apply keeps_both; [ot oracle | no_close]|].
           intros r s3 [[He _] Hc]. apply wp_ret.
           assert (Hmemo : exists memo,
                      accidental_memo_of (p_size p) min_qty memo
                      /\ eng s3
                         = set_forced_liquidations
                             (insert (pos_key_of (p_symbol p) (p_side p)) memo) (eng s0)).
           { eexists. split; [exists now, closed; split; [exact Hclosed | reflexivity]|].
             rewrite He. reflexivity. }
           split; [eauto|]. split.
           ++ eapply (closes_then_none _ s0 s1 s3 H01).
              eapply closes_trans; [|exact Hc]. reflexivity.
           ++ split; [right; split; [first [exact Eacc | reflexivity] | exact Hmemo] | intros _ _ _; exact Hmemo].
        -- apply wp_ret. apply Hsame; [reflexivity | reflexivity |].
           intros _ Hnow _. destruct (Hnow (world s1)) as (now & w' & Eq).
           rewrite Eq in Enow. discriminate.
      * eapply wp_keeps; [apply keeps_both; [ot oracle | no_close]|].
        intros r s3 [[He _] Hc]. apply wp_ret.
        apply Hsame; [exact Hc | exact He | intros _ _ H; congruence].
    + apply wp_ret. apply Hsame; [reflexivity | reflexivity |]. intros Hc _ _.
      destruct (Hc (world s0)) as (c' & pnl' & w' & Eq & Hpos). rewrite Eq in Ereply.
      injection Ereply as <- <- _ _.
      apply Qlt_bool_iff in Hpos. rewrite Hpos in Esucc. discriminate.
  - cbn [unpack3]. apply wp_raise. cbv beta iota. apply wp_ret.
    apply Hsame; [reflexivity | reflexivity |]. intros Hc _ _.
    destruct (Hc (world s0)) as (c' & pnl' & w' & Eq & _). rewrite Eq in Ereply.
    discriminate.
  - apply wp_ret.
    apply Hsame; [reflexivity | reflexivity |]. intros Hc _ _.
    destruct (Hc (world s0)) as (c' & pnl' & w' & Eq & _). rewrite Eq in Ereply.
    discriminate.
Qed.

Lemma reduce_loop min_qty coin positions :
  forall items, (forall p, In p items -> In p positions) ->
  forall n (s : Sys W),
    (exists n', fst (for_each (reduce_one oracle cfg min_qty) n items s) = Ret n')
    /\ reduce_memos min_qty coin positions (eng s)
         (eng (snd (for_each (reduce_one oracle cfg min_qty) n items s)))
    /\ closed_symbols (eng (snd (for_each (reduce_one oracle cfg min_qty) n items s)))
       = closed_symbols (eng s)
    /\ ((forall p w, exists closed pnl w',
            oracle _ (ClosePosition p CloseAll) w = (Ret (Close3 true closed pnl), w')
            /\ 0 < closed) ->
        (forall w, exists now w', oracle _ Now w = (Ret now, w')) ->
        forall p, In p items ->
          Py.Qlt_bool 0 min_qty && Qle_bool (p_size p) min_qty = true ->
          exists p' memo,
            In p' positions
            /\ Py.Qlt_bool 0 min_qty && Qle_bool (p_size p') min_qty = true
            /\ pos_key_of (p_symbol p) (p_side p) = pos_key_of (p_symbol p') (p_side p')
            /\ forced_liquidations
                 (eng (snd (for_each (reduce_one oracle cfg min_qty) n items s)))
               !! pos_key_of (p_symbol p) (p_side p) = Some memo
            /\ accidental_memo_of (p_size p') min_qty memo).
Proof.
  induction items as [|x rest IH]; intros Hsub n s.
  - simpl. split; [eauto|]. split; [apply reduce_memos_refl|]. split; [reflexivity|].
    intros _ _ p [].
  - simpl. unfold bind.
    pose proof (reduce_one_spec min_qty n x s) as Hx. unfold wp in Hx.
    destruct (reduce_one oracle cfg min_qty n x s) as [r s1]. simpl in Hx.
    destruct Hx as ([n1 ->] & _ & Hm & Hfull).
    destruct (IH (fun p H => Hsub p (or_intror H)) n1 s1) as (Hr' & Hm' & Hcs' & Hfull').
    set (s2 := snd (for_each (reduce_one oracle cfg min_qty) n1 rest s1)) in *.
    assert (Hstep : reduce_memos min_qty coin positions (eng s) (eng s1)).
    { destruct Hm as [->|(Hf & memo & Hmemo & ->)]; [apply reduce_memos_refl|].
      apply reduce_memos_insert; [apply Hsub; left; reflexivity | exact Hf | exact Hmemo]. }
    assert (Hcs : closed_symbols (eng s1) = closed_symbols (eng s)).
    { destruct Hm as [->|(Hf & memo & Hmemo & ->)]; reflexivity. }
    split; [exact Hr'|]. split; [eapply reduce_memos_trans; eassumption|].
    split; [congruence|].
    intros Hconfirm Hnow p [<-|Hin] Hf.
    + destruct (Hfull (Hconfirm x) Hnow Hf) as (memo & Hmemo & He).
      destruct (reduce_memos_keeps min_qty coin positions (eng s1) (eng s2)
                  (pos_key_of (p_symbol x) (p_side x)) Hm') as (p' & memo' & H1 & H2 & H3 & H4 & H5).
      { exists x, memo. split; [apply Hsub; left; reflexivity|]. split; [exact Hf|].
        split; [reflexivity|]. split; [|exact Hmemo].
        rewrite He. simpl. apply lookup_insert_eq. }
      exists p', memo'. auto.
    + apply (Hfull' Hconfirm Hnow p Hin Hf).
Qed.

(** The reduce handler as a whole: it asks the venue to close every open
    position of the coin whole; it changes the manager's collections by
    the mark of the coin and by memos of accidental full closes. *)
Lemma reduce_position_memos symbol coin record positions w1 min_qty (s : Sys W) :
  coin ∉ closed_symbols (eng s) ->
  oracle _ (QueryPositions None) (world s) = (Ret positions, w1) ->
  (forall s0 : Sys W, fst (_get_min_order_qty oracle coin s0) = Ret min_qty) ->
  reduce_memos min_qty coin (coin_positions_of coin positions) (eng s)
    (eng (snd (_handle_reduce_position oracle cfg symbol coin record s)))
  /\ ((forall p w, exists closed pnl w',
          oracle _ (ClosePosition p CloseAll) w = (Ret (Close3 true closed pnl), w')
          /\ 0 < closed) ->
      (forall w, exists now w', oracle _ Now w = (Ret now, w')) ->
      forall p, In p (coin_positions_of coin positions) ->
        Py.Qlt_bool 0 min_qty && Qle_bool (p_size p) min_qty = true ->
        exists p' memo,
          In p' (coin_positions_of coin positions)
          /\ Py.Qlt_bool 0 min_qty && Qle_bool (p_size p') min_qty = true
          /\ pos_key_of (p_symbol p) (p_side p) = pos_key_of (p_symbol p') (p_side p')
          /\ forced_liquidations
               (eng (snd (_handle_reduce_position oracle cfg symbol coin record s)))
             !! pos_key_of (p_symbol p) (p_side p) = Some memo
          /\ accidental_memo_of (p_size p') min_qty memo).
Proof.
  intros Hopen Hq Hmin.
  match goal with
  | |- ?G => change (wp (_handle_reduce_position oracle cfg symbol coin record)
                       (fun _ s' =>
                          reduce_memos min_qty coin (coin_positions_of coin positions)
                            (eng s) (eng s')
                          /\ ((forall p w, exists closed pnl w',
                                  oracle _ (ClosePosition p CloseAll) w
                                  = (Ret (Close3 true closed pnl), w') /\ 0 < closed) ->
                              (forall w, exists now w', oracle _ Now w = (Ret now, w')) ->
                              forall p, In p (coin_positions_of coin positions) ->
                                Py.Qlt_bool 0 min_qty && Qle_bool (p_size p) min_qty = true ->
                                exists p' memo,
                                  In p' (coin_positions_of coin positions)
                                  /\ Py.Qlt_bool 0 min_qty && Qle_bool (p_size p') min_qty
                                     = true
                                  /\ pos_key_of (p_symbol p) (p_side p)
                                     = pos_key_of (p_symbol p') (p_side p')
                                  /\ forced_liquidations (eng s')
                                     !! pos_key_of (p_symbol p) (p_side p) = Some memo
                                  /\ accidental_memo_of (p_size p') min_qty memo)) s)
  end.
  unfold _handle_reduce_position.
  apply wp_bind, wp_gets. rewrite bool_decide_eq_false_2 by exact Hopen.
  apply wp_try_except, wp_bind. eapply wp_ext_eq; [exact Hq|].
  set (s1 := after_call (QueryPositions None) w1 s).
  destruct positions as [|p0 rest].
  { apply wp_ret. split; [apply reduce_memos_refl | intros _ _ p []]. }
  destruct (coin_positions_of coin (p0 :: rest)) as [|c0 crest] eqn:Ecps.
  { apply wp_ret. split; [apply reduce_memos_refl | intros _ _ p []]. }
  apply wp_bind.
  destruct (get_min_order_qty_returns oracle coin s1) as (m & w2 & E).
  pose proof (Hmin s1) as Hm. rewrite E in Hm. simpl in Hm. injection Hm as ->.
  unfold wp at 1. rewrite E. cbn [fst snd].
  set (s2 := after_call (PairMinQty coin) w2 s1).
  apply wp_bind.
  destruct (reduce_loop min_qty coin (c0 :: crest) (c0 :: crest) (fun p H => H) O s2)
    as ([n' Hr] & Hmem & Hcs & Hfull).
  unfold wp at 1. rewrite Hr.
  set (s3 := snd (for_each (reduce_one oracle cfg min_qty) 0 (c0 :: crest) s2)) in *.
  clearbody s3.
  assert (Hout : forall s4 : Sys W,
             reduce_memos min_qty coin (c0 :: crest) (eng s3) (eng s4) ->
             reduce_memos min_qty coin (c0 :: crest) (eng s) (eng s4)
             /\ ((forall p w, exists closed pnl w',
                     oracle _ (ClosePosition p CloseAll) w
                     = (Ret (Close3 true closed pnl), w') /\ 0 < closed) ->
                 (forall w, exists now w', oracle _ Now w = (Ret now, w')) ->
                 forall p, In p (c0 :: crest) ->
                   Py.Qlt_bool 0 min_qty && Qle_bool (p_size p) min_qty = true ->
                   exists p' memo,
                     In p' (c0 :: crest)
                     /\ Py.Qlt_bool 0 min_qty && Qle_bool (p_size p') min_qty = true
                     /\ pos_key_of (p_symbol p) (p_side p)
                        = pos_key_of (p_symbol p') (p_side p')
                     /\ forced_liquidations (eng s4)
                        !! pos_key_of (p_symbol p) (p_side p) = Some memo
                     /\ accidental_memo_of (p_size p') min_qty memo)).
  { intros s4 H34. split; [eapply reduce_memos_trans; [exact Hmem | exact H34]|].
    intros Hconfirm Hnow p Hin Hacc.
    destruct (Hfull Hconfirm Hnow p Hin Hacc) as (p' & memo & H1 & H2 & H3 & H4 & H5).
    destruct (reduce_memos_keeps min_qty coin (c0 :: crest) (eng s3) (eng s4)
                (pos_key_of (p_symbol p) (p_side p)) H34) as (p'' & memo' & G1 & G2 & G3 & G4 & G5).
    { exists p', memo. auto. }
    exists p'', memo'. auto. }
  destruct (0 <? n')%nat.
  - apply wp_modify. apply Hout. apply reduce_memos_marked.
  - eapply wp_keeps; [ot oracle|]. intros r s4 [He _].
    destruct r.
    + apply Hout. rewrite He. apply reduce_memos_refl.
    + eapply wp_keeps; [ot oracle|]. intros r5 s5 [He5 _].
      apply Hout. rewrite He5, He. apply reduce_memos_refl.
Qed.

End ReduceLoop.

(** ** Which leverage the open handler passes on *)

Section LeverageUse.

Context {W : Type}.
Variable oracle : forall A : Type, Call A -> W -> Res A * W.
Variable cfg : Config.
Variable symbol : string.
Variable exchange : Z.

(** Whenever the venue answers the request for the exchange's maximum, it
    answers [exchange]. *)
Hypothesis Hexchange :
  forall w r w', oracle _ (SetMaxLeverage symbol true) w = (Ret r, w') -> r = exchange.

Ltac lev_run :=
  emits_run oracle (leverage_use symbol exchange (_get_leverage_for_symbol cfg symbol))
    ltac:(first [ exact I
                | simpl; split; reflexivity
                | simpl; left; reflexivity
                | simpl; right; reflexivity
                | simpl; reflexivity ]).

Lemma wait_loop_emits_leverage n id start timeout :
  keeps (emits (leverage_use symbol exchange (_get_leverage_for_symbol cfg symbol))) (wait_loop oracle n id start timeout).
Proof. induction n as [|n IH]; simpl; lev_run. Qed.

Lemma open_prepare_emits_leverage side size price id :
  keeps (emits (leverage_use symbol exchange (_get_leverage_for_symbol cfg symbol))) (open_prepare oracle cfg symbol side size price id).
Proof. unfold open_prepare, mark_fill. lev_run. Qed.

Lemma open_prepare_leverage side size price id (s : Sys W) leverage qty :
  fst (open_prepare oracle cfg symbol side size price id s) = Ret (inr (leverage, qty)) ->
  leverage = exchange.
Proof.
  unfold open_prepare.
  apply (wp_bind _ _ (fun r _ => r = Ret (inr (leverage, qty)) -> _)).
  apply wp_ext. intros [copy_size|] w1; [|discriminate].
  destruct (Qle_bool copy_size 0).
  { apply wp_bind. eapply (wp_keeps (fun _ _ => True)); [intros ?; exact I|].
    intros [[]|] s1 _; [|discriminate].
    apply wp_bind. eapply (wp_keeps (fun _ _ => True)); [intros ?; exact I|].
    intros [[]|] s2 _; [|discriminate]. apply wp_ret. discriminate. }
  apply wp_bind, wp_ext_case. intros [lev|] w2 Elev; [|discriminate].
  apply wp_bind, wp_ext. intros [q|] w3; [|discriminate].
  destruct (Py.Qlt_bool q (min_position_size cfg)).
  { apply wp_bind. eapply (wp_keeps (fun _ _ => True)); [intros ?; exact I|].
    intros [[]|] s2 _; [|discriminate]. apply wp_ret. discriminate. }
  apply wp_ret. intros Heq. injection Heq as <- _.
  exact (Hexchange _ _ _ Elev).
Qed.

Lemma open_submit_emits_leverage side size price id is_twap oid order qty is_new :
  keeps (emits (leverage_use symbol exchange (_get_leverage_for_symbol cfg symbol)))
    (open_submit oracle cfg symbol side size price id is_twap oid order exchange qty is_new).
Proof.
  pose proof wait_loop_emits_leverage.
  unfold open_submit, open_after_submit, _wait_for_order_execution, query_real_fill,
    mark_fill.
  lev_run.
Qed.

Lemma open_body_emits_leverage side size price record is_twap oid order :
  keeps (emits (leverage_use symbol exchange (_get_leverage_for_symbol cfg symbol)))
    (_handle_open_position_body oracle cfg symbol side size price record is_twap oid order).
Proof.
  assert (Hexc : forall is_new,
             keeps (emits (leverage_use symbol exchange (_get_leverage_for_symbol cfg symbol))) (open_on_exception oracle cfg symbol side (r_id record) is_new)).
  { intros is_new. unfold open_on_exception, mark_fill. lev_run. }
  assert (Hnew : keeps (emits (leverage_use symbol exchange (_get_leverage_for_symbol cfg symbol))) (open_is_new_position oracle symbol side)).
  { unfold open_is_new_position. lev_run. }
  unfold _handle_open_position_body.
  apply (keeps_bind _ (@emits_trans W (leverage_use symbol exchange (_get_leverage_for_symbol cfg symbol)))); [apply (keeps_gets _ (@emits_refl W (leverage_use symbol exchange (_get_leverage_for_symbol cfg symbol))))|].
  intros already. destruct already; [apply (keeps_ret _ (@emits_refl W (leverage_use symbol exchange (_get_leverage_for_symbol cfg symbol))))|].
  intros s. unfold bind at 1, attempt at 1.
  pose proof (open_prepare_emits_leverage side size price (r_id record) s) as Hem.
  pose proof (open_prepare_leverage side size price (r_id record) s) as Hlev.
  destruct (open_prepare oracle cfg symbol side size price (r_id record) s)
    as [[[result|[leverage qty]]|] s1]; simpl in *.
  - exact Hem.
  - eapply emits_trans; [exact Hem|].
    specialize (Hlev leverage qty eq_refl). subst leverage.
    assert (Hrest : keeps (emits (leverage_use symbol exchange (_get_leverage_for_symbol cfg symbol)))
              (is_new_position <- open_is_new_position oracle symbol side ;;
               submitted <- attempt
                 (open_submit oracle cfg symbol side size price (r_id record) is_twap oid
                    order exchange qty is_new_position) ;;
               match submitted with
               | None => open_on_exception oracle cfg symbol side (r_id record)
                           (Some is_new_position)
               | Some result => ret result
               end)).
    { apply (keeps_bind _ (@emits_trans W (leverage_use symbol exchange (_get_leverage_for_symbol cfg symbol)))); [exact Hnew|]. intros is_new.
      apply (keeps_bind _ (@emits_trans W (leverage_use symbol exchange (_get_leverage_for_symbol cfg symbol)))).
      - apply keeps_attempt, open_submit_emits_leverage.
      - intros [result|]; [apply (keeps_ret _ (@emits_refl W (leverage_use symbol exchange (_get_leverage_for_symbol cfg symbol)))) | apply Hexc]. }
    apply Hrest.
  - eapply emits_trans; [exact Hem|]. apply Hexc.
Qed.

Lemma open_emits_leverage side size price record is_twap oid order :
  keeps (emits (leverage_use symbol exchange (_get_leverage_for_symbol cfg symbol)))
    (_handle_open_position oracle cfg symbol side size price record is_twap oid order).
Proof.
  unfold _handle_open_position, critical_retry.
  apply (keeps_with_retry oracle _ (@emits_trans W _)).
  - apply open_body_emits_leverage.
  - intros. apply emits_call. exact I.
Qed.

End LeverageUse.

Section TooSmall.

Context {W : Type}.
Variable oracle : forall A : Type, Call A -> W -> Res A * W.
Variable cfg : Config.

(** A copy size of zero or less: the failure notification carries the
    configured leverage, and the venue is not asked for any. *)
Lemma open_too_small symbol side size price record is_twap oid order copy_size w1
    (s : Sys W) :
  (forall id, r_id record = Some id -> id <> 0%Z -> id ∉ synced_fills (eng s)) ->
  cfg_feishu_notifier cfg = true ->
  oracle _ (CalculateCopySize size price symbol) (world s) = (Ret copy_size, w1) ->
  copy_size <= 0 ->
  exists newer,
    trace (snd (_handle_open_position_body oracle cfg symbol side size price record
                  is_twap oid order s))
    = newer
        ++ EvCall (SendTradeFailure symbol side (_get_leverage_for_symbol cfg symbol) true)
        :: EvCall (CalculateCopySize size price symbol) :: trace s.
Proof.
  intros Hfresh Hnotifier Hcopy Hsmall.
  assert (Halready : match r_id record with
                     | Some id => negb (Z.eqb id 0) && bool_decide (id ∈ synced_fills (eng s))
                     | None => false
                     end = false).
  { destruct (r_id record) as [id|]; [|reflexivity].
    destruct (Z.eqb_spec id 0) as [|Hne]; [reflexivity|]. simpl.
    apply bool_decide_eq_false_2. apply Hfresh; [reflexivity | exact Hne]. }
  change (wp (_handle_open_position_body oracle cfg symbol side size price record
                is_twap oid order)
            (fun _ s' =>
               exists newer,
                 trace s'
                 = newer
                     ++ EvCall (SendTradeFailure symbol side
                                  (_get_leverage_for_symbol cfg symbol) true)
                     :: EvCall (CalculateCopySize size price symbol) :: trace s) s).
  unfold _handle_open_position_body.
  apply wp_bind, wp_gets. rewrite Halready.
  apply wp_bind, wp_attempt. unfold open_prepare.
  apply wp_bind. eapply wp_ext_eq; [exact Hcopy|]. cbv beta iota.
  apply Qle_bool_iff in Hsmall. rewrite Hsmall.
  apply wp_bind. rewrite Hnotifier. cbn [when]. cbv zeta.
  apply wp_ext. intros r w2.
  set (s2 := after_call (SendTradeFailure symbol side (_get_leverage_for_symbol cfg symbol)
                           true) w2
               (after_call (CalculateCopySize size price symbol) w1 s)).
  assert (Hgo : forall {A} (m : M W A),
             keeps extends m ->
             wp m (fun _ s' =>
                     exists newer,
                       trace s'
                       = newer
                           ++ EvCall (SendTradeFailure symbol side
                                        (_get_leverage_for_symbol cfg symbol) true)
                           :: EvCall (CalculateCopySize size price symbol) :: trace s) s2).
  { intros A m Hm. eapply wp_keeps; [exact Hm|]. intros r' s' [newer Hx].
    exists newer. rewrite Hx. reflexivity. }
  destruct r as [[]|]; cbv beta iota.
  - apply wp_bind. eapply wp_keeps; [apply ex_mark_fill|].
    intros r' s3 [newer Hx].
    assert (Hout : exists newer,
               trace s3
               = newer
                   ++ EvCall (SendTradeFailure symbol side
                                (_get_leverage_for_symbol cfg symbol) true)
                   :: EvCall (CalculateCopySize size price symbol) :: trace s)
      by (exists newer; rewrite Hx; reflexivity).
    destruct r' as [[]|]; cbv beta iota.
    + apply wp_ret. cbv beta iota. apply wp_ret. exact Hout.
    + eapply wp_keeps; [apply ex_open_on_exception|]. intros r'' s4 [newer' Hx'].
      destruct Hout as [newer0 Hout]. exists (newer' ++ newer0).
      rewrite Hx', Hout. apply app_assoc.
  - apply Hgo. apply ex_open_on_exception.
Qed.

End TooSmall.

(** ** The first fill with a hash, and the later ones *)

Section FirstAndLater.

Context {W : Type}.
Variable oracle : forall A : Type, Call A -> W -> Res A * W.
Variable cfg : Config.

(** A first fill that the symbol check turns away reaches no handler. *)
Lemma first_filtered record h (s s1 : Sys W) :
  dedupe_hash (Some h) = true -> r_tx_hash record = Some h ->
  fill_already_synced record (eng s) = false ->
  h ∉ synced_tx_hashes (eng s) ->
  _check_symbol_support oracle cfg (r_coin record) (r_id record) true
    (with_engine (add_synced_tx_hash h) s) = (Ret false, s1) ->
  sync_fill_record oracle cfg record s = (Ret tt, s1)
  /\ dispatches (trace s1) = dispatches (trace s).
Proof.
  intros Hd Hh Hnew Hunseen Hsup.
  pose proof (nd_check_symbol_support oracle cfg (r_coin record) (r_id record) true
                (with_engine (add_synced_tx_hash h) s)) as [_ Hquiet].
  rewrite Hsup in Hquiet. simpl in Hquiet.
  split; [|exact Hquiet].
  unfold sync_fill_record, bind at 1, gets at 1. cbn [fst snd]. rewrite Hnew.
  unfold try_except. rewrite (sync_fill_try_first oracle cfg record h s Hd Hh Hunseen).
  unfold sync_fill_checked, bind at 1. rewrite Hsup. reflexivity.
Qed.

(** A first fill that passes the checks reaches the dispatch stage. *)
Lemma first_dispatched record h (s s1 s2 : Sys W) ts w3 :
  dedupe_hash (Some h) = true -> r_tx_hash record = Some h ->
  h ∉ synced_tx_hashes (eng s) ->
  _check_symbol_support oracle cfg (r_coin record) (r_id record) true
    (with_engine (add_synced_tx_hash h) s) = (Ret true, s1) ->
  _validate_order_freshness oracle cfg (r_id record) (r_timestamp record) true s1
  = (Ret (true, ts), s2) ->
  oracle _ (IsTwapFill record) (world s2) = (Ret false, w3) ->
  sync_fill_try oracle cfg record s
  = (returned <- sync_fill_dispatch oracle cfg record
                   (ensure_full_symbol cfg (r_coin record)) false None ;;
     if returned then ret tt else sync_fill_finish oracle cfg record)
      (after_call (IsTwapFill record) w3 s2).
Proof.
  intros Hd Hh Hunseen Hsup Hfresh Htwap.
  rewrite (sync_fill_try_first oracle cfg record h s Hd Hh Hunseen).
  unfold sync_fill_checked, bind at 1. rewrite Hsup. cbn [negb].
  unfold bind at 1. rewrite Hfresh. cbn [negb fst].
  unfold bind at 1, ext at 1. rewrite Htwap. reflexivity.
Qed.

(** The same for a slice of a TWAP order, once the slice is booked. *)
Lemma first_dispatched_twap record h (s s1 s2 : Sys W) ts w3 w4 :
  dedupe_hash (Some h) = true -> r_tx_hash record = Some h ->
  h ∉ synced_tx_hashes (eng s) ->
  _check_symbol_support oracle cfg (r_coin record) (r_id record) true
    (with_engine (add_synced_tx_hash h) s) = (Ret true, s1) ->
  _validate_order_freshness oracle cfg (r_id record) (r_timestamp record) true s1
  = (Ret (true, ts), s2) ->
  oracle _ (IsTwapFill record) (world s2) = (Ret true, w3) ->
  oracle _ (AddSlice record) w3 = (Ret tt, w4) ->
  sync_fill_try oracle cfg record s
  = (returned <- sync_fill_dispatch oracle cfg record
                   (ensure_full_symbol cfg (r_coin record)) true (r_oid record) ;;
     if returned then ret tt else sync_fill_finish oracle cfg record)
      (after_call (AddSlice record) w4 (after_call (IsTwapFill record) w3 s2)).
Proof.
  intros Hd Hh Hunseen Hsup Hfresh Htwap Hslice.
  rewrite (sync_fill_try_first oracle cfg record h s Hd Hh Hunseen).
  unfold sync_fill_checked, bind at 1. rewrite Hsup. cbn [negb].
  unfold bind at 1. rewrite Hfresh. cbn [negb fst].
  unfold bind at 1, ext at 1. rewrite Htwap. cbn [fst snd when].
  unfold bind at 1, ext at 1. cbn [world after_call]. rewrite Hslice. reflexivity.
Qed.

(** A later fill without an id, without a database or with an id known
    already leaves no trace at all. *)
Lemma duplicate_silent record h (s : Sys W) :
  dedupe_hash (Some h) = true -> r_tx_hash record = Some h ->
  h ∈ synced_tx_hashes (eng s) ->
  r_id record = None \/ cfg_db cfg = false \/ fill_already_synced record (eng s) = true ->
  trace (snd (sync_fill_record oracle cfg record s)) = trace s.
Proof.
  intros Hd Hh Hseen Hcase.
  unfold sync_fill_record, bind at 1, gets at 1. cbn [fst snd].
  destruct (fill_already_synced record (eng s)) eqn:Hknown; [reflexivity|].
  unfold try_except, sync_fill_try. rewrite Hh, Hd. cbn [default].
  unfold bind at 1, gets at 1. cbn [fst snd].
  rewrite bool_decide_eq_true_2 by exact Hseen.
  unfold skip_duplicate.
  destruct Hcase as [Hid|[Hdb|Hk]]; [| |discriminate].
  - rewrite Hid. reflexivity.
  - destruct (r_id record) as [id|]; [|reflexivity]. rewrite Hdb. reflexivity.
Qed.

End FirstAndLater.

(** ** De-duplication by [tx_hash]: the two fills of the claim *)




(** ** The order of the reverse-flip test and the complete-close test *)

(** C1, as stated, fails: the fill of scenario S3 closes the whole source
    position (ratio 1) and carries the direction "Short > Long";
    [sync_fill_record] hands it to the reverse handler, not to the full
    close. *)
Lemma C1_counterexample :
  ~ Py.float (r_start_position Demo.flip_fill) == 0
  /\ Py.float 0.995
     <= Qabs (Py.fdiv (r_size Demo.flip_fill) (r_start_position Demo.flip_fill))
  /\ is_complete_close (r_size Demo.flip_fill) (r_start_position Demo.flip_fill) = true
  /\ dispatches
       (trace (snd (sync_fill_record Demo.venue Demo.config Demo.flip_fill
                      (Demo.start Demo.flip_world))))
     = [(HReverse, Demo.flip_fill)].
Proof.
  split; [|split; [|split]].
  - intros H. vm_compute in H. discriminate.
  - vm_compute. discriminate.
  - vm_compute. reflexivity.
  - vm_compute. reflexivity.
Qed.

(** C1, amended: take a fill with nonzero [start_position] and
    [abs(size / abs(start_position)) >= 0.995], the division being that of
    floats.  When its direction does not match a reverse-flip pattern, it
    is handed to the full close of all positions of the coin, and to no
    other handler.  When the direction contains [">"] and matches
    "Long > Short" or "Short > Long", the reverse-flip test comes first:
    the fill goes to the reverse handler when [detect_reverse_signal]
    returns a signal, to the open handler when it returns none (and the
    TWAP order is found without an exception), to no handler when it
    raises; never to the full close. *)
Theorem C1_full_close_unless_reverse_flip {W : Type}
    (oracle : forall A : Type, Call A -> W -> Res A * W) (cfg : Config)
    (record : FillRecord) (symbol : string) (is_twap : bool) (twap_oid : option Z) :
  ~ Py.float (r_start_position record) == 0 ->
  Py.float 0.995 <= Qabs (Py.fdiv (r_size record) (Qabs (r_start_position record))) ->
  (Py.contains ">" (r_direction record) = false
   \/ reverse_new_side (r_direction record) = None ->
   sync_fill_dispatch oracle cfg record symbol is_twap twap_oid
   = (emit (EvDispatch HForceCloseAll record) ;;
      _handle_force_close_all oracle cfg symbol (r_coin record) record ;;
      ret false)
   /\ forall s : Sys W,
        hands_to HForceCloseAll record s
          (snd (sync_fill_dispatch oracle cfg record symbol is_twap twap_oid s)))
  /\ (forall new_side (s : Sys W),
         Py.contains ">" (r_direction record) = true ->
         reverse_new_side (r_direction record) = Some new_side ->
         (forall signal w1,
             oracle _ (DetectReverseSignal symbol (r_direction record) new_side
                         (r_size record) (r_price record)) (world s)
             = (Ret (Some signal), w1) ->
             hands_to HReverse record s
               (snd (sync_fill_dispatch oracle cfg record symbol is_twap twap_oid s)))
         /\ (forall w1,
                oracle _ (DetectReverseSignal symbol (r_direction record) new_side
                            (r_size record) (r_price record)) (world s)
                = (Ret None, w1) ->
                (fst (twap_order_of oracle twap_oid
                        (after_call (DetectReverseSignal symbol (r_direction record)
                                       new_side (r_size record) (r_price record)) w1 s))
                 <> Raise ->
                 hands_to HOpen record s
                   (snd (sync_fill_dispatch oracle cfg record symbol is_twap twap_oid s)))
                /\ (fst (twap_order_of oracle twap_oid
                           (after_call (DetectReverseSignal symbol (r_direction record)
                                          new_side (r_size record) (r_price record)) w1 s))
                    = Raise ->
                    dispatches
                      (trace (snd (sync_fill_dispatch oracle cfg record symbol is_twap
                                     twap_oid s)))
                    = dispatches (trace s)))
         /\ (forall w1,
                oracle _ (DetectReverseSignal symbol (r_direction record) new_side
                            (r_size record) (r_price record)) (world s)
                = (Raise, w1) ->
                dispatches
                  (trace (snd (sync_fill_dispatch oracle cfg record symbol is_twap
                                 twap_oid s)))
                = dispatches (trace s))
         /\ hands_over flip_handlers record s
              (snd (sync_fill_dispatch oracle cfg record symbol is_twap twap_oid s))).
Proof.
  intros Hsp Hratio.
  assert (Hcc : is_complete_close (r_size record) (r_start_position record) = true)
    by (apply is_complete_close_iff; auto).
  split.
  - intros Hdir. split.
    + apply dispatch_complete_close; assumption.
    + intros s. apply dispatch_complete_close_iff; assumption.
  - intros new_side s Hgt Hside.
    destruct (dispatch_flip oracle cfg record symbol is_twap twap_oid new_side s Hgt Hside)
      as (H1 & H2 & H3).
    split; [exact H1|]. split; [exact H2|]. split; [exact H3|].
    unfold sync_fill_dispatch. rewrite Hgt, Hside. apply hand_flip_branch.
Qed.

Lemma C1_full_close_unless_reverse_flip_witness :
  hands_to HReverse Demo.flip_fill (Demo.start Demo.flip_world)
    (snd (sync_fill_dispatch Demo.venue Demo.config Demo.flip_fill "ETHUSDT" false None
            (Demo.start Demo.flip_world))).
Proof.
  refine (proj1 (proj2 (C1_full_close_unless_reverse_flip Demo.venue Demo.config
                          Demo.flip_fill "ETHUSDT" false None _ _)
                   "Buy"%string (Demo.start Demo.flip_world) _ _)
            {| reverse_type := "short_to_long" |} Demo.flip_world _).
  - intros H. vm_compute in H. discriminate.
  - vm_compute. discriminate.
  - vm_compute. reflexivity.
  - vm_compute. reflexivity.
  - reflexivity.
Defined.

(** ** The two full-close tests *)

(** C4, as stated, fails: [_handle_close_position] takes a fill that closes
    99.2% of the source position - below 0.995 - for a full close and asks
    the venue to close the whole position. *)
Lemma C4_counterexample :
  ~ Py.float 0.995
    <= Qabs (Py.fdiv (r_size Cases.near_full_fill)
               (r_start_position Cases.near_full_fill))
  /\ is_complete_close (r_size Cases.near_full_fill)
       (r_start_position Cases.near_full_fill) = false
  /\ close_requests
       (trace (snd (_handle_close_position_body Demo.venue Demo.config "SOLUSDT" "Sell"
                      (r_size Cases.near_full_fill) 150 Cases.near_full_fill
                      (Demo.start Demo.small_reduce_world))))
     = [(Demo.sol_position, CloseAll)].
Proof.
  split; [|split].
  - intros H. vm_compute in H. apply H. reflexivity.
  - vm_compute. reflexivity.
  - vm_compute. reflexivity.
Qed.

(** C4, amended: the two places that decide whether a fill is a full close
    both require a nonzero [start_position] and compare the float ratio of
    [size] to [start_position] with a threshold.  [sync_fill_record] hands
    a fill whose direction is no reverse flip to the full close of the coin
    exactly when [abs(size / abs(start_position)) >= 0.995];
    [_handle_close_position], in a run of its body, asks the venue to close
    every open position of the coin whole when
    [abs(size / start_position) >= 0.99], and asks for a quantity for each
    of them otherwise. *)
Theorem C4_full_close_thresholds {W : Type}
    (oracle : forall A : Type, Call A -> W -> Res A * W) (cfg : Config)
    (record : FillRecord) (symbol side : string) (size price : Q)
    (is_twap : bool) (twap_oid : option Z) (s : Sys W) :
  (Py.contains ">" (r_direction record) = false
   \/ reverse_new_side (r_direction record) = None ->
   (hands_to HForceCloseAll record s
      (snd (sync_fill_dispatch oracle cfg record symbol is_twap twap_oid s))
    <-> ~ Py.float (r_start_position record) == 0
        /\ Py.float 0.995
           <= Qabs (Py.fdiv (r_size record) (Qabs (r_start_position record)))))
  /\ (forall positions w1,
         oracle _ (QueryPositions None) (world s) = (Ret positions, w1) ->
         (~ Py.float (r_start_position record) == 0
          /\ Py.float 0.99 <= Qabs (Py.fdiv size (r_start_position record)) ->
          closes (map (fun p => (p, CloseAll))
                    (coin_positions_of (Py.remove_all "USDT" symbol) positions))
            s (snd (_handle_close_position_body oracle cfg symbol side size price
                      record s)))
         /\ (~ (~ Py.float (r_start_position record) == 0
                /\ Py.float 0.99 <= Qabs (Py.fdiv size (r_start_position record))) ->
             exists quantities,
               List.length quantities
               = List.length (coin_positions_of (Py.remove_all "USDT" symbol) positions)
               /\ closes (combine (coin_positions_of (Py.remove_all "USDT" symbol) positions)
                            (map CloseQty quantities))
                    s (snd (_handle_close_position_body oracle cfg symbol side size price
                              record s)))).
Proof.
  split.
  - intros Hdir.
    rewrite (dispatch_complete_close_iff oracle cfg record symbol is_twap twap_oid s Hdir).
    apply is_complete_close_iff.
  - intros positions w1 Hq. split.
    + intros Htest. apply is_full_close_hl_iff in Htest.
      apply (close_body_full_closes oracle cfg symbol side size price record positions
               w1 s Htest Hq).
    + intros Htest.
      assert (Hfalse : is_full_close_hl size (r_start_position record) = false).
      { destruct (is_full_close_hl size (r_start_position record)) eqn:E; [|reflexivity].
        exfalso. apply Htest. apply is_full_close_hl_iff. exact E. }
      apply (close_body_partial_quantities oracle cfg symbol side size price record
               positions w1 s Hfalse Hq).
Qed.

(** ** Partial closes and the minimum lot *)




(** ** The order-id mapping: place, cancel, and the scan *)




(** ** The leverage of the open handler *)




(** ** The open handler and ids that are not true *)


(** * Further properties of the manager *)

(** ** [check_position_sync] *)

(** X1: every action [check_position_sync] reports is justified.  An
    ['open'] stands for an expected position of positive size for whose
    key (full symbol, side) the venue lists no position of positive size;
    an ['adjust'] stands for an expected position whose size, subtracted in
    floats, differs by more than [min_position_size] from that of a venue
    position of positive size with its key. *)
Theorem X1_check_position_sync_actions_justified (cfg : Config)
    (db_positions : list DbPosition) (bybit_positions : list Position) :
  (forall symbol side size,
      In (ActionOpen symbol side size) (check_position_sync cfg db_positions bybit_positions) ->
      0 < size
      /\ (exists db, In db db_positions
                     /\ symbol = ensure_full_symbol cfg (d_coin db)
                     /\ side = d_side db /\ size = d_size db)
      /\ forall pos, In pos bybit_positions -> 0 < p_size pos ->
                     pos_key_of (p_symbol pos) (p_side pos) <> pos_key_of symbol side)
  /\ (forall symbol side expected actual,
         In (ActionAdjust symbol side expected actual)
            (check_position_sync cfg db_positions bybit_positions) ->
         Py.float (min_position_size cfg) < Qabs (Py.fsub expected actual)
         /\ (exists db, In db db_positions
                        /\ symbol = ensure_full_symbol cfg (d_coin db)
                        /\ side = d_side db /\ expected = d_size db)
         /\ exists pos, In pos bybit_positions /\ 0 < p_size pos
                        /\ pos_key_of (p_symbol pos) (p_side pos) = pos_key_of symbol side
                        /\ p_size pos = actual).
Proof. apply check_position_sync_sound. Qed.

(** X2: a position the venue holds but no expected position refers to is
    passed over in silence: with or without it the report is the same. *)
Theorem X2_check_position_sync_ignores_unexpected (cfg : Config)
    (db_positions : list DbPosition) (before : list Position) (pos : Position)
    (after : list Position) :
  (forall db, In db db_positions ->
              pos_key_of (ensure_full_symbol cfg (d_coin db)) (d_side db)
              <> pos_key_of (p_symbol pos) (p_side pos)) ->
  check_position_sync cfg db_positions (before ++ pos :: after)
  = check_position_sync cfg db_positions (before ++ after).
Proof. apply check_position_sync_unreferenced. Qed.

Lemma X2_check_position_sync_ignores_unexpected_witness :
  check_position_sync Demo.config [Cases.expected_btc]
    ([Cases.btc_long] ++ Cases.eth_long :: [])
  = check_position_sync Demo.config [Cases.expected_btc] ([Cases.btc_long] ++ []).
Proof.
  apply (X2_check_position_sync_ignores_unexpected Demo.config [Cases.expected_btc]
           [Cases.btc_long] Cases.eth_long []).
  intros db [<-|[]]. vm_compute. discriminate.
Defined.

(** X3: when the venue lists no position of positive size, the report is
    one ['open'] for each expected position of positive size, in their
    order; an expected size of zero or less yields nothing. *)
Theorem X3_check_position_sync_flat_venue (cfg : Config)
    (db_positions : list DbPosition) (bybit_positions : list Position) :
  (forall pos, In pos bybit_positions -> p_size pos <= 0) ->
  check_position_sync cfg db_positions bybit_positions
  = map (fun db => ActionOpen (ensure_full_symbol cfg (d_coin db)) (d_side db) (d_size db))
      (List.filter (fun db => Py.Qlt_bool 0 (d_size db)) db_positions).
Proof. apply check_position_sync_flat_venue. Qed.

Lemma X3_check_position_sync_flat_venue_witness :
  check_position_sync Demo.config [Cases.expected_btc] []
  = [ActionOpen "BTCUSDT" "Buy" 1].
Proof.
  rewrite (X3_check_position_sync_flat_venue Demo.config [Cases.expected_btc] []).
  - reflexivity.
  - intros pos [].
Defined.

(** ** [_load_leverage_config] *)

(** X4: in a leverage text of ASCII characters, an entry that raises (more
    than one colon, or a leverage that is no integer) ends the loading: the
    table holds what the entries before it gave, and nothing of what
    follows. *)
Theorem X4_leverage_table_stops_at_bad_entry (text : string)
    (before : list string) (bad : string) (after : list string) :
  PyStr.is_ascii text = true ->
  PyStr.split_on "," text = before ++ bad :: after ->
  parse_leverage_pair bad = Raise ->
  _load_leverage_config (Some text) = load_pairs before ∅.
Proof. intros _. apply load_leverage_config_stops. Qed.

Lemma X4_leverage_table_stops_at_bad_entry_witness :
  _load_leverage_config (Some "BTC:50,ETH:x,SOL:25"%string)
  = load_pairs ["BTC:50"%string] ∅.
Proof.
  apply (X4_leverage_table_stops_at_bad_entry "BTC:50,ETH:x,SOL:25"
           ["BTC:50"%string] "ETH:x" ["SOL:25"%string]).
  - reflexivity.
  - vm_compute. reflexivity.
  - vm_compute. reflexivity.
Defined.

(** X5: with the table loaded from a text of ASCII characters,
    [_get_leverage_for_symbol] answers for a symbol whose short form is
    ASCII and, upper-cased, is [key]: the leverage of the last entry for
    [key], when no entry before it raises; [MAX_LEVERAGE] when no entry is
    for [key]. *)
Theorem X5_leverage_of_last_entry (cfg : Config) (text symbol key : string) :
  PyStr.is_ascii text = true ->
  PyStr.is_ascii (ensure_short_symbol cfg symbol) = true ->
  leverage_config cfg = _load_leverage_config (Some text) ->
  Py.upper (ensure_short_symbol cfg symbol) = key ->
  (forall before entry after lev,
      PyStr.split_on "," text = before ++ entry :: after ->
      Forall (fun e => parse_leverage_pair e <> Raise) before ->
      parse_leverage_pair entry = Ret (Some (key, lev)) ->
      Forall (fun e => forall lev', parse_leverage_pair e <> Ret (Some (key, lev'))) after ->
      _get_leverage_for_symbol cfg symbol = lev)
  /\ (Forall (fun e => forall lev, parse_leverage_pair e <> Ret (Some (key, lev)))
        (PyStr.split_on "," text) ->
      _get_leverage_for_symbol cfg symbol = MAX_LEVERAGE cfg).
Proof.
  intros _ _ Hcfg Hkey. unfold _get_leverage_for_symbol. rewrite Hkey, Hcfg. split.
  - intros before entry after lev Hsplit Hbefore Hentry Hafter.
    rewrite (load_leverage_config_last text before entry after key lev
               Hsplit Hbefore Hentry Hafter). reflexivity.
  - intros Hnone. rewrite (load_leverage_config_missing text key Hnone). reflexivity.
Qed.

Lemma X5_leverage_of_last_entry_witness :
  _get_leverage_for_symbol (Cases.config_of "btc:50, ETH : 30,BTC:75") "BTCUSDT" = 75%Z.
Proof.
  refine (proj1 (X5_leverage_of_last_entry (Cases.config_of "btc:50, ETH : 30,BTC:75")
                   "btc:50, ETH : 30,BTC:75" "BTCUSDT" "BTC" eq_refl eq_refl eq_refl _)
            ["btc:50"%string; " ETH : 30"%string] "BTC:75"%string [] 75%Z _ _ _ _).
  - vm_compute. reflexivity.
  - vm_compute. reflexivity.
  - repeat constructor; vm_compute; discriminate.
  - vm_compute. reflexivity.
  - constructor.
Defined.

(** ** The two streams *)

(** X6: whatever the collaborators answer, [sync_order_record] sends no
    market order, no close, no reverse and no status of a fill, hands no
    fill to a handler, and leaves the collections of the fill stream as they
    are. *)
Theorem X6_order_stream_leaves_positions {W : Type}
    (oracle : forall A : Type, Call A -> W -> Res A * W) (cfg : Config)
    (record : OrderRecord) (s : Sys W) :
  emits leaves_positions s (snd (sync_order_record oracle cfg record s))
  /\ same_fill_books (eng s) (eng (snd (sync_order_record oracle cfg record s))).
Proof.
  split; [apply order_stream_emits | apply order_stream_changes].
Qed.

(** X7: whatever the collaborators answer, [sync_fill_record] places no
    limit order, cancels none and sends no status of an order record, and
    leaves the processed order ids and the order-id mapping as they
    are. *)
Theorem X7_fill_stream_leaves_orders {W : Type}
    (oracle : forall A : Type, Call A -> W -> Res A * W) (cfg : Config)
    (record : FillRecord) (s : Sys W) :
  emits leaves_orders s (snd (sync_fill_record oracle cfg record s))
  /\ same_order_books (eng s) (eng (snd (sync_fill_record oracle cfg record s))).
Proof.
  split; [apply fill_stream_emits | apply fill_stream_changes].
Qed.

(** X8: every limit order [sync_order_record] places, retries included,
    is for the full symbol of the record's coin, at the record's price, and
    on the side [Buy] exactly when the record's side is ["BUY"]; any other
    side is placed as [Sell]. *)
Theorem X8_order_stream_limit_order_side {W : Type}
    (oracle : forall A : Type, Call A -> W -> Res A * W) (cfg : Config)
    (record : OrderRecord) (s : Sys W) :
  emits (limit_order_as (ensure_full_symbol cfg (o_coin record))
           (if String.eqb (o_side record) "BUY" then "Buy" else "Sell")
           (o_price record))
    s (snd (sync_order_record oracle cfg record s)).
Proof. apply order_stream_limit_orders. Qed.

(** X9: every market order [_handle_open_position] places, retries
    included, is for the symbol and side it was called with and for a
    quantity of at least [min_position_size]. *)
Theorem X9_open_position_least_quantity {W : Type}
    (oracle : forall A : Type, Call A -> W -> Res A * W) (cfg : Config)
    (symbol side : string) (size price : Q) (record : FillRecord) (is_twap : bool)
    (twap_oid : option Z) (twap_order : option TwapOrder) (s : Sys W) :
  emits (market_order_as symbol side (min_position_size cfg)) s
    (snd (_handle_open_position oracle cfg symbol side size price record
            is_twap twap_oid twap_order s)).
Proof. apply open_emits. Qed.

(** ** The close handlers *)

(** X10: unless the coin is marked as closed, [_handle_force_close_all]
    asks the venue to close, whole and once each, in the venue's order,
    exactly the positions of positive size whose symbol starts with the
    coin and ends with [USDT], whatever their side - so also those of
    another coin whose name starts with the coin's. *)
Theorem X10_force_close_all_requests {W : Type}
    (oracle : forall A : Type, Call A -> W -> Res A * W) (cfg : Config)
    (symbol coin : string) (record : FillRecord) (positions : list Position) (w1 : W)
    (s : Sys W) :
  coin ∉ closed_symbols (eng s) ->
  oracle _ (QueryPositions None) (world s) = (Ret positions, w1) ->
  closes (map (fun position => (position, CloseAll)) (coin_positions_of coin positions))
    s (snd (_handle_force_close_all oracle cfg symbol coin record s))
  /\ forall position x,
       In position positions ->
       p_symbol position = (coin ++ x ++ "USDT")%string ->
       0 < p_size position ->
       In (position, CloseAll)
         (close_requests (trace (snd (_handle_force_close_all oracle cfg symbol coin
                                        record s)))).
Proof.
  intros Hopen Hq.
  pose proof (force_close_all_closes oracle cfg symbol coin record positions w1 s Hopen Hq)
    as Hc.
  split; [exact Hc|].
  intros position x Hin Hsym Hpos. unfold closes in Hc. rewrite Hc.
  apply in_or_app. left. apply -> in_rev.
  apply (in_map (fun position => (position, CloseAll))).
  apply (coin_positions_of_symbol coin x); assumption.
Qed.

Lemma X10_force_close_all_requests_witness :
  In (Cases.ethfi_short, CloseAll)
    (close_requests
       (trace (snd (_handle_force_close_all Demo.venue Demo.config "ETHUSDT" "ETH"
                      Demo.close_fill (Demo.start Cases.mixed_world))))).
Proof.
  refine (proj2 (X10_force_close_all_requests Demo.venue Demo.config "ETHUSDT" "ETH"
                   Demo.close_fill [Cases.eth_long; Cases.ethfi_short; Cases.btc_long]
                   Cases.mixed_world (Demo.start Cases.mixed_world) _ _)
            Cases.ethfi_short "FI" _ _ _).
  - apply not_elem_of_empty.
  - reflexivity.
  - right. left. reflexivity.
  - reflexivity.
  - reflexivity.
Defined.

(** X11: no close request of [_handle_close_position], retries included,
    asks for more than the position holds. *)
Theorem X11_close_position_within_position {W : Type}
    (oracle : forall A : Type, Call A -> W -> Res A * W) (cfg : Config)
    (symbol side : string) (size price : Q) (record : FillRecord) (s : Sys W) :
  emits close_within s
    (snd (_handle_close_position oracle cfg symbol side size price record s)).
Proof. apply close_position_emits. Qed.

(** X12: [_handle_reduce_position] unpacks the venue's reply to a close
    into three names, the two other close handlers into four.  Against a
    venue that never replies with three values the reduce handler counts no
    close as done: it leaves the manager's collections as they are (the
    coin is not marked as closed, no memo is written), sends no
    notification of a success, and - when the venue lists a position of
    the coin - has asked the venue to close each of them whole and ends by
    reporting that all closes failed. *)
Theorem X12_reduce_position_counts_no_quadruple {W : Type}
    (oracle : forall A : Type, Call A -> W -> Res A * W) (cfg : Config)
    (symbol coin : string) (record : FillRecord) (s : Sys W) :
  close_replies_have_four oracle ->
  eng (snd (_handle_reduce_position oracle cfg symbol coin record s)) = eng s
  /\ emits no_success_notice s (snd (_handle_reduce_position oracle cfg symbol coin record s))
  /\ forall positions w1,
       coin ∉ closed_symbols (eng s) ->
       oracle _ (QueryPositions None) (world s) = (Ret positions, w1) ->
       coin_positions_of coin positions <> [] ->
       closes (map (fun position => (position, CloseAll))
                 (coin_positions_of coin positions))
         s (snd (_handle_reduce_position oracle cfg symbol coin record s))
       /\ (cfg_feishu_notifier cfg = true ->
           exists older,
             trace (snd (_handle_reduce_position oracle cfg symbol coin record s))
             = EvCall (SendNotification NoticeReduceAllFailed NtError symbol "") :: older).
Proof.
  intros Hfour.
  destruct (reduce_quadruple_quiet oracle cfg Hfour symbol coin record s) as [He Hem].
  split; [exact He|]. split; [exact Hem|].
  intros positions w1. apply reduce_quadruple_reports. exact Hfour.
Qed.

Lemma X12_reduce_position_counts_no_quadruple_witness :
  exists older,
    trace (snd (_handle_reduce_position Cases.steady Demo.config "SOLUSDT" "SOL"
                  Demo.small_reduce_fill (Demo.start Demo.small_reduce_world)))
    = EvCall (SendNotification NoticeReduceAllFailed NtError "SOLUSDT" "") :: older.
Proof.
  refine (proj2 (proj2 (proj2 (X12_reduce_position_counts_no_quadruple Cases.steady
                                 Demo.config "SOLUSDT" "SOL" Demo.small_reduce_fill
                                 (Demo.start Demo.small_reduce_world) _))
                   [Demo.sol_position] Demo.small_reduce_world _ _ _) _).
  - intros position how w success closed_size pnl w' H. simpl in H. discriminate.
  - apply not_elem_of_empty.
  - reflexivity.
  - vm_compute. discriminate.
  - reflexivity.
Defined.

(** ** The age of a record, the reported fill *)




(** ** The memos and the mark of a closed coin *)

(** X15: after a full close that the venue confirmed,
    [_handle_close_position] counts the position as closed whatever
    follows; but the memo of kind [follow] is written after the success
    notification: if sending it raises, no memo is written and the
    manager's collections stay as they were; if it goes through, the memo
    is stored under (symbol, side) with the closed size and the time of the
    clock. *)
Theorem X15_follow_memo_after_notification {W : Type}
    (oracle : forall A : Type, Call A -> W -> Res A * W) (cfg : Config)
    (coin : string) (size : Q) (count : nat) (position : Position)
    (closed : Q) (pnl : option Q) (error_code : option string) (s : Sys W) (w1 : W) :
  oracle _ (ClosePosition position CloseAll) (world s)
  = (Ret (Close4 true closed pnl error_code), w1) ->
  0 < closed ->
  (cfg_feishu_notifier cfg = true ->
   (forall w,
       fst (oracle _ (SendNotification NoticeFullCloseOk NtSuccess
                        (p_symbol position) (p_side position)) w) = Raise) ->
   fst (close_one oracle cfg coin size true count position s) = Ret (S count)
   /\ eng (snd (close_one oracle cfg coin size true count position s)) = eng s)
  /\ (forall now,
         (forall w,
             fst (oracle _ (SendNotification NoticeFullCloseOk NtSuccess
                              (p_symbol position) (p_side position)) w) = Ret tt) ->
         (forall w, fst (oracle _ Now w) = Ret now) ->
         fst (close_one oracle cfg coin size true count position s) = Ret (S count)
         /\ forced_liquidations
              (eng (snd (close_one oracle cfg coin size true count position s)))
            = <[pos_key_of (p_symbol position) (p_side position)
                := {| m_time := now; m_type := Follow;
                      m_fields := [("size"%string, closed)] |}]>
                (forced_liquidations (eng s))).
Proof.
  intros Hclose Hclosed. split.
  - apply (follow_memo_lost oracle cfg coin size count position closed pnl error_code
             s w1 Hclose Hclosed).
  - intros now.
    apply (follow_memo_written oracle cfg coin size count position closed pnl error_code
             s w1 Hclose Hclosed now).
Qed.

Lemma X15_follow_memo_after_notification_witness :
  fst (close_one Cases.mute Demo.config "SOL" 0.5 true 0 Demo.sol_position
         (Demo.start Demo.small_reduce_world)) = Ret 1%nat
  /\ eng (snd (close_one Cases.mute Demo.config "SOL" 0.5 true 0 Demo.sol_position
                 (Demo.start Demo.small_reduce_world))) = new_engine.
Proof.
  refine (proj1 (X15_follow_memo_after_notification Cases.mute Demo.config "SOL" 0.5 0
                   Demo.sol_position 1 None None (Demo.start Demo.small_reduce_world)
                   Demo.small_reduce_world _ _) _ _).
  - reflexivity.
  - reflexivity.
  - reflexivity.
  - intros w. reflexivity.
Defined.

(** X16: a complete close that finds no open position of the coin marks
    the coin as closed; from then on [_handle_force_close_all] and
    [_handle_reduce_position] for that coin return at once, without a
    request and without a change. *)
Theorem X16_closed_symbol_mark {W : Type}
    (oracle : forall A : Type, Call A -> W -> Res A * W) (cfg : Config)
    (symbol coin : string) (record : FillRecord) (positions : list Position) (w1 : W)
    (s : Sys W) :
  coin ∉ closed_symbols (eng s) ->
  oracle _ (QueryPositions None) (world s) = (Ret positions, w1) ->
  coin_positions_of coin positions = [] ->
  let s1 := snd (_handle_force_close_all oracle cfg symbol coin record s) in
  coin ∈ closed_symbols (eng s1)
  /\ trace s1 = EvCall (QueryPositions None) :: trace s
  /\ (forall symbol' record',
         _handle_force_close_all oracle cfg symbol' coin record' s1 = (Ret tt, s1))
  /\ (forall symbol' record',
         _handle_reduce_position oracle cfg symbol' coin record' s1 = (Ret tt, s1)).
Proof.
  intros Hopen Hq Hnone. cbv zeta.
  rewrite (force_close_all_nothing_open oracle cfg symbol coin record positions w1 s
             Hopen Hq Hnone).
  assert (Hin : coin ∈ closed_symbols
                         (eng (with_engine (set_closed_symbols (union {[coin]}))
                                 (after_call (QueryPositions None) w1 s))))
    by (simpl; set_solver).
  split; [exact Hin|]. split; [reflexivity|]. split.
  - intros symbol' record'. apply force_close_all_latched. exact Hin.
  - intros symbol' record'. apply reduce_position_latched. exact Hin.
Qed.

Lemma X16_closed_symbol_mark_witness :
  "XRP"%string
  ∈ closed_symbols
      (eng (snd (_handle_force_close_all Demo.venue Demo.config "XRPUSDT" "XRP"
                   Demo.close_fill (Demo.start Cases.mixed_world)))).
Proof.
  refine (proj1 (X16_closed_symbol_mark Demo.venue Demo.config "XRPUSDT" "XRP"
                   Demo.close_fill [Cases.eth_long; Cases.ethfi_short; Cases.btc_long]
                   Cases.mixed_world (Demo.start Cases.mixed_world) _ _ _)).
  - apply not_elem_of_empty.
  - reflexivity.
  - reflexivity.
Defined.

(** X17: after [clear_forced_liquidation] for (symbol, side),
    [get_forced_liquidation] for the same pair returns nothing and does not
    even consult the clock; the memo of any other pair is as it was, the
    sides being [Buy] or [Sell]. *)
Theorem X17_clear_forced_liquidation {W : Type}
    (oracle : forall A : Type, Call A -> W -> Res A * W)
    (symbol side : string) (s : Sys W) :
  get_forced_liquidation oracle symbol side
    (snd (@clear_forced_liquidation W symbol side s))
  = (Ret None, snd (@clear_forced_liquidation W symbol side s))
  /\ forall symbol' side',
       side = "Buy"%string \/ side = "Sell"%string ->
       side' = "Buy"%string \/ side' = "Sell"%string ->
       (symbol', side') <> (symbol, side) ->
       forced_liquidations (eng (snd (@clear_forced_liquidation W symbol side s)))
         !! pos_key_of symbol' side'
       = forced_liquidations (eng s) !! pos_key_of symbol' side'.
Proof.
  split.
  - apply (clear_then_get oracle symbol side s).
  - intros symbol' side'. apply clear_keeps_others.
Qed.

(** ** What has been processed, and what may escape *)

(** X18: once the [try] block of [sync_fill_record] has run to its end for
    a fill with an id, the id is among the processed ids, and any further
    [sync_fill_record] of that fill returns at once: no request, no
    change. *)
Theorem X18_fill_processed_once {W : Type}
    (oracle : forall A : Type, Call A -> W -> Res A * W) (cfg : Config)
    (record : FillRecord) (id : Z) (s : Sys W) :
  r_id record = Some id ->
  fst (sync_fill_try oracle cfg record s) = Ret tt ->
  id ∈ synced_fills (eng (snd (sync_fill_record oracle cfg record s)))
  /\ sync_fill_record oracle cfg record (snd (sync_fill_record oracle cfg record s))
     = (Ret tt, snd (sync_fill_record oracle cfg record s)).
Proof.
  intros Hid Hret. apply (processed_once oracle cfg record id Hid s Hret).
Qed.

Lemma X18_fill_processed_once_witness :
  sync_fill_record Demo.venue Demo.config Demo.dup_first
    (snd (sync_fill_record Demo.venue Demo.config Demo.dup_first (Demo.start Demo.quiet)))
  = (Ret tt,
     snd (sync_fill_record Demo.venue Demo.config Demo.dup_first (Demo.start Demo.quiet))).
Proof.
  refine (proj2 (X18_fill_processed_once Demo.venue Demo.config Demo.dup_first 1
                   (Demo.start Demo.quiet) _ _)).
  - reflexivity.
  - vm_compute. reflexivity.
Defined.

(** X19: the only exception that leaves [sync_fill_record] is the one of
    the database when, the [try] block having raised, the fill's status is
    set to [failed].  An exception leaves [sync_order_record] in two cases
    only: the record has no ['id'] - the [KeyError] of the read before the
    [try] block, with nothing done - or the database raises when the
    status is set to [failed].  The bodies of [_handle_place_order] and
    [_handle_cancel_order] let no exception out at all. *)
Theorem X19_exceptions_that_escape {W : Type}
    (oracle : forall A : Type, Call A -> W -> Res A * W) (cfg : Config) :
  (forall record (s : Sys W),
      fst (sync_fill_record oracle cfg record s) = Raise ->
      cfg_db cfg = true
      /\ exists id older,
           r_id record = Some id
           /\ fst (sync_fill_try oracle cfg record s) = Raise
           /\ trace (snd (sync_fill_record oracle cfg record s))
              = EvCall (UpdateFillStatus id StFailed) :: older)
  /\ (forall record (s : Sys W),
         fst (sync_order_record oracle cfg record s) = Raise ->
         (o_id record = None /\ snd (sync_order_record oracle cfg record s) = s)
         \/ (cfg_db cfg = true
             /\ exists id older,
                  o_id record = Some id
                  /\ trace (snd (sync_order_record oracle cfg record s))
                     = EvCall (UpdateOrderStatus id StFailed) :: older))
  /\ (forall record (s : Sys W),
         o_id record = None -> sync_order_record oracle cfg record s = (Raise, s))
  /\ (forall symbol side size price record (s : Sys W),
         fst (_handle_place_order_body oracle cfg symbol side size price record s) = Ret tt)
  /\ (forall symbol hl record (s : Sys W),
         fst (_handle_cancel_order_body oracle symbol hl record s) = Ret tt).
Proof.
  split; [|split; [|split; [|split]]].
  - apply sync_fill_record_escape.
  - apply sync_order_record_escape.
  - intros record s Hid. unfold sync_order_record. rewrite Hid. reflexivity.
  - apply place_order_body_returns.
  - apply cancel_order_body_returns.
Qed.

Lemma X19_exceptions_that_escape_witness :
  cfg_db Demo.config = true
  /\ exists id older,
       r_id Demo.dup_first = Some id
       /\ fst (sync_fill_try Cases.broken Demo.config Demo.dup_first (Demo.start Demo.quiet))
          = Raise
       /\ trace (snd (sync_fill_record Cases.broken Demo.config Demo.dup_first
                        (Demo.start Demo.quiet)))
          = EvCall (UpdateFillStatus id StFailed) :: older.
Proof.
  refine (proj1 (X19_exceptions_that_escape Cases.broken Demo.config) Demo.dup_first
            (Demo.start Demo.quiet) _).
  vm_compute. reflexivity.
Defined.

(** X20: when the mapping has no entry for the source order,
    [_handle_cancel_order] looks for the order by price among the open
    orders and compares their side with the record's side as it stands.  If
    the record's side is ["BUY"] or ["SELL"] and the venue writes [Buy] and
    [Sell], no open order matches, whatever its price: nothing is
    cancelled and the mapping stays as it is. *)
Theorem X20_cancel_by_price_compares_sides {W : Type}
    (oracle : forall A : Type, Call A -> W -> Res A * W)
    (symbol : string) (record : OrderRecord) (hl : Z) (s : Sys W) :
  hl <> 0%Z ->
  order_id_mapping (eng s) !! hl = None ->
  o_side record = "BUY"%string \/ o_side record = "SELL"%string ->
  (forall open_orders w',
      oracle _ QueryOpenOrders (world s) = (Ret open_orders, w') ->
      Forall (fun order => oo_side order = "Buy"%string \/ oo_side order = "Sell"%string)
        open_orders) ->
  fst (_handle_cancel_order_body oracle symbol (Some hl) record s) = Ret tt
  /\ eng (snd (_handle_cancel_order_body oracle symbol (Some hl) record s)) = eng s
  /\ emits (fun e => is_cancel e = false) s
       (snd (_handle_cancel_order_body oracle symbol (Some hl) record s)).
Proof.
  intros Hhl Hmap Hside Hvenue.
  apply cancel_by_price_sides; [exact Hhl | exact Hmap |].
  intros open_orders w' Hq. specialize (Hvenue open_orders w' Hq).
  eapply Forall_impl; [exact Hvenue|].
  intros order Hv Heq. cbv beta in Hv.
  destruct Hside as [Hs|Hs]; rewrite Heq, Hs in Hv; destruct Hv; discriminate.
Qed.

Lemma X20_cancel_by_price_compares_sides_witness :
  fst (_handle_cancel_order_body Demo.venue "BTCUSDT" (Some 42%Z) Demo.canceled_order
         (Demo.start Cases.resting_world)) = Ret tt
  /\ eng (snd (_handle_cancel_order_body Demo.venue "BTCUSDT" (Some 42%Z)
                 Demo.canceled_order (Demo.start Cases.resting_world)))
     = new_engine
  /\ emits (fun e => is_cancel e = false) (Demo.start Cases.resting_world)
       (snd (_handle_cancel_order_body Demo.venue "BTCUSDT" (Some 42%Z)
               Demo.canceled_order (Demo.start Cases.resting_world))).
Proof.
  refine (X20_cancel_by_price_compares_sides Demo.venue "BTCUSDT" Demo.canceled_order 42
            (Demo.start Cases.resting_world) _ _ _ _).
  - discriminate.
  - reflexivity.
  - left. reflexivity.
  - intros open_orders w' H. injection H as <- _. repeat constructor.
Defined.
